(** * Sentiment Analysis API: a shallow embedding of the Worker's [fetch]
    handler with its D1 statements, and the properties of its endpoints.

    Strings are JavaScript strings: finite sequences of UTF-16 code units.
    Numbers are IEEE 754 binary64 values.  The D1 tables are lists of rows,
    the SQL statements of the handler are list programs over them; the
    store compares and matches text by its UTF-8 bytes, that is by code
    points, and hands text back as valid UTF-8. *)

From Stdlib Require Import Ascii String.
From Stdlib Require Import List NArith ZArith Bool Lia.
From Stdlib Require Import Sorting.Sorted Sorting.Permutation.
From Stdlib Require Import Floats.SpecFloat.
From Stdlib Require DecimalN DecimalPos.
From Equations Require Import Equations.
Import ListNotations.

Set Implicit Arguments.

(* ===================================================================== *)
(** * JavaScript strings *)
(* ===================================================================== *)

Module JsString.

Local Open Scope N_scope.

(** A code unit (0 .. 65535) and a string of them. *)
Definition char := N.
Definition jsstring := list char.

(** Literals of the source, all of them ASCII. *)
Definition js (s : string) : jsstring :=
  map N_of_ascii (list_ascii_of_string s).

Definition LT : char := 60.  (* < *)
Definition GT : char := 62.  (* > *)

Definition between (lo hi c : char) : bool := (lo <=? c) && (c <=? hi).

(** WhiteSpace and LineTerminator of ECMAScript: what [\s] matches and
    what [trim] strips. *)
Definition isSpace (c : char) : bool :=
  between 9 13 c || (c =? 32) || (c =? 160) || (c =? 5760)
  || between 8192 8202 c || (c =? 8232) || (c =? 8233) || (c =? 8239)
  || (c =? 8287) || (c =? 12288) || (c =? 65279).

Fixpoint trimStart (s : jsstring) : jsstring :=
  match s with
  | [] => []
  | c :: r => if isSpace c then trimStart r else s
  end.

Definition trimEnd (s : jsstring) : jsstring := rev (trimStart (rev s)).

(** [s.trim()] *)
Definition trim (s : jsstring) : jsstring := trimEnd (trimStart s).

(** [s.substring(0, n)] *)
Definition substring0 (n : nat) (s : jsstring) : jsstring := firstn n s.

(** [s.toLowerCase()] of a string of ASCII code units (below 128), as the
    labels of the classifier are: there it maps A-Z and nothing else.  The
    mappings of the cased characters above 127 are not part of the model,
    and what is stated about a lower-cased label is stated for ASCII
    labels. *)
Definition lowerChar (c : char) : char :=
  if between 65 90 c then c + 32 else c.
Definition toLowerCase (s : jsstring) : jsstring := map lowerChar s.

(** The two halves of a surrogate pair. *)
Definition isHigh (c : char) : bool := between 55296 56319 c.
Definition isLow (c : char) : bool := between 56320 57343 c.

(** No surrogate without its partner: well-formed UTF-16, what
    [encodeURIComponent] accepts (it throws a URIError otherwise). *)
Fixpoint wellFormed (s : jsstring) : bool :=
  match s with
  | [] => true
  | c :: r =>
      if between 55296 56319 c then
        match r with
        | d :: r' => between 56320 57343 d && wellFormed r'
        | [] => false
        end
      else negb (between 56320 57343 c) && wellFormed r
  end.

Fixpoint str_eqb (a b : jsstring) : bool :=
  match a, b with
  | [], [] => true
  | x :: a', y :: b' => (x =? y) && str_eqb a' b'
  | _, _ => false
  end.

(** The lexicographic order of two sequences of numbers, a proper prefix
    first. *)
Fixpoint str_leb (a b : list N) : bool :=
  match a, b with
  | [], _ => true
  | _ :: _, [] => false
  | x :: a', y :: b' => (x <? y) || ((x =? y) && str_leb a' b')
  end.

(** [s.startsWith(p)] *)
Fixpoint startsWith (p s : jsstring) : bool :=
  match p, s with
  | [], _ => true
  | x :: p', y :: s' => (x =? y) && startsWith p' s'
  | _ :: _, [] => false
  end.

(** [s.includes(q)] *)
Fixpoint includes (q s : jsstring) : bool :=
  startsWith q s || match s with [] => false | _ :: s' => includes q s' end.

(** JavaScript truthiness of a string: non-empty. *)
Definition truthy (s : jsstring) : bool :=
  match s with [] => false | _ :: _ => true end.

End JsString.
Import JsString.

(* ===================================================================== *)
(** * cleanText *)
(* ===================================================================== *)

Module Sanitizer.

Local Open Scope N_scope.

(** Offset of the first [>] of [s]. *)
Fixpoint indexOfGt (s : jsstring) : option nat :=
  match s with
  | [] => None
  | c :: r => if c =? GT then Some O else option_map S (indexOfGt r)
  end.

(** The regular expression [<[^>]+>] anchored at the head of [c :: rest]:
    the number of code units of [rest] that the match covers.  The class
    [[^>]+] takes every code unit up to the next [>] and needs one at
    least, so [<>] does not match and neither does a [<] that no [>]
    follows. *)
Definition matchTag (c : char) (rest : jsstring) : option nat :=
  if c =? LT then
    match indexOfGt rest with
    | Some (S k) => Some (S (S k))
    | _ => None
    end
  else None.

(** [text.replace(/<[^>]+>/g, '')]: the leftmost match is dropped and the
    scan goes on behind it. *)
Equations? removeTags (s : jsstring) : jsstring by wf (length s) lt :=
  removeTags [] := [];
  removeTags (c :: rest) with matchTag c rest => {
    | Some n := removeTags (skipn n rest);
    | None := c :: removeTags rest }.
Proof. rewrite length_skipn. simpl. lia. Qed.

(** The class [[a-zA-Z0-9\s.,!?]]. *)
Definition isAllowed (c : char) : bool :=
  between 97 122 c || between 65 90 c || between 48 57 c || isSpace c
  || (c =? 46) || (c =? 44) || (c =? 33) || (c =? 63).

(** [.replace(/[^a-zA-Z0-9\s.,!?]/g, '')] *)
Definition removeSpecial (s : jsstring) : jsstring := filter isAllowed s.

Definition MAX_LEN : nat := 1000.

Definition cleanText (text : jsstring) : jsstring :=
  substring0 MAX_LEN (trim (removeSpecial (removeTags text))).

End Sanitizer.
Import Sanitizer.

(* ===================================================================== *)
(** * JavaScript numbers *)
(* ===================================================================== *)

Module JsNumber.

Local Open Scope Z_scope.

(** A Number is a binary64 value; arithmetic rounds to nearest, ties to
    even. *)
Definition number := spec_float.
Definition prec : Z := 53.
Definition emax : Z := 1024.

Definition fadd : number -> number -> number := SFadd prec emax.
Definition fmul : number -> number -> number := SFmul prec emax.
Definition fdiv : number -> number -> number := SFdiv prec emax.
Definition fleb : number -> number -> bool := SFleb.
Definition fsub : number -> number -> number := SFsub prec emax.
Definition fltb : number -> number -> bool := SFltb.
Definition fabs : number -> number := SFabs.

Definition zero : number := S754_zero false.

(** [Number.isFinite]: neither NaN nor an infinity. *)
Definition isFinite (x : number) : bool :=
  match x with
  | S754_zero _ | S754_finite _ _ _ => true
  | S754_nan | S754_infinity _ => false
  end.

(** The Number nearest to the quotient of two positive integers. *)
Definition ofRatio (neg : bool) (p q : positive) : number :=
  let '(m, e, l) := SFdiv_core_binary prec emax (Zpos p) 0 (Zpos q) 0 in
  binary_round_aux prec emax neg m e l.

(** The Number nearest to [m * 10^e], signed. *)
Definition ofDecimal (neg : bool) (m : N) (e : Z) : number :=
  match m with
  | N0 => S754_zero neg
  | Npos p =>
      if 0 <=? e then ofRatio neg (p * Z.to_pos (10 ^ e)) 1
      else ofRatio neg p (Z.to_pos (10 ^ (- e)))
  end.

(** An integer of the store (a COUNT or a SUM of ones) as a Number. *)
Definition ofN (n : N) : number := ofDecimal false n 0.

(** Truthiness: [0], [-0] and [NaN] are falsy. *)
Definition truthy (x : number) : bool :=
  match x with
  | S754_zero _ | S754_nan => false
  | _ => true
  end.

(** ** Decimal digits *)

Fixpoint uintCodes (u : Decimal.uint) : jsstring :=
  match u with
  | Decimal.Nil => []
  | Decimal.D0 r => 48%N :: uintCodes r
  | Decimal.D1 r => 49%N :: uintCodes r
  | Decimal.D2 r => 50%N :: uintCodes r
  | Decimal.D3 r => 51%N :: uintCodes r
  | Decimal.D4 r => 52%N :: uintCodes r
  | Decimal.D5 r => 53%N :: uintCodes r
  | Decimal.D6 r => 54%N :: uintCodes r
  | Decimal.D7 r => 55%N :: uintCodes r
  | Decimal.D8 r => 56%N :: uintCodes r
  | Decimal.D9 r => 57%N :: uintCodes r
  end.

(** The decimal representation of a natural number. *)
Definition digits (n : N) : jsstring := uintCodes (N.to_uint n).

(** ** Number.prototype.toFixed *)

(** The integer [n] for which [n / 10^f - m * 2^e] is closest to zero, the
    larger one of two. *)
Definition roundScaled (f : nat) (m : positive) (e : Z) : Z :=
  let t := 10 ^ Z.of_nat f in
  if 0 <=? e then Zpos m * 2 ^ e * t
  else (2 * Zpos m * t + 2 ^ (- e)) / 2 ^ (1 - e).

(** [n] written with [f] digits behind the point. *)
Definition fixedDigits (f : nat) (n : N) : jsstring :=
  let ds := digits n in
  match f with
  | O => ds
  | S _ =>
      let ds := repeat 48%N (S f - length ds) ++ ds in
      let k := (length ds - f)%nat in
      firstn k ds ++ 46%N :: skipn k ds
  end.

(** Number::toString of a finite integer [x = v >= 10^21]: the least
    number [k] of digits [s] such that [s * 10^(n-k)] reads back as [x],
    in exponent notation. *)
Definition readsBack (x : number) (c : N) : bool :=
  match SFcompare (ofDecimal false c 0) x with
  | Some Eq => true
  | _ => false
  end.

Definition shortest_at (x : number) (v : N) (k : nat) : option N :=
  let n := length (digits v) in
  let scale := (10 ^ N.of_nat (n - k))%N in
  let lo := (v / scale)%N in
  let c1 := (lo * scale)%N in
  let c2 := ((lo + 1) * scale)%N in
  match readsBack x c1, readsBack x c2 with
  | true, true =>
      match (v - c1 ?= c2 - v)%N with
      | Lt => Some c1
      | Gt => Some c2
      | Eq => if N.even lo then Some c1 else Some c2
      end
  | true, false => Some c1
  | false, true => Some c2
  | false, false => None
  end.

Fixpoint shortest (x : number) (v : N) (k fuel : nat) : N :=
  match fuel with
  | O => v
  | S fuel' =>
      match shortest_at x v k with
      | Some c => c
      | None => shortest x v (S k) fuel'
      end
  end.

Fixpoint stripZeros (r : list char) : list char :=
  match r with
  | [] => []
  | c :: r' => if (c =? 48)%N then stripZeros r' else r
  end.

Definition toStringLarge (x : number) (v : N) : jsstring :=
  let ds := digits (shortest x v 1 17) in
  let e := digits (N.of_nat (length ds - 1)) in
  match ds with
  | [] => []
  | d :: r =>
      let frac := rev (stripZeros (rev r)) in
      match frac with
      | [] => d :: js "e+" ++ e
      | _ => d :: 46%N :: frac ++ js "e+" ++ e
      end
  end.

Definition toFixed (f : nat) (x : number) : jsstring :=
  match x with
  | S754_nan => js "NaN"
  | S754_infinity false => js "Infinity"
  | S754_infinity true => js "-Infinity"
  | S754_zero _ => fixedDigits f 0
  | S754_finite s m e =>
      let sign := if s then js "-" else [] in
      if (0 <=? e) && (10 ^ 21 <=? Zpos m * 2 ^ e)
      then sign ++ toStringLarge (S754_finite false m e) (Z.to_N (Zpos m * 2 ^ e))
      else sign ++ fixedDigits f (Z.to_N (roundScaled f m e))
  end.

(** ** parseFloat *)

Definition isDigit (c : char) : bool := between 48%N 57%N c.

(** The leading decimal digits of [s], as a number and a count, and what
    follows them. *)
Fixpoint takeDigits (acc : N) (cnt : nat) (s : jsstring) : N * nat * jsstring :=
  match s with
  | c :: r =>
      if isDigit c then takeDigits (10 * acc + (c - 48))%N (S cnt) r
      else (acc, cnt, s)
  | [] => (acc, cnt, [])
  end.

(** ExponentPart, when one is there: [e] or [E], a sign, digits. *)
Definition exponentPart (s : jsstring) : Z :=
  match s with
  | c :: r =>
      if (c =? 101)%N || (c =? 69)%N then
        let '(neg, r') :=
          match r with
          | 43%N :: r' => (false, r')
          | 45%N :: r' => (true, r')
          | _ => (false, r)
          end in
        let '(v, cnt, _) := takeDigits 0 0 r' in
        match cnt with
        | O => 0
        | S _ => if neg then - Z.of_N v else Z.of_N v
        end
      else 0
  | [] => 0
  end.

(** StrUnsignedDecimalLiteral: [Infinity], or digits with an optional
    fraction and exponent; the longest prefix of [s] of that form, rounded
    to the nearest Number, [NaN] when there is none. *)
Definition parseUnsigned (neg : bool) (s : jsstring) : number :=
  if startsWith (js "Infinity") s then S754_infinity neg
  else
    let '(ip, icnt, s2) := takeDigits 0 0 s in
    let '(m, fcnt, s3) :=
      match s2 with
      | 46%N :: r => let '(m, cnt, s3) := takeDigits ip icnt r in (m, (cnt - icnt)%nat, s3)
      | _ => (ip, O, s2)
      end in
    match (icnt + fcnt)%nat with
    | O => S754_nan
    | S _ => ofDecimal neg m (exponentPart s3 - Z.of_nat fcnt)
    end.

(** [parseFloat(s)]: leading whitespace is skipped, then a sign, then the
    literal. *)
Definition parseFloat (s : jsstring) : number :=
  match trimStart s with
  | 43%N :: r => parseUnsigned false r
  | 45%N :: r => parseUnsigned true r
  | s1 => parseUnsigned false s1
  end.

End JsNumber.
Import JsNumber.


(* ===================================================================== *)
(** * The D1 database *)
(* ===================================================================== *)

Module Db.

Local Open Scope N_scope.

(** A row of [movies].  The table is seeded from SQL text and never
    written by the service: its strings are valid text, which a SELECT
    hands back as it is. *)
Record Movie := {
  id : jsstring;                   (* TEXT PRIMARY KEY *)
  title : jsstring;                (* TEXT NOT NULL *)
  year : option Z;                 (* INTEGER *)
  poster_url : option jsstring     (* TEXT *)
}.

(** A row of [reviews].  [created_at] is CURRENT_TIMESTAMP at the insert,
    kept as seconds of UTC time; timestamps and dates written as
    [YYYY-MM-DD HH:MM:SS] and [YYYY-MM-DD] compare as these numbers do.
    The strings are held as they were bound: the store keeps the bytes of
    their generalized UTF-8, in which an unpaired surrogate is three bytes
    that are not valid UTF-8; a SELECT hands them back through
    [readBack]. *)
Record Review := {
  review_id : N;                   (* INTEGER PRIMARY KEY AUTOINCREMENT *)
  movie_id : jsstring;             (* TEXT NOT NULL *)
  review_text : jsstring;          (* TEXT NOT NULL *)
  sentiment : jsstring;            (* TEXT NOT NULL *)
  confidence : number;             (* REAL NOT NULL *)
  created_at : N                   (* DATETIME DEFAULT CURRENT_TIMESTAMP *)
}.

(** The two tables; [reviews] in insertion order. *)
Record Store := {
  movies : list Movie;
  reviews : list Review
}.

(** ** Clauses of the statements *)

(** ORDER BY: a stable insertion sort. *)
Fixpoint insertBy {A} (leb : A -> A -> bool) (x : A) (l : list A) : list A :=
  match l with
  | [] => [x]
  | y :: r => if leb x y then x :: l else y :: insertBy leb x r
  end.

Definition orderBy {A} (leb : A -> A -> bool) (l : list A) : list A :=
  fold_right (insertBy leb) [] l.

(** LIMIT *)
Definition limit {A} (n : nat) (l : list A) : list A := firstn n l.

(** COUNT( * ) *)
Definition countRows {A} (l : list A) : N := N.of_nat (length l).

(** ** Text in the store *)

(** A string as a SELECT hands it back: the bytes of an unpaired
    surrogate do not decode, and each of the three comes back as U+FFFD. *)
Fixpoint readBack (s : jsstring) : jsstring :=
  match s with
  | [] => []
  | c :: r =>
      match r with
      | d :: r' =>
          if isHigh c && isLow d then c :: d :: readBack r'
          else if isHigh c || isLow c then 65533 :: 65533 :: 65533 :: readBack r
          else c :: readBack r
      | [] =>
          if isHigh c || isLow c then [65533; 65533; 65533] else [c]
      end
  end.

(** A REAL as a SELECT hands it back: the store keeps a value without a
    fraction as an integer, so that [-0] comes back as [0]. *)
Definition readReal (x : number) : number :=
  match x with
  | S754_zero _ => zero
  | _ => x
  end.

(** The code points of a string, an unpaired surrogate standing for
    itself: their order is the order of the bytes in the store. *)
Fixpoint codePoints (s : jsstring) : list N :=
  match s with
  | [] => []
  | c :: r =>
      match r with
      | d :: r' =>
          if isHigh c && isLow d
          then (65536 + (c - 55296) * 1024 + (d - 56320)) :: codePoints r'
          else c :: codePoints r
      | [] => [c]
      end
  end.

(** The bytes a code point takes in the store. *)
Definition utf8Width (c : N) : nat :=
  if c <? 128 then 1 else if c <? 2048 then 2 else if c <? 65536 then 3 else 4.

(** The length in bytes of a bound string. *)
Definition utf8Length (s : jsstring) : nat :=
  list_sum (map utf8Width (codePoints s)).

(** A character as LIKE reads it from the bytes: a surrogate, U+FFFE and
    U+FFFF are read as U+FFFD. *)
Definition sqlChar (c : N) : N :=
  if isHigh c || isLow c || (c =? 65534) || (c =? 65535) then 65533 else c.

(** LIKE reads a text up to its first NUL. *)
Fixpoint cstr (s : list N) : list N :=
  match s with
  | [] => []
  | c :: r => if c =? 0 then [] else c :: cstr r
  end.

(** The characters of a text for LIKE. *)
Definition sqlChars (s : jsstring) : list N := cstr (map sqlChar (codePoints s)).

(** The longest pattern, in bytes, that the store accepts for LIKE. *)
Definition LIKE_PATTERN_LIMIT : nat := 50.

(** [text LIKE pattern] on the characters of the two, here with the
    pattern first: [%] stands for any run of characters, [_] for any single
    one, ASCII letters match in either case. *)
Fixpoint like (p t : list N) : bool :=
  match p with
  | [] => match t with [] => true | _ :: _ => false end
  | c :: p' =>
      if c =? 37 then
        (fix star (t : jsstring) : bool :=
           like p' t || match t with [] => false | _ :: t' => star t' end) t
      else
        match t with
        | [] => false
        | x :: t' => ((c =? 95) || (lowerChar c =? lowerChar x)) && like p' t'
        end
  end.

(** DATE(created_at): the calendar day. *)
Definition DATE (t : N) : N := t / 86400.

(** [date('now', '-30 days')] as a calendar day. *)
Definition dateMinus30 (now : N) : N := DATE now - 30.

Definition isPositive (r : Review) : bool := str_eqb (sentiment r) (js "positive").
Definition isNegative (r : Review) : bool := str_eqb (sentiment r) (js "negative").
Definition ofMovie (movieId : jsstring) (r : Review) : bool :=
  str_eqb (movie_id r) movieId.

(** ** The statements of the handler *)

(** SELECT ... FROM movies WHERE id = ?  (first row) *)
Definition selectMovie (s : Store) (movieId : jsstring) : option Movie :=
  find (fun m => str_eqb (id m) movieId) (movies s).

(** The next AUTOINCREMENT key: one more than the largest in use. *)
Definition nextId (s : Store) : N :=
  fold_right (fun r acc => N.max (review_id r) acc) 0 (reviews s) + 1.

(** INSERT INTO reviews (movie_id, review_text, sentiment, confidence):
    the row holds the strings as they were bound. *)
Definition insertReview (s : Store) (now : N)
    (movieId text senti : jsstring) (conf : number) : Store * N :=
  let rid := nextId s in
  ({| movies := movies s;
      reviews := reviews s ++
        [{| review_id := rid; movie_id := movieId; review_text := text;
            sentiment := senti; confidence := conf; created_at := now |}] |},
   rid).

(** The row of the statistics statement.  The SUMs and the AVG are NULL
    over no rows. *)
Record StatsRow := {
  total_reviews : N;
  positive_count : option N;
  negative_count : option N;
  avg_confidence : option number
}.

(** One step of the sum inside AVG, a compensated (Kahan-Babuska-Neumaier)
    summation in binary64: the running sum and, beside it, the rounding
    errors of its additions. *)
Definition kbnStep (acc : number * number) (r : number) : number * number :=
  let s := fst acc in
  let t := fadd s r in
  (t, fadd (snd acc)
           (if fltb (fabs r) (fabs s) then fadd (fsub s t) r
            else fadd (fsub r t) s)).

(** AVG of the storage engine over a REAL column: the values are summed
    in row order with [kbnStep], the errors are added to the sum at the
    end (unless they have overflowed), and the result is divided by the
    count; NULL over no rows, and NULL for a result that is not a
    number.  The sum depends on the order of the rows. *)
Definition AVG (l : list number) : option number :=
  match l with
  | [] => None
  | _ :: _ =>
      let acc := fold_left kbnStep l (zero, zero) in
      let r := if isFinite (snd acc) then fadd (fst acc) (snd acc) else fst acc in
      match fdiv r (ofN (N.of_nat (length l))) with
      | S754_nan => None
      | a => Some a
      end
  end.

Definition SUM (l : list N) : option N :=
  match l with
  | [] => None
  | _ :: _ => Some (fold_right N.add 0 l)
  end.

Definition caseWhen (c : bool) : N := if c then 1 else 0.

(** The reviews of a movie as the statements with [WHERE movie_id = ?]
    read them, through the index on (movie_id, sentiment): by sentiment
    (the bytes compared), and in insertion order within a sentiment. *)
Definition bySentiment (a b : Review) : bool :=
  str_leb (codePoints (sentiment a)) (codePoints (sentiment b)).

Definition movieRows (s : Store) (movieId : jsstring) : list Review :=
  orderBy bySentiment (filter (ofMovie movieId) (reviews s)).

Definition selectStats (s : Store) (movieId : jsstring) : StatsRow :=
  let rows := movieRows s movieId in
  {| total_reviews := countRows rows;
     positive_count := SUM (map (fun r => caseWhen (isPositive r)) rows);
     negative_count := SUM (map (fun r => caseWhen (isNegative r)) rows);
     avg_confidence := AVG (map (fun r => readReal (confidence r)) rows) |}.

(** ... ORDER BY created_at DESC LIMIT 10.  The statement leaves the
    order among reviews of the same second to the engine, which keeps the
    order in which it reads them. *)
Definition selectRecent (s : Store) (movieId : jsstring) : list Review :=
  limit 10 (orderBy (fun a b => created_at b <=? created_at a)
              (movieRows s movieId)).

Record TrendRow := {
  date : N;
  positive : N;
  negative : N
}.

(** WHERE movie_id = ? AND created_at >= date('now', '-30 days') *)
Definition inTrendWindow (now : N) (movieId : jsstring) (r : Review) : bool :=
  ofMovie movieId r && (dateMinus30 now <=? DATE (created_at r)).

Definition onDate (d : N) (r : Review) : bool := DATE (created_at r) =? d.

(** ... GROUP BY DATE(created_at) ORDER BY date DESC: one row for each
    value of the grouping expression, the SUMs taken over its rows (a
    group has a row, so they are not NULL). *)
Definition selectTrend (s : Store) (now : N) (movieId : jsstring) : list TrendRow :=
  let rows := filter (inTrendWindow now movieId) (reviews s) in
  let groups := nodup N.eq_dec (map (fun r => DATE (created_at r)) rows) in
  orderBy (fun a b => date b <=? date a)
    (map (fun d =>
            let g := filter (onDate d) rows in
            {| date := d;
               positive := fold_right N.add 0 (map (fun r => caseWhen (isPositive r)) g);
               negative := fold_right N.add 0 (map (fun r => caseWhen (isNegative r)) g) |})
         groups).

(** ORDER BY title under the BINARY collation: the bytes compared, which
    is the code points compared, a proper prefix first. *)
Definition byTitle (a b : Movie) : bool :=
  str_leb (codePoints (title a)) (codePoints (title b)).

(** SELECT ... FROM movies ORDER BY title LIMIT 50 *)
Definition selectAllMovies (s : Store) : list Movie :=
  limit 50 (orderBy byTitle (movies s)).

(** SELECT ... FROM movies WHERE title LIKE ? ORDER BY title LIMIT 20.
    LIKE refuses a pattern of more than [LIKE_PATTERN_LIMIT] bytes where
    it is evaluated, that is at the first row; then the statement fails
    ([None]). *)
Definition selectMoviesLike (s : Store) (pattern : jsstring) : option (list Movie) :=
  match movies s with
  | [] => Some []
  | _ :: _ =>
      if (LIKE_PATTERN_LIMIT <? utf8Length pattern)%nat then None
      else Some (limit 20 (orderBy byTitle
                   (filter (fun m => like (sqlChars pattern) (sqlChars (title m)))
                           (movies s))))
  end.

End Db.
Import Db.

(* ===================================================================== *)
(** * The request handler *)
(* ===================================================================== *)

Module Api.

Local Open Scope N_scope.

(** ** The environment: Workers AI and the clock *)

(** An element of the array that [env.AI.run] resolves to; a member that
    is absent, or not of the type the handler uses it at, is [None]. *)
Record AiItem := {
  label : option jsstring;
  score : option number
}.

Inductive AiResult :=
| AiRejected                        (* the promise rejects *)
| AiResolved (items : list AiItem).

(** The classifier, an opaque capability. *)
Definition Classifier := jsstring -> AiResult.

(** What a request can change or observe: the database, the time of the
    request, and the texts handed to the classifier so far. *)
Record World := {
  db : Store;
  clock : N;
  aiCalls : list jsstring
}.

(** ** Exceptions and the handler monad *)

Inductive Exn :=
| TypeError          (* a member of undefined, a method that is not there *)
| AiError            (* env.AI.run rejected *)
| D1Error.           (* the statement was refused by the store *)

Definition M (A : Type) : Type := World -> (A + Exn) * World.

Definition ret {A} (a : A) : M A := fun w => (inl a, w).
Definition throw {A} (e : Exn) : M A := fun w => (inr e, w).
Definition bind {A B} (m : M A) (k : A -> M B) : M B :=
  fun w =>
    match m w with
    | (inl a, w') => k a w'
    | (inr e, w') => (inr e, w')
    end.

Notation "x <- m ;; k" := (bind m (fun x => k))
  (at level 61, m at next level, right associativity).

(** A member access or method call that throws on [undefined]. *)
Definition member {A} (o : option A) : M A :=
  match o with
  | Some a => ret a
  | None => throw TypeError
  end.

(** [await env.AI.run(model, { text })] *)
Definition runAI (ai : Classifier) (text : jsstring) : M (list AiItem) :=
  fun w =>
    let w' := {| db := db w; clock := clock w; aiCalls := aiCalls w ++ [text] |} in
    match ai text with
    | AiRejected => (inr AiError, w')
    | AiResolved items => (inl items, w')
    end.

Definition query {A} (q : Store -> A) : M A := fun w => (inl (q (db w)), w).
Definition queryNow {A} (q : Store -> N -> A) : M A :=
  fun w => (inl (q (db w) (clock w)), w).

(** A statement that the store may refuse. *)
Definition queryMay {A} (q : Store -> option A) : M A :=
  fun w =>
    match q (db w) with
    | Some a => (inl a, w)
    | None => (inr D1Error, w)
    end.

(** [.bind(movieId, text, sentiment, confidence).run()]; an absent
    confidence is bound as [undefined], which the store refuses, and one
    that is not finite is bound as NULL, which the NOT NULL column
    refuses. *)
Definition runInsert (movieId text senti : jsstring) (conf : option number) : M N :=
  fun w =>
    match conf with
    | None => (inr D1Error, w)
    | Some c =>
        if isFinite c then
          let '(s', rid) := insertReview (db w) (clock w) movieId text senti c in
          (inl rid, {| db := s'; clock := clock w; aiCalls := aiCalls w |})
        else (inr D1Error, w)
    end.

(** ** Requests and responses *)

(** The parsed JSON bodies, at their declared types; a member that is
    absent or null is [None]. *)
Record PredictRequest := { text : option jsstring }.

Record ReviewRequest := {
  req_movieId : option jsstring;
  req_text : option jsstring;
  req_sentiment : option jsstring;
  req_confidence : option number
}.

Inductive Request :=
| OPTIONS
| PostPredict (body : PredictRequest)          (* POST /api/predict *)
| PostReviews (body : ReviewRequest)           (* POST /api/reviews *)
| GetSentiment (movieId : jsstring)            (* GET /api/movies/:movieId/sentiment *)
| GetMovies (q : option jsstring)              (* GET /api/movies?q= *)
| GetHealth                                    (* GET /api/health *)
| Unmatched.

(** A JSON value that is a number on one path and a string on another. *)
Inductive JsValue :=
| JNum (x : number)
| JStr (s : jsstring).

Record Stats := {
  totalReviews : N;
  positiveCount : N;
  negativeCount : N;
  positivePercentage : JsValue;
  averageConfidence : JsValue
}.

Record RecentReview := {
  rr_text : jsstring;
  rr_sentiment : jsstring;
  rr_confidence : number;
  rr_date : N
}.

Inductive Body :=
| NoBody
| ErrorBody (error : string)
| InternalError (e : Exn)          (* error: 'Internal server error', message *)
| Prediction (text sentiment : jsstring) (confidence : number) (model : string)
| Saved (reviewId : N)             (* success: true, reviewId, message *)
| Sentiment (movie : Movie) (stats : Stats)
    (recentReviews : list RecentReview) (trend : list TrendRow)
| Movies (movies : list Movie) (count : nat)
| Healthy (timestamp : N).

Record Response := {
  status : N;
  body : Body
}.

Definition jsonResponse (data : Body) (status : N) : Response :=
  {| status := status; body := data |}.

(** [!s] for a string member *)
Definition missing (s : option jsstring) : bool :=
  match s with
  | Some t => negb (JsString.truthy t)
  | None => true
  end.

(** [x || 0] for a nullable count *)
Definition orZero (x : option N) : N :=
  match x with
  | Some n => n
  | None => 0
  end.

(** ** The routes *)

Definition predict (ai : Classifier) (b : PredictRequest) : M Response :=
  match text b with
  | None => ret (jsonResponse (ErrorBody "Text is required") 400)
  | Some t =>
      if missing (Some t) || (length (trim t) =? 0)%nat then
        ret (jsonResponse (ErrorBody "Text is required") 400)
      else
        let cleanedText := cleanText t in
        aiResponse <- runAI ai cleanedText ;;
        first <- member (nth_error aiResponse 0) ;;
        lbl <- member (label first) ;;
        let sentiment := toLowerCase lbl in
        confidence <- member (score first) ;;
        ret (jsonResponse
               (Prediction t sentiment (parseFloat (toFixed 4 confidence))
                  "distilbert-sst-2") 200)
  end.

Definition saveReview (b : ReviewRequest) : M Response :=
  if missing (req_movieId b) || missing (req_text b) || missing (req_sentiment b) then
    ret (jsonResponse (ErrorBody "Missing required fields") 400)
  else
    movieId <- member (req_movieId b) ;;
    txt <- member (req_text b) ;;
    senti <- member (req_sentiment b) ;;
    movie <- query (fun s => selectMovie s movieId) ;;
    match movie with
    | None => ret (jsonResponse (ErrorBody "Movie not found") 404)
    | Some _ =>
        rid <- runInsert movieId (substring0 1000 txt) senti (req_confidence b) ;;
        ret (jsonResponse (Saved rid) 201)
    end.

(** The [stats] member of the sentiment response. *)
Definition assembleStats (row : StatsRow) : Stats :=
  {| totalReviews := total_reviews row;
     positiveCount := orZero (positive_count row);
     negativeCount := orZero (negative_count row);
     positivePercentage :=
       if total_reviews row =? 0 then JNum zero
       else JStr (toFixed 1
               (fmul (fdiv (ofN (orZero (positive_count row)))
                           (ofN (total_reviews row)))
                     (ofN 100)));
     averageConfidence :=
       match avg_confidence row with
       | Some a => if JsNumber.truthy a then JNum (parseFloat (toFixed 3 a)) else JNum zero
       | None => JNum zero
       end |}.

Definition getSentiment (movieId : jsstring) : M Response :=
  movie <- query (fun s => selectMovie s movieId) ;;
  match movie with
  | None => ret (jsonResponse (ErrorBody "Movie not found") 404)
  | Some m =>
      stats <- query (fun s => selectStats s movieId) ;;
      recent <- query (fun s => selectRecent s movieId) ;;
      trend <- queryNow (fun s now => selectTrend s now movieId) ;;
      ret (jsonResponse
             (Sentiment m (assembleStats stats)
                (map (fun r => {| rr_text := readBack (review_text r);
                                  rr_sentiment := readBack (sentiment r);
                                  rr_confidence := readReal (confidence r);
                                  rr_date := created_at r |}) recent)
                trend) 200)
  end.

Definition getMovies (q : option jsstring) : M Response :=
  movies <- (if missing q then query selectAllMovies
             else queryMay (fun s =>
                    selectMoviesLike s
                      (js "%" ++ match q with Some t => t | None => [] end ++ js "%"))) ;;
  ret (jsonResponse (Movies movies (length movies)) 200).

Definition route (ai : Classifier) (r : Request) : M Response :=
  match r with
  | OPTIONS => ret (jsonResponse NoBody 200)
  | PostPredict b => predict ai b
  | PostReviews b => saveReview b
  | GetSentiment movieId => getSentiment movieId
  | GetMovies q => getMovies q
  | GetHealth => fun w => (inl (jsonResponse (Healthy (clock w)) 200), w)
  | Unmatched => ret (jsonResponse (ErrorBody "Not found") 404)
  end.

(** [fetch]: the routes inside [try], the [catch] answers 500. *)
Definition fetch (ai : Classifier) (r : Request) (w : World) : Response * World :=
  match route ai r w with
  | (inl resp, w') => (resp, w')
  | (inr e, w') => (jsonResponse (InternalError e) 500, w')
  end.

(** ** Runs of the service *)

(** A request arriving at a time. *)
Definition Arrival : Type := N * Request.

Definition at_time (t : N) (w : World) : World :=
  {| db := db w; clock := t; aiCalls := aiCalls w |}.

Fixpoint run (ai : Classifier) (reqs : list Arrival) (w : World) : World :=
  match reqs with
  | [] => w
  | (t, r) :: rest => run ai rest (snd (fetch ai r (at_time t w)))
  end.

(** The service over a seeded catalog, before any review. *)
Definition initial (catalog : list Movie) : World :=
  {| db := {| movies := catalog; reviews := [] |}; clock := 0; aiCalls := [] |}.

End Api.
Import Api.

(* ===================================================================== *)
(** * Vocabulary of the properties *)
(* ===================================================================== *)

Module Props.

Local Open Scope N_scope.

(** [a] is what is left of [b] when some of its elements are removed. *)
Inductive Subseq {A : Type} : list A -> list A -> Prop :=
| Subseq_nil : forall b, Subseq [] b
| Subseq_keep : forall x a b, Subseq a b -> Subseq (x :: a) (x :: b)
| Subseq_drop : forall x a b, Subseq a b -> Subseq a (x :: b).

(** Some position of [s] starts a match of [<[^>]+>]. *)
Fixpoint hasTag (s : jsstring) : bool :=
  match s with
  | [] => false
  | c :: rest =>
      match matchTag c rest with
      | Some _ => true
      | None => hasTag rest
      end
  end.

Definition startsWithSpace (s : jsstring) : bool :=
  match s with
  | c :: _ => isSpace c
  | [] => false
  end.

Definition endsWithSpace (s : jsstring) : bool := startsWithSpace (rev s).

(** Absent, empty or made of whitespace only. *)
Definition blank (t : option jsstring) : bool :=
  match t with
  | None => true
  | Some s => forallb isSpace s
  end.

Definition one : number := ofDecimal false 1 0.

(** [0 <= x <= 1] *)
Definition inUnit (x : number) : bool := fleb zero x && fleb x one.

(** A well-formed binary64 value. *)
Definition isDouble (x : number) : bool := valid_binary prec emax x.

(** The number that a string of decimal digits denotes. *)
Definition decimalValue (s : jsstring) : N :=
  fold_left (fun acc c => 10 * acc + (c - 48)) s 0.

(** [n] is the integer nearest to [x * 10^f], the larger of two such, for
    a double [x] that is not negative and below [10^21]. *)
Definition nearestScaled (f : nat) (x : number) (n : Z) : Prop :=
  match x with
  | S754_zero _ => n = 0%Z
  | S754_finite false m e =>
      if (0 <=? e)%Z
      then (Zpos m * 2 ^ e < 10 ^ 21 /\ n = Zpos m * 2 ^ e * 10 ^ Z.of_nat f)%Z
      else (- 2 ^ (- e) < 2 * (n * 2 ^ (- e) - Zpos m * 10 ^ Z.of_nat f) <= 2 ^ (- e))%Z
  | _ => False
  end.

(** The order of the listing: by title, code point by code point. *)
Definition titleOrder (a b : Movie) : Prop :=
  str_leb (codePoints (title a)) (codePoints (title b)) = true.

(** A string of ASCII code units. *)
Definition isAscii (s : jsstring) : bool := forallb (fun c => c <? 128) s.

(** A string of characters of the Basic Multilingual Plane that LIKE
    reads as they are: no NUL, no surrogate, neither U+FFFE nor U+FFFF. *)
Definition plain (s : jsstring) : bool :=
  forallb (fun c => negb (c =? 0) && negb (isHigh c) && negb (isLow c)
                    && (c <? 65534)) s.

(** No NUL in the string. *)
Definition noNul (s : list N) : bool := forallb (fun c => negb (c =? 0)) s.

(** The table has a row. *)
Definition hasRows {A} (l : list A) : bool :=
  match l with
  | [] => false
  | _ :: _ => true
  end.



(** The order of the trend: later dates first. *)
Definition descending (a b : TrendRow) : Prop := date b < date a.

(** One of the two sentiment values. *)
Definition isSentiment (s : jsstring) : bool :=
  str_eqb s (js "positive") || str_eqb s (js "negative").

End Props.
Import Props.

(* ===================================================================== *)
(** * Scenarios *)
(* ===================================================================== *)

Module Scenario.

Definition shawshank : Movie :=
  {| id := js "tt0111161"; title := js "The Shawshank Redemption";
     year := Some 1994%Z; poster_url := None |}.

Definition darkKnight : Movie :=
  {| id := js "tt0468569"; title := js "The Dark Knight";
     year := Some 2008%Z; poster_url := None |}.

Definition up : Movie :=
  {| id := js "tt1049413"; title := js "Up";
     year := Some 2009%Z; poster_url := None |}.

Definition catalog : list Movie := [shawshank; darkKnight; up].

(** 2024-01-31 12:00:00 UTC *)
Definition noon : N := 1706702400.

Definition start : World := at_time noon (initial catalog).

(** A classifier that answers every text with one label and score. *)
Definition answering (l : string) (s : number) : Classifier :=
  fun _ => AiResolved [{| label := Some (js l); score := Some s |}].

Definition reviewOf (movieId txt senti : string) (conf : number) : ReviewRequest :=
  {| req_movieId := Some (js movieId); req_text := Some (js txt);
     req_sentiment := Some (js senti); req_confidence := Some conf |}.

Definition review (movieId txt senti : string) (conf : number) : Request :=
  PostReviews (reviewOf movieId txt senti conf).

Definition dec (m : N) (e : Z) : number := ofDecimal false m e.

Definition greatMovie : PredictRequest := {| text := Some (js "Great movie!!!") |}.

(** The classifier of the documentation: POSITIVE, 0.9234... *)
Definition sst2 : Classifier := answering "POSITIVE" (dec 923441 (-6)).

(** Two reviews of one movie, one positive (0.9), one negative (0.8). *)
Definition twoReviews : World :=
  run sst2
    [(noon, review "tt0111161" "Best movie ever!" "positive" (dec 9 (-1)));
     ((noon + 60)%N, review "tt0111161" "Too long." "negative" (dec 8 (-1)))]
    start.

(** A classifier with a score above one. *)
Definition overconfident : Classifier := answering "POSITIVE" (dec 15 (-1)).

(** A text of 1001 code units: 999 letters and an emoji, whose surrogate
    pair lies across the cut at 1000. *)
Definition splitPair : jsstring := repeat 97%N 999 ++ [55357; 56832]%N.

(** A review of that text. *)
Definition splitPairReview : Request :=
  PostReviews {| req_movieId := Some (js "tt0111161"); req_text := Some splitPair;
                 req_sentiment := Some (js "positive");
                 req_confidence := Some (dec 9 (-1)) |}.

(** Two more movies, titled with a character of the private use area
    (U+E000) and with an emoji (U+1F600, a surrogate pair). *)
Definition privateUse : Movie :=
  {| id := js "tt9000001"; title := [57344]%N; year := None; poster_url := None |}.
Definition emoji : Movie :=
  {| id := js "tt9000002"; title := [55357; 56832]%N; year := None; poster_url := None |}.

Definition astral : World := at_time noon (initial [emoji; privateUse]).

End Scenario.

(* ===================================================================== *)
(** * The client: the React components that call the API *)
(* ===================================================================== *)

Module Client.

Local Open Scope N_scope.

(** [response.ok] *)
Definition ok (r : Response) : bool := (200 <=? status r) && (status r <=? 299).

(** A Number written by JSON.stringify and read by JSON.parse: [NaN] and
    the infinities come out as [null], [-0] as [0], any other value as it
    is. *)
Definition jsonNumber (x : number) : option number :=
  match x with
  | S754_nan | S754_infinity _ => None
  | S754_zero _ => Some zero
  | S754_finite _ _ _ => Some x
  end.

(** The members of [data] that ReviewInput hands on; a member that the
    response does not have is [None]. *)
Record SentimentResult := {
  sr_text : option jsstring;
  sr_sentiment : option jsstring;
  sr_confidence : option number
}.

(** [await response.json()], read at [text], [sentiment], [confidence];
    [None] when the response has no body to parse. *)
Definition predictionData (b : Body) : option SentimentResult :=
  match b with
  | NoBody => None
  | Prediction t s c _ =>
      Some {| sr_text := Some t; sr_sentiment := Some s; sr_confidence := jsonNumber c |}
  | _ => Some {| sr_text := None; sr_sentiment := None; sr_confidence := None |}
  end.

(** ** ReviewInput *)

Record ReviewInput := {
  reviewText : jsstring;
  isAnalyzing : bool;
  ri_error : option string
}.

(** [handleAnalyze]: the new state of the component, the result handed to
    [onSentimentAnalyzed] when there is one, and the world behind the API.
    The API always answers (a failing network is not part of the model). *)
Definition handleAnalyze (ai : Classifier) (st : ReviewInput) (w : World)
    : ReviewInput * option SentimentResult * World :=
  if negb (JsString.truthy (trim (reviewText st))) then
    ({| reviewText := reviewText st; isAnalyzing := isAnalyzing st;
        ri_error := Some "Please enter a review"%string |}, None, w)
  else
    let '(response, w') := fetch ai (PostPredict {| text := Some (reviewText st) |}) w in
    match (if ok response then predictionData (body response) else None) with
    | Some data =>
        ({| reviewText := reviewText st; isAnalyzing := false; ri_error := None |},
         Some data, w')
    | None =>
        ({| reviewText := reviewText st; isAnalyzing := false;
            ri_error := Some "Failed to analyze sentiment. Please try again."%string |},
         None, w')
    end.

(** ** SentimentResult *)

Record SaveState := {
  isSaving : bool;
  saved : bool;
  sv_error : option string
}.

(** The body that [handleSaveReview] posts. *)
Definition saveRequest (m : Movie) (result : SentimentResult) : ReviewRequest :=
  {| req_movieId := Some (id m); req_text := sr_text result;
     req_sentiment := sr_sentiment result; req_confidence := sr_confidence result |}.

Definition handleSaveReview (ai : Classifier) (selectedMovie : option Movie)
    (result : SentimentResult) (st : SaveState) (w : World) : SaveState * World :=
  match selectedMovie with
  | None => (st, w)
  | Some m =>
      let '(response, w') := fetch ai (PostReviews (saveRequest m result)) w in
      if ok response then
        ({| isSaving := false; saved := true; sv_error := None |}, w')
      else
        ({| isSaving := false; saved := saved st;
            sv_error := Some "Failed to save review. Please try again."%string |}, w')
  end.

(** ** MovieSearch *)

Record MovieSearch := {
  searchQuery : jsstring;
  ms_movies : list Movie;
  isLoading : bool;
  showDropdown : bool
}.

(** [data.movies || []] *)
Definition moviesData (b : Body) : list Movie :=
  match b with
  | Movies ms _ => ms
  | _ => []
  end.

(** The query is set to [q] and the effect on [searchQuery] runs: a query
    of two code units or more is sent to the API (as [?q=] with
    [encodeURIComponent], which the handler reads back with
    [searchParams.get]), a shorter one empties the list. *)
Definition setSearchQuery (ai : Classifier) (q : jsstring) (st : MovieSearch) (w : World)
    : MovieSearch * World :=
  if (1 <? length q)%nat then
    if wellFormed q then
      let '(response, w') := fetch ai (GetMovies (Some q)) w in
      match body response with
      | NoBody =>
          ({| searchQuery := q; ms_movies := ms_movies st; isLoading := false;
              showDropdown := showDropdown st |}, w')
      | b =>
          ({| searchQuery := q; ms_movies := moviesData b; isLoading := false;
              showDropdown := true |}, w')
      end
    else
      ({| searchQuery := q; ms_movies := ms_movies st; isLoading := false;
          showDropdown := showDropdown st |}, w)
  else
    ({| searchQuery := q; ms_movies := []; isLoading := isLoading st;
        showDropdown := false |}, w).

(** ** App *)

Record App := {
  selectedMovie : option Movie;
  sentimentResult : option SentimentResult;
  showMovieDetail : bool
}.

Definition handleMovieSelect (movie : Movie) (st : App) : App :=
  {| selectedMovie := Some movie; sentimentResult := None; showMovieDetail := false |}.

Definition handleSentimentAnalyzed (result : SentimentResult) (st : App) : App :=
  {| selectedMovie := selectedMovie st; sentimentResult := Some result;
     showMovieDetail := showMovieDetail st |}.

Definition handleViewStats (st : App) : App :=
  match selectedMovie st with
  | Some _ =>
      {| selectedMovie := selectedMovie st; sentimentResult := sentimentResult st;
         showMovieDetail := true |}
  | None => st
  end.

Definition handleBack (st : App) : App :=
  {| selectedMovie := selectedMovie st; sentimentResult := sentimentResult st;
     showMovieDetail := false |}.

(** What the user can do to the App. *)
Inductive AppEvent :=
| MovieSelect (movie : Movie)
| SentimentAnalyzed (result : SentimentResult)
| ViewStats
| Back.

Definition appStep (st : App) (e : AppEvent) : App :=
  match e with
  | MovieSelect movie => handleMovieSelect movie st
  | SentimentAnalyzed result => handleSentimentAnalyzed result st
  | ViewStats => handleViewStats st
  | Back => handleBack st
  end.

(** [useState(null)], [useState(null)], [useState(false)] *)
Definition appStart : App :=
  {| selectedMovie := None; sentimentResult := None; showMovieDetail := false |}.

(** The App after a sequence of events. *)
Definition appRun (es : list AppEvent) : App := fold_left appStep es appStart.

(** An event that leaves the selected movie and the result alone. *)
Definition isNavigation (e : AppEvent) : bool :=
  match e with
  | ViewStats | Back => true
  | MovieSelect _ | SentimentAnalyzed _ => false
  end.

(** ** The components as they are mounted *)

(** ReviewInput with [t] typed into it. *)
Definition typed (t : jsstring) : ReviewInput :=
  {| reviewText := t; isAnalyzing := false; ri_error := None |}.


End Client.
Import Client.

(* ===================================================================== *)
(** * More vocabulary *)
(* ===================================================================== *)

Module Observations.

Local Open Scope N_scope.

(** A review as the sentiment response lists it. *)
Definition asRecent (r : Review) : RecentReview :=
  {| rr_text := readBack (review_text r); rr_sentiment := readBack (sentiment r);
     rr_confidence := readReal (confidence r); rr_date := created_at r |}.

(** The first element of the classifier's answer, if it has a label, has
    an ASCII one. *)
Definition asciiLabel (r : AiResult) : bool :=
  match r with
  | AiResolved ({| label := Some l |} :: _) => isAscii l
  | _ => true
  end.

(** The order of the recent reviews: newer ones first. *)
Definition newerFirst (a b : Review) : Prop := created_at b <= created_at a.

(** The parts of a response of the sentiment route. *)
Definition statsOf (r : Response) : option Stats :=
  match body r with
  | Sentiment _ st _ _ => Some st
  | _ => None
  end.

Definition recentOf (r : Response) : list RecentReview :=
  match body r with
  | Sentiment _ _ rs _ => rs
  | _ => []
  end.

Definition trendOf (r : Response) : list TrendRow :=
  match body r with
  | Sentiment _ _ _ tr => tr
  | _ => []
  end.

(** The total of a column of the trend. *)
Definition total (f : TrendRow -> N) (l : list TrendRow) : N :=
  fold_right N.add 0 (map f l).


End Observations.
Import Observations.

(* ===================================================================== *)
(** * Facts about strings and cleanText *)
(* ===================================================================== *)

Section SubseqFacts.

Context {A : Type}.
Implicit Types a b c : list A.

Lemma Subseq_refl a : Subseq a a.
Proof. induction a; constructor; assumption. Qed.

Lemma Subseq_trans a b c : Subseq a b -> Subseq b c -> Subseq a c.
Proof.
  intros Hab Hbc. revert a Hab.
  induction Hbc as [c | x b c Hbc IH | x b c Hbc IH]; intros a Hab.
  - inversion Hab; subst. constructor.
  - inversion Hab; subst.
    + constructor.
    + constructor. apply IH. assumption.
    + apply Subseq_drop. apply IH. assumption.
  - apply Subseq_drop. apply IH. assumption.
Qed.

Lemma Subseq_In a b x : Subseq a b -> In x a -> In x b.
Proof.
  induction 1 as [b | y a b _ IH | y a b _ IH]; simpl; intros Hin.
  - contradiction.
  - destruct Hin as [-> | Hin]; auto.
  - auto.
Qed.

Lemma Subseq_Forall (P : A -> Prop) a b : Subseq a b -> Forall P b -> Forall P a.
Proof.
  intros Hs Hb. apply Forall_forall. intros x Hx.
  rewrite Forall_forall in Hb. apply Hb. eapply Subseq_In; eassumption.
Qed.

Lemma Subseq_filter (f : A -> bool) a : Subseq (filter f a) a.
Proof.
  induction a as [| x a IH]; simpl.
  - constructor.
  - destruct (f x); constructor; assumption.
Qed.

Lemma Subseq_skipn n a : Subseq (skipn n a) a.
Proof.
  revert a. induction n as [| n IH]; intros [| x a]; simpl;
    try apply Subseq_refl.
  apply Subseq_drop. apply IH.
Qed.

Lemma Subseq_firstn n a : Subseq (firstn n a) a.
Proof.
  revert a. induction n as [| n IH]; intros [| x a]; simpl;
    try constructor. apply IH.
Qed.

Lemma Subseq_length a b : Subseq a b -> (length a <= length b)%nat.
Proof. induction 1; simpl; lia. Qed.

End SubseqFacts.

Section TrimFacts.

Local Open Scope N_scope.

(** [trimStart] drops a prefix. *)
Lemma trimStart_skipn s : exists n, trimStart s = skipn n s.
Proof.
  induction s as [| c r [n IH]]; simpl.
  - exists O. reflexivity.
  - destruct (isSpace c).
    + exists (S n). assumption.
    + exists O. reflexivity.
Qed.

Lemma trimStart_no_space s : startsWithSpace (trimStart s) = false.
Proof.
  induction s as [| c r IH]; simpl; [reflexivity |].
  destruct (isSpace c) eqn:E; [assumption | simpl; assumption].
Qed.

(** [trimEnd] keeps a prefix. *)
Lemma trimEnd_firstn s : exists n, trimEnd s = firstn n s.
Proof.
  unfold trimEnd. destruct (trimStart_skipn (rev s)) as [n Hn].
  rewrite Hn, skipn_rev, rev_involutive. eauto.
Qed.

Lemma trimEnd_no_space s : endsWithSpace (trimEnd s) = false.
Proof.
  unfold endsWithSpace, trimEnd. rewrite rev_involutive.
  apply trimStart_no_space.
Qed.

Lemma startsWithSpace_firstn n s :
  startsWithSpace s = false -> startsWithSpace (firstn n s) = false.
Proof. destruct n, s; simpl; auto. Qed.

Lemma trim_no_leading_space s : startsWithSpace (trim s) = false.
Proof.
  unfold trim. destruct (trimEnd_firstn (trimStart s)) as [n ->].
  apply startsWithSpace_firstn, trimStart_no_space.
Qed.

Lemma trim_no_trailing_space s : endsWithSpace (trim s) = false.
Proof. apply trimEnd_no_space. Qed.

Lemma trim_Subseq s : Subseq (trim s) s.
Proof.
  unfold trim. destruct (trimEnd_firstn (trimStart s)) as [n ->].
  destruct (trimStart_skipn s) as [k ->].
  eapply Subseq_trans; [apply Subseq_firstn | apply Subseq_skipn].
Qed.

(** The whole string is whitespace exactly when nothing is left of it. *)
Lemma trimStart_nil s : trimStart s = [] <-> forallb isSpace s = true.
Proof.
  induction s as [| c r IH]; simpl.
  - tauto.
  - destruct (isSpace c); simpl; [assumption |].
    split; discriminate.
Qed.

Lemma trim_nil s : trim s = [] <-> forallb isSpace s = true.
Proof.
  rewrite <- trimStart_nil. unfold trim, trimEnd. split.
  - intros H. apply (f_equal (@rev _)) in H. rewrite rev_involutive in H.
    destruct (trimStart s) as [| c r] eqn:E; [reflexivity |].
    exfalso. pose proof (trimStart_no_space s) as Hs. rewrite E in Hs.
    change (rev []) with (@nil char) in H.
    apply trimStart_nil in H. rewrite forallb_forall in H.
    specialize (H c). rewrite <- in_rev in H.
    specialize (H (or_introl eq_refl)). simpl in Hs. congruence.
  - intros ->. reflexivity.
Qed.

End TrimFacts.

Section CleanTextFacts.

Local Open Scope N_scope.

Lemma indexOfGt_None s : indexOfGt s = None <-> ~ In GT s.
Proof.
  induction s as [| c r IH]; simpl.
  - tauto.
  - destruct (N.eqb_spec c GT) as [-> | Hne].
    + split; [discriminate | intros H; exfalso; apply H; auto].
    + destruct (indexOfGt r); simpl.
      * split; [discriminate |].
        intros H. exfalso. apply H. right.
        destruct (in_dec N.eq_dec GT r) as [Hin | Hnin]; [assumption |].
        apply IH in Hnin. discriminate.
      * split; [| reflexivity]. intros _ [Heq | Hin]; [congruence |].
        apply IH in Hin; auto.
Qed.

Lemma removeTags_Subseq s : Subseq (removeTags s) s.
Proof.
  funelim (removeTags s).
  - constructor.
  - apply Subseq_drop.
    eapply Subseq_trans; [eassumption | apply Subseq_skipn].
  - apply Subseq_keep. assumption.
Qed.

(** A tag at the head is dropped with everything up to its [>]. *)
Lemma removeTags_tag body post :
  body <> [] -> ~ In GT body ->
  removeTags (LT :: body ++ GT :: post) = removeTags post.
Proof.
  intros Hne Hnin. simp removeTags.
  assert (Hidx : indexOfGt (body ++ GT :: post) = Some (length body)).
  { clear Hne. induction body as [| c r IH]; simpl.
    - reflexivity.
    - destruct (N.eqb_spec c GT) as [-> | _].
      + exfalso. apply Hnin. left. reflexivity.
      + rewrite IH; [reflexivity |]. intros H. apply Hnin. right. assumption. }
  unfold matchTag. rewrite N.eqb_refl, Hidx.
  destruct body as [| c r]; [congruence |]. simpl length. simpl.
  f_equal. clear. induction r as [| x r IH]; simpl; [reflexivity | assumption].
Qed.

(** A code unit that starts no tag is kept. *)
Lemma removeTags_keep c rest :
  matchTag c rest = None -> removeTags (c :: rest) = c :: removeTags rest.
Proof. intros H. simp removeTags. rewrite H. reflexivity. Qed.

Lemma matchTag_removeTags c rest :
  matchTag c rest = None -> matchTag c (removeTags rest) = None.
Proof.
  unfold matchTag. destruct (c =? LT); [| reflexivity].
  destruct (indexOfGt rest) as [[| k] |] eqn:E; try discriminate; intros _.
  - (* rest starts with [>], and so does what is left of it *)
    destruct rest as [| x r]; [discriminate |]. simpl in E.
    destruct (N.eqb_spec x GT) as [-> | Hne].
    + rewrite removeTags_keep by reflexivity. simpl. reflexivity.
    + destruct (indexOfGt r); discriminate.
  - (* no [>] in rest, none in what is left of it *)
    assert (H : indexOfGt (removeTags rest) = None).
    { apply indexOfGt_None. intros Hin. apply indexOfGt_None in E. apply E.
      eapply Subseq_In; [apply removeTags_Subseq | assumption]. }
    rewrite H. reflexivity.
Qed.

(** No tag is left behind. *)
Lemma removeTags_no_tag s : hasTag (removeTags s) = false.
Proof.
  funelim (removeTags s).
  - reflexivity.
  - assumption.
  - simpl. rewrite (matchTag_removeTags _ _ Heq). assumption.
Qed.

(** A text without a tag is left as it is. *)
Lemma removeTags_id s : hasTag s = false -> removeTags s = s.
Proof.
  induction s as [| c rest IH]; intros H.
  - simp removeTags. reflexivity.
  - simpl in H. destruct (matchTag c rest) eqn:E; [discriminate |].
    rewrite removeTags_keep by assumption. rewrite IH by assumption. reflexivity.
Qed.

Lemma removeSpecial_allowed s : Forall (fun c => isAllowed c = true) (removeSpecial s).
Proof.
  apply Forall_forall. intros c Hin. apply filter_In in Hin. tauto.
Qed.

(** What is removed by the second pattern is exactly what is not allowed. *)
Lemma removeSpecial_In s c : In c (removeSpecial s) <-> In c s /\ isAllowed c = true.
Proof. apply filter_In. Qed.

Lemma cleanText_Subseq_removeTags raw : Subseq (cleanText raw) (removeTags raw).
Proof.
  unfold cleanText, substring0.
  eapply Subseq_trans; [apply Subseq_firstn |].
  eapply Subseq_trans; [apply trim_Subseq | apply Subseq_filter].
Qed.

Lemma cleanText_Subseq raw : Subseq (cleanText raw) raw.
Proof.
  eapply Subseq_trans; [apply cleanText_Subseq_removeTags | apply removeTags_Subseq].
Qed.

Lemma cleanText_allowed raw : Forall (fun c => isAllowed c = true) (cleanText raw).
Proof.
  unfold cleanText, substring0.
  eapply Subseq_Forall; [| apply removeSpecial_allowed].
  eapply Subseq_trans; [apply Subseq_firstn | apply trim_Subseq].
Qed.

Lemma cleanText_length raw : (length (cleanText raw) <= 1000)%nat.
Proof. unfold cleanText, substring0, MAX_LEN. apply firstn_le_length. Qed.

Lemma cleanText_no_brackets raw : ~ In LT (cleanText raw) /\ ~ In GT (cleanText raw).
Proof.
  pose proof (cleanText_allowed raw) as H. rewrite Forall_forall in H.
  split; intros Hin; apply H in Hin; vm_compute in Hin; discriminate.
Qed.

(** A text of allowed code units, trimmed already and within the cap, is
    returned as it is. *)
Lemma cleanText_fixpoint s :
  Forall (fun c => isAllowed c = true) s ->
  startsWithSpace s = false -> endsWithSpace s = false ->
  (length s <= 1000)%nat ->
  cleanText s = s.
Proof.
  intros Hall Hs He Hlen.
  assert (Htags : removeTags s = s).
  { clear Hs He Hlen. induction Hall as [| c r Hc _ IH].
    - simp removeTags. reflexivity.
    - rewrite removeTags_keep, IH; [reflexivity |].
      unfold matchTag. destruct (N.eqb_spec c LT) as [-> | _]; [| reflexivity].
      vm_compute in Hc. discriminate. }
  assert (Hspecial : removeSpecial s = s).
  { clear Hs He Hlen Htags. unfold removeSpecial.
    induction Hall as [| c r Hc _ IH]; simpl; [reflexivity |].
    rewrite Hc, IH. reflexivity. }
  assert (Hts : forall t, startsWithSpace t = false -> trimStart t = t).
  { intros [| c r]; simpl; [reflexivity |]. intros ->. reflexivity. }
  unfold cleanText, substring0, MAX_LEN. rewrite Htags, Hspecial.
  unfold trim, trimEnd. rewrite (Hts s Hs), (Hts (rev s) He), rev_involutive.
  apply firstn_all2. assumption.
Qed.

End CleanTextFacts.

(** [C6] For every input, [cleanText] (the sanitizer) is a total function
    whose result: is the first 1000 code units of a string [t] that is left
    of the input once every angle-bracket tag is removed and then every
    code unit outside letters, digits, whitespace and [. , ! ?]; [t] has no
    whitespace at either end; so the result holds only allowed code units,
    no angle bracket, at most 1000 code units, and nothing that was not in
    the input.  Nothing else is removed: a text without a tag passes the
    first step as it is, and a text of allowed code units, trimmed and
    within the cap, is returned as it is.  Sanitizing
    ["<b>Great movie!!!</b>"] yields ["Great movie!!!"]. *)
Theorem cleanText_sanitizes (raw : jsstring) :
  (exists t,
      cleanText raw = substring0 1000 t /\
      t = trim (removeSpecial (removeTags raw)) /\
      hasTag (removeTags raw) = false /\
      Subseq (removeTags raw) raw /\
      (hasTag raw = false -> removeTags raw = raw) /\
      (forall c, In c (removeSpecial (removeTags raw)) <->
                 In c (removeTags raw) /\ isAllowed c = true) /\
      Subseq t (removeSpecial (removeTags raw)) /\
      startsWithSpace t = false /\ endsWithSpace t = false) /\
  Forall (fun c => isAllowed c = true) (cleanText raw) /\
  ~ In LT (cleanText raw) /\ ~ In GT (cleanText raw) /\
  hasTag (cleanText raw) = false /\
  startsWithSpace (cleanText raw) = false /\
  (length (cleanText raw) <= 1000)%nat /\
  Subseq (cleanText raw) raw /\
  (Forall (fun c => isAllowed c = true) raw ->
   startsWithSpace raw = false -> endsWithSpace raw = false ->
   (length raw <= 1000)%nat -> cleanText raw = raw) /\
  cleanText (js "<b>Great movie!!!</b>") = js "Great movie!!!".
Proof.
  split; [| split; [| split; [| split; [| split; [| split; [| split; [| split; [| split]]]]]]]].
  - exists (trim (removeSpecial (removeTags raw))).
    split; [reflexivity |]. split; [reflexivity |].
    split; [apply removeTags_no_tag |].
    split; [apply removeTags_Subseq |].
    split; [apply removeTags_id |].
    split; [intros c; apply removeSpecial_In |].
    split; [apply trim_Subseq |].
    split; [apply trim_no_leading_space | apply trim_no_trailing_space].
  - apply cleanText_allowed.
  - apply cleanText_no_brackets.
  - apply cleanText_no_brackets.
  - pose proof (cleanText_no_brackets raw) as [Hlt _].
    induction (cleanText raw) as [| c r IH]; simpl; [reflexivity |].
    unfold matchTag. destruct (N.eqb_spec c LT) as [-> | _].
    + exfalso. apply Hlt. left. reflexivity.
    + apply IH. intros H. apply Hlt. right. assumption.
  - unfold cleanText, substring0. apply startsWithSpace_firstn, trim_no_leading_space.
  - apply cleanText_length.
  - apply cleanText_Subseq.
  - apply cleanText_fixpoint.
  - vm_compute. reflexivity.
Qed.

(* ===================================================================== *)
(** * POST /api/predict *)
(* ===================================================================== *)

Section PredictFacts.

Variable ai : Classifier.

Lemma blank_spec t :
  missing (Some t) || (length (trim t) =? 0)%nat = blank (Some t).
Proof.
  simpl. destruct (forallb isSpace t) eqn:E.
  - apply trim_nil in E. rewrite E. simpl. apply orb_true_r.
  - destruct t as [| c r]; [discriminate |]. simpl JsString.truthy. simpl negb.
    simpl orb. destruct (trim (c :: r)) as [| x y] eqn:Et; [| reflexivity].
    apply trim_nil in Et. congruence.
Qed.

(** The request is answered 400 before anything else happens. *)
Lemma predict_blank b w :
  blank (text b) = true ->
  fetch ai (PostPredict b) w = (jsonResponse (ErrorBody "Text is required") 400, w).
Proof.
  intros Hb. unfold fetch, route, predict.
  destruct (text b) as [t |]; [| reflexivity].
  rewrite blank_spec, Hb. reflexivity.
Qed.

(** Otherwise the cleaned text goes to the classifier, whose answer
    decides between 200 and 500. *)
Lemma predict_classifies b w t :
  text b = Some t -> blank (text b) = false ->
  fetch ai (PostPredict b) w =
    (match ai (cleanText t) with
     | AiRejected => jsonResponse (InternalError AiError) 500
     | AiResolved [] => jsonResponse (InternalError TypeError) 500
     | AiResolved ({| label := Some l; score := Some s |} :: _) =>
         jsonResponse (Prediction t (toLowerCase l) (parseFloat (toFixed 4 s))
                         "distilbert-sst-2") 200
     | AiResolved (_ :: _) => jsonResponse (InternalError TypeError) 500
     end,
     {| db := db w; clock := clock w; aiCalls := aiCalls w ++ [cleanText t] |}).
Proof.
  intros Ht Hb. unfold fetch, route, predict. rewrite Ht in *.
  rewrite blank_spec, Hb.
  unfold bind, runAI, member, ret, throw.
  destruct (ai (cleanText t)) as [| [| [[l |] [s |]] items]]; reflexivity.
Qed.

End PredictFacts.

(** [C7] POST /api/predict answers 400 exactly when the text is missing,
    empty or all whitespace, and then nothing is sent to the classifier;
    for every other text the classifier receives the sanitized text, which
    has at most 1000 code units: 5000 times [x] goes out as 1000 times
    [x]. *)
Theorem predict_invalid_input_iff_blank (ai : Classifier) (b : PredictRequest) (w : World) :
  (status (fst (fetch ai (PostPredict b) w)) = 400%N <-> blank (text b) = true) /\
  (if blank (text b)
   then fst (fetch ai (PostPredict b) w) = jsonResponse (ErrorBody "Text is required") 400 /\
        snd (fetch ai (PostPredict b) w) = w
   else exists t, text b = Some t /\
        aiCalls (snd (fetch ai (PostPredict b) w)) = aiCalls w ++ [cleanText t] /\
        db (snd (fetch ai (PostPredict b) w)) = db w /\
        (length (cleanText t) <= 1000)%nat) /\
  aiCalls (snd (fetch ai (PostPredict {| text := Some (repeat 120%N 5000) |}) w))
    = aiCalls w ++ [repeat 120%N 1000].
Proof.
  split; [| split].
  - destruct (blank (text b)) eqn:Hb.
    + rewrite predict_blank by assumption. simpl. tauto.
    + destruct (text b) as [t |] eqn:Ht; [| discriminate].
      rewrite (predict_classifies ai b w Ht) by (rewrite Ht; assumption).
      split; [| discriminate]. simpl.
      destruct (ai (cleanText t)) as [| [| [[l |] [s |]] items]]; simpl; discriminate.
  - destruct (blank (text b)) eqn:Hb.
    + rewrite predict_blank by assumption. simpl. auto.
    + destruct (text b) as [t |] eqn:Ht; [| discriminate].
      exists t. rewrite (predict_classifies ai b w Ht) by (rewrite Ht; assumption).
      simpl. repeat split. apply cleanText_length.
  - erewrite predict_classifies; [| reflexivity | vm_compute; reflexivity].
    cbn [snd aiCalls].
    replace (cleanText (repeat 120%N 5000)) with (repeat 120%N 1000)
      by (vm_compute; reflexivity).
    reflexivity.
Qed.

(* ===================================================================== *)
(** * Facts about numbers *)
(* ===================================================================== *)

Section NumberFacts.

Local Open Scope Z_scope.

Lemma one_eq : one = S754_finite false 4503599627370496 (-52).
Proof. vm_compute. reflexivity. Qed.

Lemma digits2_pos_bound m : Zpos m < 2 ^ Zpos (digits2_pos m).
Proof.
  induction m as [m IH | m IH |]; simpl digits2_pos.
  - rewrite Pos2Z.inj_succ, Z.pow_succ_r by lia. lia.
  - rewrite Pos2Z.inj_succ, Z.pow_succ_r by lia. lia.
  - simpl. lia.
Qed.

Lemma compare_cont_Eq m p : Pos.compare_cont Eq m p = Pos.compare m p.
Proof. reflexivity. Qed.

(** A double in the unit interval is [m * 2^e] with [m <= 2^(-e)]. *)
Lemma inUnit_finite s m e :
  isDouble (S754_finite s m e) = true ->
  inUnit (S754_finite s m e) = true ->
  s = false /\ e <= -52 /\ Zpos m <= 2 ^ (- e).
Proof.
  unfold isDouble, inUnit, fleb, SFleb. rewrite one_eq. simpl valid_binary.
  intros Hv Hu. apply andb_true_iff in Hu. destruct Hu as [H0 H1].
  destruct s; [discriminate |]. split; [reflexivity |].
  unfold SFcompare in H1.
  unfold bounded, canonical_mantissa, fexp, emin, prec, emax in Hv.
  apply andb_true_iff in Hv. destruct Hv as [Hc _].
  apply Z.eqb_eq in Hc.
  pose proof (digits2_pos_bound m) as Hd.
  destruct (Z.compare_spec e (-52)) as [-> | Hlt | Hgt].
  - split; [lia |].
    rewrite compare_cont_Eq in H1.
    assert (Hp : 2 ^ (- -52) = 4503599627370496) by (vm_compute; reflexivity).
    rewrite Hp. clear Hp Hd Hc H0.
    rewrite Pos2Z.inj_compare in H1.
    destruct (Z.compare_spec (Zpos m) 4503599627370496) as [Hm | Hm | Hm];
      try discriminate; lia.
  - split; [lia |].
    assert (Hdig : Zpos (digits2_pos m) <= 53) by lia.
    assert (Hm : Zpos m < 2 ^ 53).
    { eapply Z.lt_le_trans; [exact Hd |].
      apply Z.pow_le_mono_r; lia. }
    assert (Hp : 2 ^ 53 <= 2 ^ (- e)) by (apply Z.pow_le_mono_r; lia).
    lia.
  - discriminate.
Qed.

Lemma roundScaled_unit m e :
  e <= -52 -> Zpos m <= 2 ^ (- e) -> 0 <= roundScaled 4 m e <= 10000.
Proof.
  intros He Hm. unfold roundScaled.
  destruct (Z.leb_spec 0 e) as [H | _]; [lia |].
  change (10 ^ Z.of_nat 4) with 10000.
  replace (1 - e) with (Z.succ (- e)) by lia.
  rewrite Z.pow_succ_r by lia.
  assert (Hp : 0 < 2 ^ (- e)) by (apply Z.pow_pos_nonneg; lia).
  split.
  - apply Z.div_pos; lia.
  - apply Z.lt_succ_r. apply Z.div_lt_upper_bound; lia.
Qed.

(** The 10001 four-decimal renderings of the unit interval read back
    into it. *)
Lemma fixed4_table :
  forallb (fun n => inUnit (parseFloat (fixedDigits 4 (N.of_nat n))))
    (seq 0 (Z.to_nat 10001)) = true.
Proof. vm_compute. reflexivity. Qed.

Lemma fixed4_inUnit n :
  0 <= n <= 10000 -> inUnit (parseFloat (fixedDigits 4 (Z.to_N n))) = true.
Proof.
  intros Hn. pose proof fixed4_table as H. rewrite forallb_forall in H.
  specialize (H (Z.to_nat n)). rewrite Z_nat_N in H. apply H.
  apply in_seq. lia.
Qed.

(** Rounding to four decimals keeps a score in the unit interval there. *)
Lemma round4_inUnit x :
  isDouble x = true -> inUnit x = true ->
  inUnit (parseFloat (toFixed 4 x)) = true.
Proof.
  intros Hv Hu. destruct x as [s | s | | s m e].
  - vm_compute. reflexivity.
  - destruct s; discriminate.
  - discriminate.
  - destruct (inUnit_finite _ _ _ Hv Hu) as (-> & He & Hm).
    unfold toFixed.
    destruct (Z.leb_spec 0 e) as [H | _]; [lia |]. simpl andb. cbv iota.
    change (@nil char ++ ?l) with l.
    apply fixed4_inUnit, roundScaled_unit; assumption.
Qed.

(** What [toFixed] prints for a double below [10^21] is the nearest
    multiple of [10^-f], the larger of two: [|n - x * 10^f| <= 1/2]. *)
Lemma roundScaled_nearest f m e :
  e < 0 ->
  let n := roundScaled f m e in
  2 * (n * 2 ^ (- e) - Zpos m * 10 ^ Z.of_nat f) <= 2 ^ (- e) /\
  - 2 ^ (- e) < 2 * (n * 2 ^ (- e) - Zpos m * 10 ^ Z.of_nat f).
Proof.
  intros He n. subst n. unfold roundScaled.
  destruct (Z.leb_spec 0 e) as [H | _]; [lia |].
  replace (1 - e) with (Z.succ (- e)) by lia.
  rewrite Z.pow_succ_r by lia.
  assert (Hp : 0 < 2 ^ (- e)) by (apply Z.pow_pos_nonneg; lia).
  set (p := 2 ^ (- e)) in *. set (t := 10 ^ Z.of_nat f).
  pose proof (Z.div_mod (2 * Zpos m * t + p) (2 * p) ltac:(lia)) as Hdm.
  pose proof (Z.mod_pos_bound (2 * Zpos m * t + p) (2 * p) ltac:(lia)) as Hb.
  set (q := (2 * Zpos m * t + p) / (2 * p)) in *.
  nia.
Qed.

(** ** Decimal digits *)

Lemma digit_range d : isDigit d = true <-> (48 <= d <= 57)%N.
Proof.
  unfold isDigit, between. rewrite andb_true_iff, !N.leb_le. tauto.
Qed.

Lemma parseFloat_digit d s :
  isDigit d = true -> parseFloat (d :: s) = parseUnsigned false (d :: s).
Proof.
  intros H. apply digit_range in H.
  assert (Hd : (d = 48 \/ d = 49 \/ d = 50 \/ d = 51 \/ d = 52 \/ d = 53 \/
                d = 54 \/ d = 55 \/ d = 56 \/ d = 57)%N) by lia.
  destruct Hd as [-> | [-> | [-> | [-> | [-> | [-> | [-> | [-> | [-> | ->]]]]]]]]];
    reflexivity.
Qed.

Lemma takeDigits_digits a :
  Forall (fun c => isDigit c = true) a ->
  forall acc cnt r,
    takeDigits acc cnt (a ++ r) =
    takeDigits (fold_left (fun v c => 10 * v + (c - 48))%N a acc) (cnt + length a) r.
Proof.
  induction 1 as [| c a Hc _ IH]; intros acc cnt r.
  - simpl. rewrite Nat.add_0_r. reflexivity.
  - cbn [app takeDigits fold_left length]. rewrite Hc, IH.
    rewrite Nat.add_succ_r. reflexivity.
Qed.

Lemma takeDigits_stop v c x r :
  isDigit x = false -> takeDigits v c (x :: r) = (v, c, x :: r).
Proof. intros H. simpl. rewrite H. reflexivity. Qed.

Lemma uintCodes_digits u : Forall (fun c => isDigit c = true) (uintCodes u).
Proof. induction u; simpl; constructor; auto. Qed.

Lemma fold_uintCodes_pos u p :
  fold_left (fun v c => 10 * v + (c - 48))%N (uintCodes u) (Npos p) =
  Npos (Pos.of_uint_acc u p).
Proof.
  revert p. induction u as [| u IH | u IH | u IH | u IH | u IH | u IH | u IH
                            | u IH | u IH | u IH]; intros p;
    [reflexivity | cbn [uintCodes fold_left Pos.of_uint_acc]; rewrite <- IH; f_equal; lia ..].
Qed.

Lemma decimalValue_uintCodes u : decimalValue (uintCodes u) = N.of_uint u.
Proof.
  unfold decimalValue, N.of_uint.
  induction u as [| u IH | u IH | u IH | u IH | u IH | u IH | u IH
                  | u IH | u IH | u IH];
    [reflexivity | exact IH | cbn [uintCodes fold_left Pos.of_uint];
                               rewrite <- fold_uintCodes_pos; f_equal ..].
Qed.

Lemma decimalValue_digits n : decimalValue (digits n) = n.
Proof.
  unfold digits. rewrite decimalValue_uintCodes. apply DecimalN.Unsigned.of_to.
Qed.

Lemma digits_nonempty n : digits n <> [].
Proof.
  unfold digits. destruct n as [| p]; [discriminate |].
  pose proof (DecimalPos.Unsigned.to_uint_nonnil p) as H.
  simpl N.to_uint. destruct (Pos.to_uint p); [congruence | discriminate ..].
Qed.

Lemma decimalValue_zeros k s : decimalValue (repeat 48%N k ++ s) = decimalValue s.
Proof.
  unfold decimalValue. rewrite fold_left_app.
  induction k as [| k IH]; [reflexivity | exact IH].
Qed.

Lemma parseUnsigned_integer a :
  a <> [] -> Forall (fun c => isDigit c = true) a ->
  parseUnsigned false a = ofDecimal false (decimalValue a) 0.
Proof.
  intros Hne Ha. unfold parseUnsigned.
  destruct a as [| d a']; [congruence |].
  assert (Hd : (73 =? d)%N = false).
  { inversion Ha; subst. apply N.eqb_neq. apply digit_range in H1. lia. }
  change (startsWith (js "Infinity") (d :: a'))
    with ((73 =? d)%N && startsWith (js "nfinity") a').
  rewrite Hd. cbn [andb].
  rewrite <- (app_nil_r (d :: a')) at 1. rewrite takeDigits_digits by assumption.
  cbn [takeDigits length Nat.add exponentPart Z.of_nat]. reflexivity.
Qed.

Lemma parseUnsigned_fraction a b :
  a <> [] -> Forall (fun c => isDigit c = true) a ->
  Forall (fun c => isDigit c = true) b ->
  parseUnsigned false (a ++ 46%N :: b) =
  ofDecimal false (decimalValue (a ++ b)) (- Z.of_nat (length b)).
Proof.
  intros Hne Ha Hb. unfold parseUnsigned.
  destruct a as [| d a']; [congruence |].
  assert (Hd : (73 =? d)%N = false).
  { inversion Ha; subst. apply N.eqb_neq. apply digit_range in H1. lia. }
  change (startsWith (js "Infinity") ((d :: a') ++ 46%N :: b))
    with ((73 =? d)%N && startsWith (js "nfinity") (a' ++ 46%N :: b)).
  rewrite Hd. cbn [andb].
  rewrite takeDigits_digits by assumption.
  rewrite takeDigits_stop by reflexivity.
  rewrite <- (app_nil_r b) at 1. rewrite takeDigits_digits by assumption.
  cbn [takeDigits exponentPart].
  replace (0 + length (d :: a') + length b - (0 + length (d :: a')))%nat
    with (length b) by lia.
  cbn [length Nat.add]. unfold decimalValue. rewrite fold_left_app.
  reflexivity.
Qed.

(** What [toFixed] prints reads back as the decimal it denotes. *)
Lemma parseFloat_fixedDigits f n :
  parseFloat (fixedDigits f n) = ofDecimal false n (- Z.of_nat f).
Proof.
  unfold fixedDigits. destruct f as [| f].
  - pose proof (digits_nonempty n) as Hne.
    pose proof (uintCodes_digits (N.to_uint n)) as Hd. fold (digits n) in Hd.
    destruct (digits n) as [| d ds] eqn:E; [congruence |].
    rewrite parseFloat_digit by (inversion Hd; assumption).
    rewrite parseUnsigned_integer by (assumption || discriminate).
    rewrite <- E, decimalValue_digits. reflexivity.
  - set (ds := repeat 48%N (S (S f) - length (digits n)) ++ digits n).
    assert (Hds : Forall (fun c => isDigit c = true) ds).
    { apply Forall_app. split.
      - apply Forall_forall. intros c Hc. apply repeat_spec in Hc. subst. reflexivity.
      - apply uintCodes_digits. }
    assert (Hlen : (S (S f) <= length ds)%nat).
    { unfold ds. rewrite length_app, repeat_length. unfold char. lia. }
    set (k := (length ds - S f)%nat).
    assert (Hk : (1 <= k <= length ds)%nat) by (unfold k; lia).
    assert (Ha : Forall (fun c => isDigit c = true) (firstn k ds))
      by (eapply Subseq_Forall; [apply Subseq_firstn | exact Hds]).
    assert (Hb : Forall (fun c => isDigit c = true) (skipn k ds))
      by (eapply Subseq_Forall; [apply Subseq_skipn | exact Hds]).
    assert (Hne : firstn k ds <> []).
    { intros H. apply (f_equal (@length _)) in H. rewrite length_firstn in H.
      simpl in H. lia. }
    destruct (firstn k ds) as [| d a'] eqn:E; [congruence |].
    cbn [app]. rewrite parseFloat_digit by (inversion Ha; assumption).
    change (d :: a' ++ 46%N :: skipn k ds) with ((d :: a') ++ 46%N :: skipn k ds).
    rewrite parseUnsigned_fraction by (assumption || discriminate).
    rewrite <- E, firstn_skipn. unfold ds at 1.
    rewrite decimalValue_zeros, decimalValue_digits.
    rewrite length_skipn. unfold k.
    replace (length ds - (length ds - S f))%nat with (S f) by lia.
    reflexivity.
Qed.

(** ** toFixed *)

(** [toFixed] prints the nearest multiple of [10^-f]. *)
Lemma toFixed_nearest f x n :
  nearestScaled f x n ->
  0 <= n /\
  toFixed f x = fixedDigits f (Z.to_N n) /\
  parseFloat (toFixed f x) = ofDecimal false (Z.to_N n) (- Z.of_nat f).
Proof.
  intros H.
  assert (Hgoal : 0 <= n /\ toFixed f x = fixedDigits f (Z.to_N n)).
  { destruct x as [s | s | | s m e];
      cbv beta iota delta [nearestScaled] in H; try contradiction.
    - subst n. split; [lia | reflexivity].
    - destruct s; [contradiction |]. unfold toFixed.
      assert (Ht : 0 < 10 ^ Z.of_nat f) by (apply Z.pow_pos_nonneg; lia).
      destruct (Z.leb_spec 0 e) as [He | He].
      + destruct H as [Hlt ->].
        assert (Hp : 0 < 2 ^ e) by (apply Z.pow_pos_nonneg; lia).
        destruct (Z.leb_spec (10 ^ 21) (Zpos m * 2 ^ e)) as [Hbig | _]; [lia |].
        cbn [andb app]. unfold roundScaled.
        destruct (Z.leb_spec 0 e); [| lia]. split; [nia | reflexivity].
      + cbn [andb app].
        assert (Hp : 0 < 2 ^ (- e)) by (apply Z.pow_pos_nonneg; lia).
        assert (Hn : n = roundScaled f m e).
        { unfold roundScaled. destruct (Z.leb_spec 0 e); [lia |].
          replace (1 - e) with (Z.succ (- e)) by lia.
          rewrite Z.pow_succ_r by lia.
          set (p := 2 ^ (- e)) in *. set (t := 10 ^ Z.of_nat f) in *.
          apply (Z.div_unique_pos _ _ n (2 * Zpos m * t + p - 2 * p * n)); lia. }
        rewrite <- Hn. split; [| reflexivity].
        set (p := 2 ^ (- e)) in *. set (t := 10 ^ Z.of_nat f) in *. nia. }
  destruct Hgoal as [H0 Heq]. split; [exact H0 |]. split; [exact Heq |].
  rewrite Heq. apply parseFloat_fixedDigits.
Qed.

(** ** The functions at some numbers *)

Example toFixed_examples :
  toFixed 1 (fmul (fdiv (ofN 1) (ofN 2)) (ofN 100)) = js "50.0" /\
  toFixed 1 (fmul (fdiv (ofN 1) (ofN 3)) (ofN 100)) = js "33.3" /\
  toFixed 1 (fmul (fdiv (ofN 2) (ofN 3)) (ofN 100)) = js "66.7" /\
  toFixed 1 (fmul (fdiv (ofN 1) (ofN 1)) (ofN 100)) = js "100.0" /\
  toFixed 2 (ofDecimal false 1005 (-3)) = js "1.00" /\
  toFixed 1 (ofDecimal false 145 (-2)) = js "1.4" /\
  toFixed 1 (ofDecimal false 1225 (-2)) = js "12.3" /\
  toFixed 0 (ofDecimal false 25 (-1)) = js "3" /\
  toFixed 0 (ofDecimal true 15 (-1)) = js "-2" /\
  toFixed 1 (ofDecimal true 1 (-2)) = js "-0.0" /\
  toFixed 2 (ofDecimal false 1 21) = js "1e+21" /\
  toFixed 4 (ofDecimal false 12345 25) = js "1.2345e+29" /\
  toFixed 4 (ofDecimal false 1180591620717411303424 0) = js "1.1805916207174113e+21" /\
  toFixed 3 (fdiv (fadd (ofDecimal false 9 (-1)) (ofDecimal false 8 (-1))) (ofN 2))
    = js "0.850".
Proof. vm_compute. repeat split. Qed.

Example parseFloat_examples :
  parseFloat (js "0.850") = S754_finite false 7656119366529843 (-53) /\
  parseFloat (js "0.85") = S754_finite false 7656119366529843 (-53) /\
  parseFloat (js "1.1805916207174113e+21") = S754_finite false 4503599627370496 18 /\
  parseFloat (js "  -.5e1x") = ofDecimal true 5 0 /\
  parseFloat (js "5.") = ofDecimal false 5 0 /\
  parseFloat (js ".") = S754_nan /\
  parseFloat (js "abc") = S754_nan /\
  parseFloat (js "-Infinity") = S754_infinity true /\
  fadd (ofDecimal false 1 (-1)) (ofDecimal false 2 (-1)) = ofDecimal false 30000000000000004 (-17).
Proof. vm_compute. repeat split. Qed.

End NumberFacts.

(** [C3] (as amended) A classification whose result has no first element,
    or no label or score in it, or whose call fails, is answered with a 500
    error; any other result, whatever its label and its score, is answered
    200 with the text as sent, the label in lower case (stated for a label
    of ASCII characters) and the score printed with four decimals and read
    back as a number (for a score that is not negative and below 10^21,
    the multiple of 0.0001 nearest to it), neither of them checked: the
    returned confidence lies in [0,1] whenever the score of the
    classifier does. *)
Theorem predict_passes_classification_through
    (ai : Classifier) (b : PredictRequest) (w : World) (t : jsstring) :
  text b = Some t -> blank (text b) = false ->
  match ai (cleanText t) with
  | AiResolved ({| label := Some l; score := Some s |} :: _) =>
      (exists sentiment,
         fst (fetch ai (PostPredict b) w) =
           jsonResponse (Prediction t sentiment (parseFloat (toFixed 4 s))
                           "distilbert-sst-2") 200 /\
         (isAscii l = true -> sentiment = toLowerCase l)) /\
      (forall n, nearestScaled 4 s n ->
                 parseFloat (toFixed 4 s) = ofDecimal false (Z.to_N n) (-4)) /\
      (isDouble s = true -> inUnit s = true ->
       inUnit (parseFloat (toFixed 4 s)) = true)
  | _ => status (fst (fetch ai (PostPredict b) w)) = 500%N
  end.
Proof.
  intros Ht Hb. rewrite (predict_classifies ai b w Ht Hb). cbn [fst].
  destruct (ai (cleanText t)) as [| [| [[l |] [s |]] items]]; try reflexivity.
  split; [exists (toLowerCase l); split; [reflexivity | auto] |].
  split; [| apply round4_inUnit].
  intros n Hn. apply (toFixed_nearest 4 s n Hn).
Qed.

(** The theorem of [C3] at the classifier of the documentation. *)
Lemma predict_passes_classification_through_witness :
  text Scenario.greatMovie = Some (js "Great movie!!!") /\
  blank (text Scenario.greatMovie) = false /\
  match Scenario.sst2 (cleanText (js "Great movie!!!")) with
  | AiResolved ({| label := Some l; score := Some s |} :: _) =>
      (exists sentiment,
         fst (fetch Scenario.sst2 (PostPredict Scenario.greatMovie) Scenario.start) =
           jsonResponse (Prediction (js "Great movie!!!") sentiment
                           (parseFloat (toFixed 4 s)) "distilbert-sst-2") 200 /\
         (isAscii l = true -> sentiment = toLowerCase l)) /\
      (forall n, nearestScaled 4 s n ->
                 parseFloat (toFixed 4 s) = ofDecimal false (Z.to_N n) (-4)) /\
      (isDouble s = true -> inUnit s = true ->
       inUnit (parseFloat (toFixed 4 s)) = true)
  | _ => status (fst (fetch Scenario.sst2 (PostPredict Scenario.greatMovie)
                        Scenario.start)) = 500%N
  end.
Proof.
  split; [reflexivity |]. split; [reflexivity |].
  apply (@predict_passes_classification_through Scenario.sst2 Scenario.greatMovie
           Scenario.start (js "Great movie!!!")); reflexivity.
Defined.

(** [C3] (as stated, refuted) A classifier that answers with the score 1.5
    is not answered with an error: the response is 200 and carries the
    confidence 1.5, which is not in [0,1]. *)
Lemma predict_out_of_range_score_returned :
  fetch Scenario.overconfident (PostPredict Scenario.greatMovie) Scenario.start =
    (jsonResponse (Prediction (js "Great movie!!!") (js "positive")
                     (Scenario.dec 15 (-1)) "distilbert-sst-2") 200,
     {| db := db Scenario.start; clock := Scenario.noon;
        aiCalls := [js "Great movie!!!"] |}) /\
  inUnit (Scenario.dec 15 (-1)) = false.
Proof. vm_compute. auto. Qed.

(* ===================================================================== *)
(** * POST /api/reviews *)
(* ===================================================================== *)

Section SaveReviewFacts.

Variable ai : Classifier.

Lemma missing_false x : missing x = false <-> exists t, x = Some t /\ t <> [].
Proof.
  destruct x as [[| c r] |]; simpl; split; try discriminate.
  - intros (t & Ht & Hne). inversion Ht; subst. congruence.
  - intros _. exists (c :: r). split; [reflexivity | discriminate].
  - reflexivity.
  - intros (t & Ht & _). discriminate.
Qed.

(** The handler of POST /api/reviews, case by case. *)
Lemma fetch_saveReview b w :
  fetch ai (PostReviews b) w =
    if missing (req_movieId b) || missing (req_text b) || missing (req_sentiment b)
    then (jsonResponse (ErrorBody "Missing required fields") 400, w)
    else
      match req_movieId b, req_text b, req_sentiment b with
      | Some movieId, Some t, Some s =>
          match selectMovie (db w) movieId with
          | None => (jsonResponse (ErrorBody "Movie not found") 404, w)
          | Some _ =>
              match req_confidence b with
              | None => (jsonResponse (InternalError D1Error) 500, w)
              | Some c =>
                  if isFinite c then
                    (jsonResponse (Saved (nextId (db w))) 201,
                     {| db := fst (insertReview (db w) (clock w) movieId
                                     (substring0 1000 t) s c);
                        clock := clock w; aiCalls := aiCalls w |})
                  else (jsonResponse (InternalError D1Error) 500, w)
              end
          end
      | _, _, _ => (jsonResponse (InternalError TypeError) 500, w)
      end.
Proof.
  unfold fetch, route, saveReview.
  destruct (missing (req_movieId b) || missing (req_text b)
            || missing (req_sentiment b)); [reflexivity |].
  destruct (req_movieId b) as [movieId |]; [| reflexivity].
  destruct (req_text b) as [t |]; [| reflexivity].
  destruct (req_sentiment b) as [s |]; [| reflexivity].
  unfold bind, member, ret, query. cbn [fst snd].
  destruct (selectMovie (db w) movieId); [| reflexivity].
  unfold runInsert. destruct (req_confidence b) as [c |]; [| reflexivity].
  destruct (isFinite c); reflexivity.
Qed.

(** 400 is the answer exactly when one of the three strings is missing
    or empty; the confidence takes no part in it. *)
Lemma saveReview_400_iff b w :
  status (fst (fetch ai (PostReviews b) w)) = 400%N <->
  missing (req_movieId b) || missing (req_text b) || missing (req_sentiment b) = true.
Proof.
  rewrite fetch_saveReview.
  destruct (missing (req_movieId b) || missing (req_text b)
            || missing (req_sentiment b)) eqn:E.
  - simpl. tauto.
  - split; [| discriminate].
    destruct (req_movieId b), (req_text b), (req_sentiment b); try discriminate.
    destruct (selectMovie (db w) _); [| discriminate].
    destruct (req_confidence b) as [c |]; [destruct (isFinite c) |]; discriminate.
Qed.

(** What a request does to the tables: nothing, or one review appended
    whose text is the head of a submitted, non-empty text. *)
Lemma fetch_tables r w :
  movies (db (snd (fetch ai r w))) = movies (db w) /\
  (reviews (db (snd (fetch ai r w))) = reviews (db w) \/
   exists b t row,
     r = PostReviews b /\ status (fst (fetch ai r w)) = 201%N /\
     req_text b = Some t /\ t <> [] /\
     review_text row = substring0 1000 t /\
     req_sentiment b = Some (sentiment row) /\
     req_confidence b = Some (confidence row) /\
     req_movieId b = Some (movie_id row) /\
     created_at row = clock w /\
     reviews (db (snd (fetch ai r w))) = reviews (db w) ++ [row]).
Proof.
  destruct r as [| b | b | movieId | q | |]; try (split; [reflexivity | left; reflexivity]).
  - (* predict *)
    destruct (blank (text b)) eqn:Hb.
    + rewrite predict_blank by assumption. auto.
    + destruct (text b) as [t |] eqn:Ht; [| discriminate].
      rewrite (predict_classifies ai b w Ht) by (rewrite Ht; assumption). auto.
  - (* saveReview *)
    rewrite fetch_saveReview.
    destruct (missing (req_movieId b)) eqn:E1; [auto |].
    destruct (missing (req_text b)) eqn:E2; [auto |].
    destruct (missing (req_sentiment b)) eqn:E3; [auto |]. cbn [orb].
    apply missing_false in E2. destruct E2 as (t & Ht & Hne).
    destruct (req_movieId b) as [movieId |] eqn:Hm; [| discriminate].
    destruct (req_sentiment b) as [s |] eqn:Hs; [| discriminate].
    rewrite Ht.
    destruct (selectMovie (db w) movieId); [| auto].
    destruct (req_confidence b) as [c |] eqn:Hc; [| auto].
    destruct (isFinite c); [| auto].
    split; [reflexivity |]. right.
    exists b, t,
      {| review_id := nextId (db w); movie_id := movieId;
         review_text := substring0 1000 t; sentiment := s; confidence := c;
         created_at := clock w |}.
    cbn. auto 10.
  - (* getSentiment *)
    unfold fetch, route, getSentiment, bind, query, queryNow, ret. cbn [fst snd].
    destruct (selectMovie (db w) movieId); auto.
  - (* getMovies *)
    unfold fetch, route, getMovies, bind, query, queryMay, ret.
    destruct (missing q); [auto |].
    destruct (selectMoviesLike (db w) _); auto.
Qed.

(** A property of the reviews that every insert keeps holds in every
    state the service reaches. *)
Lemma run_reviews_invariant (P : Review -> Prop) reqs w :
  (forall r w' b t row,
      r = PostReviews b -> req_text b = Some t -> t <> [] ->
      review_text row = substring0 1000 t ->
      req_sentiment b = Some (sentiment row) ->
      req_confidence b = Some (confidence row) ->
      reviews (db (snd (fetch ai r w'))) = reviews (db w') ++ [row] -> P row) ->
  Forall P (reviews (db w)) -> Forall P (reviews (db (run ai reqs w))).
Proof.
  intros Hstep. revert w. induction reqs as [| [t r] rest IH]; intros w Hw.
  - assumption.
  - simpl. apply IH.
    destruct (fetch_tables r (at_time t w)) as [_ [Heq | Hex]].
    + rewrite Heq. assumption.
    + destruct Hex as (b & txt & row & Hr & _ & Ht & Hne & Hrow & Hs & Hc & _ & _ & Heq).
      rewrite Heq. apply Forall_app. split; [assumption |].
      constructor; [| constructor].
      eapply Hstep; eassumption.
Qed.

Lemma run_movies reqs w : movies (db (run ai reqs w)) = movies (db w).
Proof.
  revert w. induction reqs as [| [t r] rest IH]; intros w; [reflexivity |].
  simpl. rewrite IH. destruct (fetch_tables r (at_time t w)) as [H _].
  rewrite H. reflexivity.
Qed.

End SaveReviewFacts.

(** [C1] (the code at the failing input) A review of a known movie with the
    confidence 5 is not answered 400: it is inserted as it is and answered
    201; and without a confidence the request gets as far as the insert,
    which the store refuses, and is answered 500. *)
Theorem saveReview_confidence_unchecked :
  fetch Scenario.sst2
    (Scenario.review "tt0111161" "Best movie ever!" "positive" (Scenario.dec 5 0))
    Scenario.start =
    (jsonResponse (Saved 1) 201,
     {| db := {| movies := Scenario.catalog;
                 reviews := [{| review_id := 1; movie_id := js "tt0111161";
                                review_text := js "Best movie ever!";
                                sentiment := js "positive";
                                confidence := Scenario.dec 5 0;
                                created_at := Scenario.noon |}] |};
        clock := Scenario.noon; aiCalls := [] |}) /\
  inUnit (Scenario.dec 5 0) = false /\
  fetch Scenario.sst2
    (PostReviews {| req_movieId := Some (js "tt0111161");
                    req_text := Some (js "Best movie ever!");
                    req_sentiment := Some (js "positive");
                    req_confidence := None |})
    Scenario.start =
    (jsonResponse (InternalError D1Error) 500, Scenario.start).
Proof. vm_compute. auto. Qed.

Section StoreTextFacts.

Local Open Scope N_scope.

(** Induction on a list by its first element and by its first two. *)
Lemma list_ind2 {A} (P : list A -> Prop) :
  P [] -> (forall a, P [a]) ->
  (forall a b l, P l -> P (b :: l) -> P (a :: b :: l)) ->
  forall l, P l.
Proof.
  intros H0 H1 H2 l.
  assert (H : P l /\ forall a, P (a :: l)).
  { induction l as [| b l [IHl IHc]].
    - split; [exact H0 | exact H1].
    - split; [apply IHc |]. intros a. apply H2; [exact IHl | apply IHc]. }
  apply H.
Qed.

Lemma readBack_cons2 a b l :
  readBack (a :: b :: l) =
    if isHigh a && isLow b then a :: b :: readBack l
    else if isHigh a || isLow a then 65533 :: 65533 :: 65533 :: readBack (b :: l)
    else a :: readBack (b :: l).
Proof. reflexivity. Qed.

Lemma readBack_one a :
  readBack [a] = if isHigh a || isLow a then [65533; 65533; 65533] else [a].
Proof. reflexivity. Qed.

Lemma wellFormed_cons2 a b l :
  wellFormed (a :: b :: l) =
    if isHigh a then isLow b && wellFormed l
    else negb (isLow a) && wellFormed (b :: l).
Proof. reflexivity. Qed.

Lemma wellFormed_one a : wellFormed [a] = negb (isHigh a) && negb (isLow a).
Proof. unfold wellFormed, isHigh, isLow. destruct (between 55296 56319 a); [reflexivity |].
  rewrite andb_true_r. reflexivity.
Qed.

(** What is read back is empty only for the empty string. *)
Lemma readBack_nil s : readBack s = [] <-> s = [].
Proof.
  split; [| intros ->; reflexivity].
  destruct s as [| a [| b l]]; [reflexivity | |].
  - rewrite readBack_one. destruct (isHigh a || isLow a); discriminate.
  - rewrite readBack_cons2.
    destruct (isHigh a && isLow b); [discriminate |].
    destruct (isHigh a || isLow a); discriminate.
Qed.

(** An unpaired surrogate comes back as three code units, any other code
    unit as itself. *)
Lemma readBack_length s : (length (readBack s) <= 3 * length s)%nat.
Proof.
  induction s as [| a | a b l IH1 IH2] using list_ind2.
  - simpl. lia.
  - rewrite readBack_one. destruct (isHigh a || isLow a); simpl; lia.
  - rewrite readBack_cons2.
    destruct (isHigh a && isLow b); [simpl in *; lia |].
    destruct (isHigh a || isLow a); simpl length in *; lia.
Qed.

(** Well-formed text is read back as it is. *)
Lemma readBack_wellFormed s : wellFormed s = true -> readBack s = s.
Proof.
  induction s as [| a | a b l IH1 IH2] using list_ind2.
  - reflexivity.
  - rewrite wellFormed_one, readBack_one.
    destruct (isHigh a), (isLow a); try discriminate. reflexivity.
  - rewrite wellFormed_cons2, readBack_cons2.
    destruct (isHigh a), (isLow b), (isLow a); cbn [andb orb negb];
      intros H; try discriminate; rewrite ?IH1, ?IH2 by assumption; reflexivity.
Qed.

(** The head of a well-formed text has at most one unpaired surrogate, its
    last code unit. *)
Lemma readBack_firstn t :
  wellFormed t = true ->
  forall n, (length (readBack (firstn n t)) <= n + 2)%nat.
Proof.
  induction t as [| a | a b l IH1 IH2] using list_ind2.
  - intros _ n. rewrite firstn_nil. simpl. lia.
  - rewrite wellFormed_one. intros H [| n]; [simpl; lia |].
    cbn [firstn]. rewrite firstn_nil, readBack_one.
    destruct (isHigh a), (isLow a); try discriminate. simpl. lia.
  - rewrite wellFormed_cons2. intros H [| [| n]].
    + simpl. lia.
    + cbn [firstn]. rewrite readBack_one.
      destruct (isHigh a || isLow a); simpl; lia.
    + cbn [firstn]. rewrite readBack_cons2.
      destruct (isHigh a) eqn:Ea.
      * apply andb_true_iff in H. destruct H as [Hb Hl]. rewrite Hb. cbn [andb].
        specialize (IH1 Hl n). cbn [length]. unfold jsstring, char in *. lia.
      * apply andb_true_iff in H. destruct H as [Ha Hl].
        apply negb_true_iff in Ha. rewrite Ha. cbn [andb orb].
        specialize (IH2 Hl (S n)). cbn [firstn] in IH2. cbn [length].
        unfold jsstring, char in *. lia.
Qed.

End StoreTextFacts.

(** [C5] (as amended) Every review that saveReview persists has a text that
    is the first 1000 code units of a submitted text that was not empty,
    as submitted, and that a SELECT reads back with each unpaired
    surrogate (such as the half of a pair that the cut splits) as three
    U+FFFD: it is not empty and has at most 3000 code units; it is the
    1000 code units themselves when these are well-formed, and it has at
    most 1002 code units when the submitted text is well-formed. *)
Theorem saved_text_capped_nonempty
    (ai : Classifier) (catalog : list Movie) (reqs : list Arrival) :
  Forall (fun r =>
            (exists t, t <> [] /\
                       readBack (review_text r) = readBack (substring0 1000 t)) /\
            readBack (review_text r) <> [] /\
            (length (readBack (review_text r)) <= 3000)%nat)
    (reviews (db (run ai reqs (initial catalog)))) /\
  (forall b w,
      status (fst (fetch ai (PostReviews b) w)) = 201%N ->
      exists t row,
        req_text b = Some t /\ t <> [] /\
        reviews (db (snd (fetch ai (PostReviews b) w))) = reviews (db w) ++ [row] /\
        readBack (review_text row) = readBack (substring0 1000 t) /\
        (wellFormed (substring0 1000 t) = true ->
         readBack (review_text row) = substring0 1000 t /\
         (length (readBack (review_text row)) <= 1000)%nat) /\
        (wellFormed t = true ->
         (length (readBack (review_text row)) <= 1002)%nat)).
Proof.
  split.
  - apply run_reviews_invariant; [| constructor].
    intros r w' b t row _ _ Hne Hrow _ _ _. rewrite Hrow.
    split; [exists t; auto |]. split.
    + rewrite readBack_nil. unfold substring0.
      destruct t as [| c t]; [congruence | discriminate].
    + pose proof (readBack_length (substring0 1000 t)) as H.
      unfold substring0 in *. rewrite length_firstn in H. lia.
  - intros b w H201.
    destruct (fetch_tables ai (PostReviews b) w) as [_ [Heq | Hex]].
    + exfalso. revert H201. rewrite fetch_saveReview.
      rewrite fetch_saveReview in Heq.
      destruct (missing (req_movieId b) || missing (req_text b)
                || missing (req_sentiment b)); [discriminate |].
      destruct (req_movieId b), (req_text b), (req_sentiment b); try discriminate.
      destruct (selectMovie (db w) _); [| discriminate].
      destruct (req_confidence b) as [c |]; [| discriminate].
      destruct (isFinite c); [| discriminate].
      intros _. cbn in Heq. apply (f_equal (@length _)) in Heq.
      rewrite length_app in Heq. simpl in Heq. lia.
    + destruct Hex as (b' & t & row & Hr & _ & Ht & Hne & Hrow & _ & _ & _ & _ & Heq).
      inversion Hr; subst b'. exists t, row. rewrite Hrow.
      split; [exact Ht |]. split; [exact Hne |]. split; [exact Heq |].
      split; [reflexivity |]. split.
      * intros Hwf. rewrite (readBack_wellFormed _ Hwf).
        split; [reflexivity |]. unfold substring0. rewrite length_firstn. lia.
      * intros Hwf. apply (readBack_firstn t Hwf 1000).
Qed.

(** [C5] (as stated, refuted) A review whose text carries markup is stored
    with the markup. *)
Lemma saved_text_keeps_markup :
  map review_text
    (reviews (db (snd (fetch Scenario.sst2
                         (Scenario.review "tt0111161" "<b>Great</b> movie"
                            "positive" (Scenario.dec 9 (-1)))
                         Scenario.start)))) = [js "<b>Great</b> movie"] /\
  hasTag (js "<b>Great</b> movie") = true /\
  cleanText (js "<b>Great</b> movie") <> js "<b>Great</b> movie".
Proof. vm_compute. repeat split. discriminate. Qed.

(** A surrogate pair across the cut: of 999 letters and an emoji the
    review holds the letters and half of the emoji, and the service lists
    it with 1002 code units, the half as three U+FFFD. *)
Lemma saved_text_split_pair :
  map rr_text
    (recentOf (fst (fetch Scenario.sst2 (GetSentiment (js "tt0111161"))
                      (snd (fetch Scenario.sst2 Scenario.splitPairReview
                              Scenario.start))))) =
    [repeat 97%N 999 ++ [65533; 65533; 65533]%N] /\
  length (repeat 97%N 999 ++ [65533; 65533; 65533]%N) = 1002%nat /\
  wellFormed Scenario.splitPair = true.
Proof. vm_compute. auto. Qed.

(* ===================================================================== *)
(** * ORDER BY and LIMIT *)
(* ===================================================================== *)

Section OrderByFacts.

Context {A : Type} (leb : A -> A -> bool).

Lemma insertBy_perm x l : Permutation (insertBy leb x l) (x :: l).
Proof.
  induction l as [| y l IH]; simpl.
  - apply Permutation_refl.
  - destruct (leb x y).
    + apply Permutation_refl.
    + eapply perm_trans; [apply perm_skip, IH | apply perm_swap].
Qed.

Lemma orderBy_perm l : Permutation (orderBy leb l) l.
Proof.
  induction l as [| x l IH]; simpl.
  - apply perm_nil.
  - eapply perm_trans; [apply insertBy_perm | apply perm_skip, IH].
Qed.

Lemma orderBy_In x l : In x (orderBy leb l) <-> In x l.
Proof.
  split; apply Permutation_in; [| apply Permutation_sym]; apply orderBy_perm.
Qed.

Hypothesis leb_total : forall a b, leb a b = true \/ leb b a = true.
Hypothesis leb_trans : forall a b c, leb a b = true -> leb b c = true -> leb a c = true.

Lemma insertBy_sorted x l :
  StronglySorted (fun a b => leb a b = true) l ->
  StronglySorted (fun a b => leb a b = true) (insertBy leb x l).
Proof.
  induction 1 as [| y l Hl IH Hy]; simpl.
  - repeat constructor.
  - destruct (leb x y) eqn:E.
    + constructor; [constructor; assumption |].
      constructor; [exact E |].
      eapply Forall_impl; [| exact Hy]. intros z Hz. eapply leb_trans; eassumption.
    + constructor; [exact IH |].
      apply Forall_forall. intros z Hz.
      apply (Permutation_in _ (insertBy_perm x l)) in Hz.
      destruct Hz as [<- | Hz].
      * destruct (leb_total x y) as [H | H]; [congruence | exact H].
      * rewrite Forall_forall in Hy. apply Hy. assumption.
Qed.

Lemma orderBy_sorted l : StronglySorted (fun a b => leb a b = true) (orderBy leb l).
Proof.
  induction l as [| x l IH]; simpl; [constructor | apply insertBy_sorted, IH].
Qed.

End OrderByFacts.

Section LimitFacts.

Context {A : Type}.

Lemma StronglySorted_firstn (R : A -> A -> Prop) n l :
  StronglySorted R l -> StronglySorted R (firstn n l).
Proof.
  intros H. revert n. induction H as [| x l Hl IH Hx]; intros [| n]; simpl;
    try constructor.
  - apply IH.
  - apply Forall_forall. intros y Hy. rewrite Forall_forall in Hx. apply Hx.
    eapply Subseq_In; [apply Subseq_firstn | exact Hy].
Qed.

Lemma limit_length n (l : list A) : (length (limit n l) <= n)%nat.
Proof. apply firstn_le_length. Qed.

(** Below the limit every row is returned. *)
Lemma limit_all n (l : list A) : (length l <= n)%nat -> limit n l = l.
Proof. apply firstn_all2. Qed.

End LimitFacts.

(* ===================================================================== *)
(** * GET /api/movies/:movieId/sentiment: the statistics *)
(* ===================================================================== *)

Section StatsFacts.

Local Open Scope N_scope.

Lemma str_eqb_eq a b : str_eqb a b = true <-> a = b.
Proof.
  revert b. induction a as [| x a IH]; intros [| y b]; simpl;
    try (split; [discriminate | congruence]); [tauto |].
  rewrite andb_true_iff, N.eqb_eq, IH. split.
  - intros [-> ->]. reflexivity.
  - intros H. inversion H. auto.
Qed.

Lemma str_eqb_refl a : str_eqb a a = true.
Proof. apply str_eqb_eq. reflexivity. Qed.

(** A SUM of ones counts the rows of its case. *)
Lemma SUM_caseWhen {A} (p : A -> bool) (l : list A) :
  fold_right N.add 0 (map (fun r => caseWhen (p r)) l) = N.of_nat (length (filter p l)).
Proof.
  induction l as [| x l IH]; [reflexivity |].
  cbn [map fold_right filter]. rewrite IH.
  destruct (p x); cbn [caseWhen length]; lia.
Qed.

Lemma orZero_SUM_caseWhen {A} (p : A -> bool) (l : list A) :
  orZero (SUM (map (fun r => caseWhen (p r)) l)) = N.of_nat (length (filter p l)).
Proof.
  destruct l as [| x l]; [reflexivity |].
  unfold SUM. cbn [map orZero]. apply (SUM_caseWhen p (x :: l)).
Qed.

Lemma positive_not_negative r : isPositive r = true -> isNegative r = false.
Proof.
  unfold isPositive, isNegative. intros H. apply str_eqb_eq in H. rewrite H.
  reflexivity.
Qed.

Lemma filter_two_le {A} (p q : A -> bool) (l : list A) :
  (forall x, p x = true -> q x = false) ->
  (length (filter p l) + length (filter q l) <= length l)%nat /\
  ((length (filter p l) + length (filter q l) = length l)%nat <->
   Forall (fun x => p x || q x = true) l).
Proof.
  intros Hpq. induction l as [| x l [IHle IHeq]].
  - simpl. split; [lia |]. split; [constructor | reflexivity].
  - cbn [filter]. specialize (Hpq x).
    destruct (p x) eqn:Ep; [rewrite (Hpq eq_refl) | destruct (q x) eqn:Eq];
      cbn [length]; (split; [lia |]).
    + rewrite Forall_cons_iff. rewrite Ep. simpl. rewrite <- IHeq. lia.
    + rewrite Forall_cons_iff. rewrite Ep, Eq. simpl. rewrite <- IHeq. lia.
    + rewrite Forall_cons_iff. rewrite Ep, Eq. simpl. split; [lia |].
      intros [H _]. discriminate.
Qed.

(** The rows that the statements read are the reviews of the movie. *)
Lemma movieRows_perm s movieId :
  Permutation (movieRows s movieId) (filter (ofMovie movieId) (reviews s)).
Proof. apply orderBy_perm. Qed.

Lemma filter_length_perm {A} (p : A -> bool) (l l' : list A) :
  Permutation l l' -> length (filter p l) = length (filter p l').
Proof.
  induction 1 as [| x l l' _ IH | x y l | l l' l'' _ IH1 _ IH2]; cbn [filter].
  - reflexivity.
  - destruct (p x); cbn [length]; congruence.
  - destruct (p x), (p y); reflexivity.
  - congruence.
Qed.

(** The three counts of the response, as counts of rows. *)
Lemma stats_counts s movieId :
  let rows := filter (ofMovie movieId) (reviews s) in
  let st := assembleStats (selectStats s movieId) in
  totalReviews st = N.of_nat (length rows) /\
  positiveCount st = N.of_nat (length (filter isPositive rows)) /\
  negativeCount st = N.of_nat (length (filter isNegative rows)).
Proof.
  cbn zeta. unfold assembleStats, selectStats.
  cbn [totalReviews positiveCount negativeCount total_reviews positive_count negative_count].
  rewrite !orZero_SUM_caseWhen. unfold countRows.
  rewrite (Permutation_length (movieRows_perm s movieId)).
  rewrite !(filter_length_perm _ (movieRows_perm s movieId)). auto.
Qed.

(** The two counts never exceed the total, and add up to it exactly when
    every review of the movie carries one of the two sentiments. *)
Lemma stats_counts_sum s movieId :
  let st := assembleStats (selectStats s movieId) in
  positiveCount st + negativeCount st <= totalReviews st /\
  (positiveCount st + negativeCount st = totalReviews st <->
   Forall (fun r => isSentiment (sentiment r) = true)
     (filter (ofMovie movieId) (reviews s))).
Proof.
  cbn zeta. destruct (stats_counts s movieId) as (-> & -> & ->).
  destruct (filter_two_le isPositive isNegative
              (filter (ofMovie movieId) (reviews s)) positive_not_negative)
    as [Hle Heq].
  split; [lia |]. unfold isSentiment.
  change (fun r => str_eqb (sentiment r) (js "positive")
                   || str_eqb (sentiment r) (js "negative") = true)
    with (fun r => isPositive r || isNegative r = true).
  rewrite <- Heq. lia.
Qed.

End StatsFacts.

(** [C2] (the code at the failing input) After one review with the
    sentiment [neutral] is saved for a movie, its statistics report one
    review in total, none positive and none negative. *)
Theorem stats_counts_with_third_sentiment :
  fst (fetch Scenario.sst2
         (Scenario.review "tt0111161" "It was fine." "neutral" (Scenario.dec 5 (-1)))
         Scenario.start) = jsonResponse (Saved 1) 201 /\
  fst (fetch Scenario.sst2 (GetSentiment (js "tt0111161"))
         (run Scenario.sst2
            [(Scenario.noon,
              Scenario.review "tt0111161" "It was fine." "neutral" (Scenario.dec 5 (-1)))]
            Scenario.start)) =
    jsonResponse
      (Sentiment Scenario.shawshank
         {| totalReviews := 1; positiveCount := 0; negativeCount := 0;
            positivePercentage := JStr (js "0.0");
            averageConfidence := JNum (Scenario.dec 5 (-1)) |}
         [{| rr_text := js "It was fine."; rr_sentiment := js "neutral";
             rr_confidence := Scenario.dec 5 (-1); rr_date := Scenario.noon |}]
         [{| date := 19753; positive := 0; negative := 0 |}])
      200.
Proof. vm_compute. auto. Qed.

(* ===================================================================== *)
(** * GET /api/movies/:movieId/sentiment: the trend *)
(* ===================================================================== *)

Section TrendFacts.

Local Open Scope N_scope.

Variable ai : Classifier.

Lemma fetch_getSentiment movieId w :
  fetch ai (GetSentiment movieId) w =
    (match selectMovie (db w) movieId with
     | None => jsonResponse (ErrorBody "Movie not found") 404
     | Some m =>
         jsonResponse
           (Sentiment m (assembleStats (selectStats (db w) movieId))
              (map asRecent (selectRecent (db w) movieId))
              (selectTrend (db w) (clock w) movieId)) 200
     end, w).
Proof.
  unfold fetch, route, getSentiment, bind, query, queryNow, ret. cbn [fst snd].
  destruct (selectMovie (db w) movieId); reflexivity.
Qed.

Lemma ofMovie_eq movieId r : ofMovie movieId r = true <-> movie_id r = movieId.
Proof. apply str_eqb_eq. Qed.

Lemma trend_dates s now movieId :
  Permutation (map date (selectTrend s now movieId))
    (nodup N.eq_dec
       (map (fun r => DATE (created_at r))
          (filter (inTrendWindow now movieId) (reviews s)))).
Proof.
  unfold selectTrend.
  eapply perm_trans; [apply Permutation_map, orderBy_perm |].
  rewrite map_map. cbn [date]. rewrite map_id. apply Permutation_refl.
Qed.

Lemma sorted_strict (l : list TrendRow) :
  StronglySorted (fun a b => (date b <=? date a) = true) l ->
  NoDup (map date l) -> StronglySorted descending l.
Proof.
  induction 1 as [| x l Hl IH Hx]; intros Hnd; [constructor |].
  simpl in Hnd. inversion Hnd as [| ? ? Hnin Hnd']; subst.
  constructor; [apply IH; assumption |].
  apply Forall_forall. intros y Hy. rewrite Forall_forall in Hx.
  specialize (Hx y Hy). apply N.leb_le in Hx. unfold descending.
  assert (date y <> date x).
  { intros Heq. apply Hnin. rewrite <- Heq. apply in_map. assumption. }
  lia.
Qed.

Lemma trend_sorted s now movieId : StronglySorted descending (selectTrend s now movieId).
Proof.
  apply sorted_strict.
  - unfold selectTrend. apply orderBy_sorted.
    + intros a b. rewrite !N.leb_le. lia.
    + intros a b c. rewrite !N.leb_le. lia.
  - eapply Permutation_NoDup; [apply Permutation_sym, trend_dates |].
    apply NoDup_nodup.
Qed.

Lemma trend_In_date s now movieId d :
  In d (map date (selectTrend s now movieId)) <->
  exists r, In r (reviews s) /\ movie_id r = movieId /\
            dateMinus30 now <= DATE (created_at r) /\ DATE (created_at r) = d.
Proof.
  split.
  - intros H. apply (Permutation_in _ (trend_dates s now movieId)) in H.
    apply nodup_In, in_map_iff in H. destruct H as (r & Hd & Hr).
    apply filter_In in Hr. destruct Hr as [Hr Hw].
    unfold inTrendWindow in Hw. apply andb_true_iff in Hw. destruct Hw as [Hm Hw].
    exists r. rewrite <- ofMovie_eq. apply N.leb_le in Hw. auto.
  - intros (r & Hr & Hm & Hw & Hd).
    apply (Permutation_in _ (Permutation_sym (trend_dates s now movieId))).
    apply nodup_In, in_map_iff. exists r. split; [assumption |].
    apply filter_In. split; [assumption |].
    unfold inTrendWindow. apply andb_true_iff. rewrite ofMovie_eq, N.leb_le. auto.
Qed.

(** The rows of a day inside the window are all the rows of the movie on
    that day. *)
Lemma filter_day_in_window (p : Review -> bool) now movieId d l :
  dateMinus30 now <= d ->
  filter p (filter (onDate d) (filter (inTrendWindow now movieId) l)) =
  filter (fun r => ofMovie movieId r && onDate d r && p r) l.
Proof.
  intros Hd. induction l as [| r l IH]; [reflexivity |].
  cbn [filter]. unfold inTrendWindow at 1.
  destruct (ofMovie movieId r) eqn:Em; cbn [andb]; [| exact IH].
  destruct (onDate d r) eqn:Ed.
  - unfold onDate in Ed. apply N.eqb_eq in Ed.
    assert (Hw : (dateMinus30 now <=? DATE (created_at r)) = true)
      by (apply N.leb_le; lia).
    rewrite Hw. cbn [filter]. unfold onDate at 1. rewrite Ed, N.eqb_refl.
    cbn [filter andb]. destruct (p r); [f_equal |]; exact IH.
  - destruct (dateMinus30 now <=? DATE (created_at r)); [| exact IH].
    cbn [filter]. rewrite Ed. cbn [andb]. exact IH.
Qed.

Lemma trend_counts s now movieId row :
  In row (selectTrend s now movieId) ->
  positive row =
    N.of_nat (length (filter (fun r => ofMovie movieId r && onDate (date row) r
                                        && isPositive r) (reviews s))) /\
  negative row =
    N.of_nat (length (filter (fun r => ofMovie movieId r && onDate (date row) r
                                        && isNegative r) (reviews s))).
Proof.
  intros Hin.
  assert (Hd : In (date row) (map date (selectTrend s now movieId)))
    by (apply in_map; assumption).
  apply trend_In_date in Hd. destruct Hd as (r0 & _ & _ & Hw & Hd0).
  unfold selectTrend in Hin. apply orderBy_In, in_map_iff in Hin.
  destruct Hin as (d & <- & _). cbn [date positive negative] in *.
  rewrite !SUM_caseWhen, !filter_day_in_window by lia. auto.
Qed.

End TrendFacts.

(** [C8] For a movie of the catalog the trend of the getStats response is
    ordered by date, strictly descending, so no date has two entries; a
    date has an entry exactly when some review of the movie was created on
    it within the window of the statement (from the calendar day thirty
    days before the day of the request); and the entry carries the number
    of positive and of negative reviews of the movie of that date. *)
Theorem trend_one_entry_per_reviewed_date
    (ai : Classifier) (w : World) (movieId : jsstring) (m : Movie) :
  selectMovie (db w) movieId = Some m ->
  exists stats recent trend,
    fst (fetch ai (GetSentiment movieId) w) =
      jsonResponse (Sentiment m stats recent trend) 200 /\
    StronglySorted descending trend /\
    NoDup (map date trend) /\
    (forall d,
        In d (map date trend) <->
        exists r, In r (reviews (db w)) /\ movie_id r = movieId /\
                  (DATE (clock w) - 30 <= DATE (created_at r))%N /\
                  DATE (created_at r) = d) /\
    (forall row,
        In row trend ->
        positive row =
          N.of_nat (length (filter (fun r => ofMovie movieId r && onDate (date row) r
                                              && isPositive r) (reviews (db w)))) /\
        negative row =
          N.of_nat (length (filter (fun r => ofMovie movieId r && onDate (date row) r
                                              && isNegative r) (reviews (db w))))).
Proof.
  intros Hm. rewrite fetch_getSentiment, Hm. cbn [fst].
  eexists _, _, _. split; [reflexivity |].
  split; [apply trend_sorted |].
  split; [eapply Permutation_NoDup;
          [apply Permutation_sym, trend_dates | apply NoDup_nodup] |].
  split; [intros d; apply trend_In_date | intros row; apply trend_counts].
Qed.

(** The theorem of [C8] at the two reviews of the scenario. *)
Lemma trend_one_entry_per_reviewed_date_witness :
  selectMovie (db Scenario.twoReviews) (js "tt0111161") = Some Scenario.shawshank /\
  exists stats recent trend,
    fst (fetch Scenario.sst2 (GetSentiment (js "tt0111161")) Scenario.twoReviews) =
      jsonResponse (Sentiment Scenario.shawshank stats recent trend) 200 /\
    StronglySorted descending trend /\ NoDup (map date trend).
Proof.
  split; [reflexivity |].
  destruct (@trend_one_entry_per_reviewed_date Scenario.sst2 Scenario.twoReviews
              (js "tt0111161") Scenario.shawshank eq_refl)
    as (stats & recent & trend & H1 & H2 & H3 & _).
  exists stats, recent, trend. auto.
Defined.

(** The sum inside AVG is compensated: of the four confidences 0.2269,
    0.0018, 0.9314 and 0.1699 the mean is rendered [0.333], where their
    plain sum from left to right would give [0.332]. *)
Lemma AVG_compensated :
  option_map (toFixed 3)
    (AVG [Scenario.dec 2269 (-4); Scenario.dec 18 (-4);
          Scenario.dec 9314 (-4); Scenario.dec 1699 (-4)]) = Some (js "0.333") /\
  toFixed 3
    (fdiv (fold_left fadd
             [Scenario.dec 2269 (-4); Scenario.dec 18 (-4);
              Scenario.dec 9314 (-4); Scenario.dec 1699 (-4)] zero)
          (ofN 4)) = js "0.332".
Proof. split; vm_compute; reflexivity. Qed.

(** [C4] (as amended) For a movie of the catalog, getStats reports
    positivePercentage as the string that renders
    (positiveCount / totalReviews) * 100 with one decimal, and as the
    number 0 when there is no review; and averageConfidence always as a
    number: the mean of the confidences as the store holds them, as its
    AVG computes it (a compensated sum in binary64, in the order in which
    the store reads the reviews of the movie, divided by the count),
    rendered
    with three decimals and read back as a number (so 0.85, the trailing
    zero is not kept), and 0 when there is no review or the mean is 0 or
    not a number.  The decimals are those of the integer nearest to ten
    times the percentage, and to a thousand times the mean. *)
Theorem getStats_rounding
    (ai : Classifier) (w : World) (movieId : jsstring) (m : Movie) :
  selectMovie (db w) movieId = Some m ->
  exists stats recent trend,
    fst (fetch ai (GetSentiment movieId) w) =
      jsonResponse (Sentiment m stats recent trend) 200 /\
    totalReviews stats =
      N.of_nat (length (filter (ofMovie movieId) (reviews (db w)))) /\
    match filter (ofMovie movieId) (reviews (db w)) with
    | [] =>
        positivePercentage stats = JNum zero /\
        averageConfidence stats = JNum zero
    | _ :: _ =>
        let pct := fmul (fdiv (ofN (positiveCount stats)) (ofN (totalReviews stats)))
                        (ofN 100) in
        positivePercentage stats = JStr (toFixed 1 pct) /\
        (forall n, nearestScaled 1 pct n ->
                   positivePercentage stats = JStr (fixedDigits 1 (Z.to_N n))) /\
        match AVG (map (fun r => readReal (confidence r))
                       (movieRows (db w) movieId)) with
        | Some avg =>
            averageConfidence stats =
              JNum (if JsNumber.truthy avg then parseFloat (toFixed 3 avg) else zero) /\
            (forall n, nearestScaled 3 avg n ->
                       averageConfidence stats = JNum (ofDecimal false (Z.to_N n) (-3)))
        | None => averageConfidence stats = JNum zero
        end
    end.
Proof.
  intros Hm. rewrite fetch_getSentiment, Hm. cbn [fst].
  eexists _, _, _. split; [reflexivity |].
  destruct (stats_counts (db w) movieId) as (Htot & _ & _).
  split; [exact Htot |].
  unfold assembleStats in *. unfold selectStats in *.
  cbn [totalReviews positiveCount positivePercentage averageConfidence
       total_reviews positive_count avg_confidence] in *.
  rewrite Htot. clear Htot.
  destruct (filter (ofMovie movieId) (reviews (db w))) as [| r rows] eqn:E.
  - unfold movieRows. rewrite E. split; reflexivity.
  - cbv zeta. set (pct := fmul _ (ofN 100)).
    assert (Hpct : (if (N.of_nat (length (r :: rows)) =? 0)%N then JNum zero
                    else JStr (toFixed 1 pct)) = JStr (toFixed 1 pct)) by reflexivity.
    split; [exact Hpct |]. split.
    + intros n Hn. rewrite Hpct. f_equal. apply (toFixed_nearest 1 pct n Hn).
    + destruct (AVG (map (fun r0 => readReal (confidence r0))
                         (movieRows (db w) movieId))) as [avg |];
        [| reflexivity].
      assert (Havg : (if JsNumber.truthy avg then JNum (parseFloat (toFixed 3 avg))
                      else JNum zero) =
                     JNum (if JsNumber.truthy avg then parseFloat (toFixed 3 avg)
                           else zero))
        by (destruct (JsNumber.truthy avg); reflexivity).
      split; [exact Havg |].
      intros n Hn. rewrite Havg. f_equal.
      destruct (toFixed_nearest 3 avg n Hn) as (_ & _ & Hparse).
      destruct avg as [s | s | | s p e];
        cbv beta iota delta [nearestScaled] in Hn; try contradiction.
      * subst n. reflexivity.
      * exact Hparse.
Qed.

(** The theorem of [C4] at the two reviews of the scenario. *)
Lemma getStats_rounding_witness :
  selectMovie (db Scenario.twoReviews) (js "tt0111161") = Some Scenario.shawshank /\
  exists stats,
    positivePercentage stats = JStr (js "50.0") /\
    averageConfidence stats = JNum (Scenario.dec 85 (-2)) /\
    exists recent trend,
      fst (fetch Scenario.sst2 (GetSentiment (js "tt0111161")) Scenario.twoReviews) =
        jsonResponse (Sentiment Scenario.shawshank stats recent trend) 200.
Proof.
  split; [reflexivity |].
  destruct (@getStats_rounding Scenario.sst2 Scenario.twoReviews
              (js "tt0111161") Scenario.shawshank eq_refl)
    as (stats & recent & trend & H1 & H2 & H3).
  assert (Hs : stats = assembleStats (selectStats (db Scenario.twoReviews) (js "tt0111161"))).
  { rewrite fetch_getSentiment in H1. cbn [fst] in H1.
    change (selectMovie (db Scenario.twoReviews) (js "tt0111161"))
      with (Some Scenario.shawshank) in H1.
    unfold jsonResponse in H1. inversion H1. reflexivity. }
  clear H2 H3. subst stats. eexists.
  split; [| split; [| exists recent, trend; exact H1]]; vm_compute; reflexivity.
Defined.

(** [C4] (as stated, refuted) With two reviews of confidence 0.9 and 0.8,
    one of them positive, the response has positivePercentage ["50.0"]
    and the averageConfidence is the number 0.85, not the string
    ["0.850"]: the three decimals are printed and parsed again. *)
Lemma getStats_average_is_a_number :
  fst (fetch Scenario.sst2 (GetSentiment (js "tt0111161")) Scenario.twoReviews) =
    jsonResponse
      (Sentiment Scenario.shawshank
         {| totalReviews := 2; positiveCount := 1; negativeCount := 1;
            positivePercentage := JStr (js "50.0");
            averageConfidence := JNum (Scenario.dec 85 (-2)) |}
         [{| rr_text := js "Too long."; rr_sentiment := js "negative";
             rr_confidence := Scenario.dec 8 (-1); rr_date := (Scenario.noon + 60)%N |};
          {| rr_text := js "Best movie ever!"; rr_sentiment := js "positive";
             rr_confidence := Scenario.dec 9 (-1); rr_date := Scenario.noon |}]
         [{| date := 19753; positive := 1; negative := 1 |}])
      200 /\
  JNum (Scenario.dec 85 (-2)) <> JStr (js "0.850") /\
  parseFloat (js "0.850") = parseFloat (js "0.85").
Proof. vm_compute. repeat split. discriminate. Qed.

(* ===================================================================== *)
(** * GET /api/movies *)
(* ===================================================================== *)

Section SearchFacts.

Local Open Scope N_scope.

Variable ai : Classifier.

Lemma fetch_getMovies q w :
  fetch ai (GetMovies q) w =
    match q with
    | None | Some [] =>
        (jsonResponse (Movies (selectAllMovies (db w))
                         (length (selectAllMovies (db w)))) 200, w)
    | Some t =>
        match selectMoviesLike (db w) (js "%" ++ t ++ js "%") with
        | Some ms => (jsonResponse (Movies ms (length ms)) 200, w)
        | None => (jsonResponse (InternalError D1Error) 500, w)
        end
    end.
Proof.
  destruct q as [[| c t] |]; try reflexivity.
  unfold fetch, route, getMovies, bind, queryMay, ret. cbn [missing JsString.truthy negb].
  destruct (selectMoviesLike (db w) _); reflexivity.
Qed.

Lemma str_leb_total a b : str_leb a b = true \/ str_leb b a = true.
Proof.
  revert b. induction a as [| x a IH]; intros [| y b]; simpl; auto.
  destruct (N.ltb_spec x y), (N.ltb_spec y x), (N.eqb_spec x y), (N.eqb_spec y x);
    simpl; auto; try lia.
Qed.

Lemma str_leb_trans a b c :
  str_leb a b = true -> str_leb b c = true -> str_leb a c = true.
Proof.
  revert b c. induction a as [| x a IH]; intros [| y b] [| z c]; simpl;
    try reflexivity; try discriminate.
  destruct (N.ltb_spec x y), (N.ltb_spec y z), (N.ltb_spec x z),
    (N.eqb_spec x y), (N.eqb_spec y z), (N.eqb_spec x z);
    simpl; try reflexivity; try discriminate; try lia.
  apply IH.
Qed.

Lemma byTitle_sorted l : StronglySorted titleOrder (orderBy byTitle l).
Proof.
  apply (orderBy_sorted byTitle).
  - intros a b. apply str_leb_total.
  - intros a b c. apply str_leb_trans.
Qed.

(** ORDER BY title LIMIT n: the first [n] rows in title order; the rows
    behind the limit come later in that order. *)
Lemma orderBy_limit n l :
  exists rest,
    StronglySorted titleOrder (limit n (orderBy byTitle l) ++ rest) /\
    Permutation (limit n (orderBy byTitle l) ++ rest) l /\
    ((length (limit n (orderBy byTitle l)) < n)%nat -> rest = []) /\
    (length (limit n (orderBy byTitle l)) <= n)%nat.
Proof.
  exists (skipn n (orderBy byTitle l)). unfold limit. rewrite firstn_skipn.
  split; [apply byTitle_sorted |]. split; [apply orderBy_perm |].
  split; [| apply firstn_le_length].
  rewrite length_firstn. intros H. apply skipn_all2. lia.
Qed.

(** ** LIKE *)

Lemma like_percent p t :
  like (37 :: p) t =
    like p t || match t with [] => false | _ :: t' => like (37 :: p) t' end.
Proof. destruct t; reflexivity. Qed.

Lemma like_cons c p t :
  (c =? 37) = false ->
  like (c :: p) t =
    match t with
    | [] => false
    | x :: t' => ((c =? 95) || (lowerChar c =? lowerChar x)) && like p t'
    end.
Proof. intros H. simpl. rewrite H. reflexivity. Qed.

Lemma like_any t : like [37] t = true.
Proof.
  induction t as [| x t IH]; [reflexivity |].
  rewrite like_percent, IH. apply orb_true_r.
Qed.



Lemma startsWith_spec p s : startsWith p s = true <-> exists post, s = p ++ post.
Proof.
  revert s. induction p as [| x p IH]; intros s; simpl.
  - split; [eauto | reflexivity].
  - destruct s as [| y s].
    + split; [discriminate | intros [post H]; discriminate].
    + rewrite andb_true_iff, N.eqb_eq, IH. split.
      * intros [-> [post ->]]. eauto.
      * intros [post H]. inversion H. eauto.
Qed.

(** [includes] is the substring relation. *)
Lemma includes_spec q s : includes q s = true <-> exists pre post, s = pre ++ q ++ post.
Proof.
  induction s as [| y s IH]; cbn [includes]; rewrite orb_true_iff, startsWith_spec.
  - split.
    + intros [[post H] | H]; [exists [], post; exact H | discriminate].
    + intros (pre & post & H). left.
      destruct pre; [exists post; exact H | discriminate].
  - rewrite IH. split.
    + intros [[post H] | (pre & post & H)].
      * exists [], post. exact H.
      * exists (y :: pre), post. rewrite H. reflexivity.
    + intros (pre & post & H). destruct pre as [| z pre].
      * left. exists post. exact H.
      * right. inversion H. eauto.
Qed.

Lemma Movies_count (l ms : list Movie) (n : nat) :
  Movies l (length l) = Movies ms n -> n = length ms.
Proof. intros H. injection H as H1 H2. subst. reflexivity. Qed.

(** ** The text as the store compares it *)

Lemma codePoints_cons2 a b l :
  codePoints (a :: b :: l) =
    if isHigh a && isLow b
    then (65536 + (a - 55296) * 1024 + (b - 56320)) :: codePoints l
    else a :: codePoints (b :: l).
Proof. reflexivity. Qed.

Lemma codePoints_cons a (l : jsstring) :
  isHigh a = false -> codePoints (a :: l) = a :: codePoints l.
Proof.
  intros H. destruct l as [| b l]; [reflexivity |].
  rewrite codePoints_cons2, H. reflexivity.
Qed.

Lemma codePoints_snoc (l : jsstring) a :
  isLow a = false -> codePoints (l ++ [a]) = codePoints l ++ [a].
Proof.
  intros Ha. induction l as [| x | x y l IH1 IH2] using list_ind2.
  - reflexivity.
  - cbn [app]. rewrite codePoints_cons2, Ha, andb_false_r. reflexivity.
  - cbn [app] in *. rewrite !codePoints_cons2.
    destruct (isHigh x && isLow y); cbn [app]; f_equal; assumption.
Qed.

Lemma utf8Length_pattern (t : jsstring) :
  utf8Length (js "%" ++ t ++ js "%") = (utf8Length t + 2)%nat.
Proof.
  unfold utf8Length. change (js "%" ++ t ++ js "%") with (37 :: (t ++ [37])).
  rewrite codePoints_cons, codePoints_snoc by reflexivity.
  assert (Hc : forall x l, list_sum (x :: l) = (x + list_sum l)%nat) by reflexivity.
  rewrite map_cons, Hc, map_app, list_sum_app.
  change (list_sum (map utf8Width [37])) with 1%nat.
  change (utf8Width 37) with 1%nat. lia.
Qed.

(** The search statement, with the limit of the pattern counted on the
    query. *)
Lemma selectMoviesLike_spec s (t : jsstring) :
  selectMoviesLike s (js "%" ++ t ++ js "%") =
    if (48 <? utf8Length t)%nat && hasRows (movies s) then None
    else Some (limit 20 (orderBy byTitle
                 (filter (fun m => like (sqlChars (js "%" ++ t ++ js "%"))
                                        (sqlChars (title m)))
                         (movies s)))).
Proof.
  unfold selectMoviesLike. destruct (movies s) as [| m ms] eqn:E.
  - rewrite andb_false_r. reflexivity.
  - rewrite utf8Length_pattern, andb_true_r. unfold LIKE_PATTERN_LIMIT.
    destruct (Nat.ltb_spec 50 (utf8Length t + 2)), (Nat.ltb_spec 48 (utf8Length t));
      try lia; reflexivity.
Qed.

Lemma sqlChar_zero c : (sqlChar c =? 0) = (c =? 0).
Proof.
  unfold sqlChar, isHigh, isLow, between.
  destruct (N.eqb_spec c 0) as [-> | Hc]; [reflexivity |].
  destruct ((55296 <=? c) && (c <=? 56319) || (56320 <=? c) && (c <=? 57343)
            || (c =? 65534) || (c =? 65535)); [reflexivity |].
  apply N.eqb_neq. assumption.
Qed.

Lemma codePoints_noNul (t : jsstring) : noNul t = true -> noNul (codePoints t) = true.
Proof.
  unfold noNul. induction t as [| a | a b l IH1 IH2] using list_ind2.
  - reflexivity.
  - auto.
  - rewrite codePoints_cons2. intros H.
    change (forallb (fun c => negb (c =? 0)) (a :: b :: l))
      with (negb (a =? 0) && forallb (fun c => negb (c =? 0)) (b :: l)) in H.
    apply andb_true_iff in H. destruct H as [Ha Hl].
    destruct (isHigh a && isLow b).
    + cbn [forallb] in *. apply andb_true_iff in Hl. destruct Hl as [_ Hl].
      rewrite (IH1 Hl), andb_true_r.
      apply negb_true_iff, N.eqb_neq. lia.
    + cbn [forallb]. rewrite Ha. apply (IH2 Hl).
Qed.

Lemma cstr_app l l' : noNul l = true -> cstr (l ++ l') = l ++ cstr l'.
Proof.
  unfold noNul. induction l as [| c l IH]; intros H; [reflexivity |].
  cbn [forallb] in H. apply andb_true_iff in H. destruct H as [Hc Hl].
  apply negb_true_iff in Hc. cbn [app cstr]. rewrite Hc, (IH Hl). reflexivity.
Qed.

Lemma map_sqlChar_noNul l : noNul l = true -> noNul (map sqlChar l) = true.
Proof.
  unfold noNul. induction l as [| c l IH]; intros H; [reflexivity |].
  cbn [forallb map] in *. apply andb_true_iff in H. destruct H as [Hc Hl].
  rewrite sqlChar_zero, Hc, (IH Hl). reflexivity.
Qed.

(** The pattern [%query%] as LIKE reads it, for a query without NUL. *)
Lemma sqlChars_pattern (t : jsstring) :
  noNul t = true ->
  sqlChars (js "%" ++ t ++ js "%") = 37 :: sqlChars t ++ [37].
Proof.
  intros H. unfold sqlChars. change (js "%" ++ t ++ js "%") with (37 :: (t ++ [37])).
  rewrite codePoints_cons, codePoints_snoc by reflexivity.
  cbn [map]. rewrite map_app. cbn [map]. change (sqlChar 37) with 37. cbn [cstr].
  change (37 =? 0) with false. cbv iota.
  pose proof (@map_sqlChar_noNul _ (@codePoints_noNul _ H)) as Hn.
  rewrite (@cstr_app _ [37] Hn).
  rewrite <- (app_nil_r (map sqlChar (codePoints t))) at 2.
  rewrite (@cstr_app _ [] Hn). cbn [cstr]. change (37 =? 0) with false. cbv iota.
  rewrite app_nil_r. reflexivity.
Qed.

Lemma plain_cons c s :
  plain (c :: s) = true ->
  (c =? 0) = false /\ isHigh c = false /\ isLow c = false /\ c < 65534 /\
  plain s = true.
Proof.
  unfold plain. cbn [forallb]. rewrite !andb_true_iff, !negb_true_iff, N.ltb_lt. tauto.
Qed.

(** A plain string is read as it is. *)
Lemma sqlChars_plain (s : jsstring) : plain s = true -> sqlChars s = s.
Proof.
  unfold sqlChars. induction s as [| c s IH]; intros H; [reflexivity |].
  apply plain_cons in H. destruct H as (H0 & Hh & Hl & Hlt & Hs).
  rewrite (@codePoints_cons c s Hh). cbn [map cstr].
  assert (Hc : sqlChar c = c).
  { unfold sqlChar. rewrite Hh, Hl.
    destruct (N.eqb_spec c 65534), (N.eqb_spec c 65535); try lia. reflexivity. }
  rewrite Hc, H0, (IH Hs). reflexivity.
Qed.

Lemma plain_noNul (s : jsstring) : plain s = true -> noNul s = true.
Proof.
  induction s as [| c s IH]; intros H; [reflexivity |].
  apply plain_cons in H. destruct H as (H0 & _ & _ & _ & Hs).
  unfold noNul in *. cbn [forallb]. rewrite H0, (IH Hs). reflexivity.
Qed.

End SearchFacts.



(** The limit of the pattern: a query of 48 letters is answered with a
    list, one of 49 letters with the 500 of the store's refusal. *)
Lemma search_long_query_refused :
  fst (fetch Scenario.sst2 (GetMovies (Some (repeat 97%N 48))) Scenario.start) =
    jsonResponse (Movies [] 0) 200 /\
  fst (fetch Scenario.sst2 (GetMovies (Some (repeat 97%N 49))) Scenario.start) =
    jsonResponse (InternalError D1Error) 500.
Proof. vm_compute. auto. Qed.

(** Characters beyond the Basic Multilingual Plane: the title U+E000 is
    listed before the title U+1F600, whose first code unit is the smaller
    one; and the query [_] matches each of the two titles, the emoji as the
    one character it is, so that [__] matches neither. *)
Lemma search_reads_code_points :
  fst (fetch Scenario.sst2 (GetMovies None) Scenario.astral) =
    jsonResponse (Movies [Scenario.privateUse; Scenario.emoji] 2) 200 /\
  str_leb (title Scenario.emoji) (title Scenario.privateUse) = true /\
  fst (fetch Scenario.sst2 (GetMovies (Some (js "_"))) Scenario.astral) =
    jsonResponse (Movies [Scenario.privateUse; Scenario.emoji] 2) 200 /\
  fst (fetch Scenario.sst2 (GetMovies (Some (js "__"))) Scenario.astral) =
    jsonResponse (Movies [] 0) 200.
Proof. vm_compute. auto. Qed.

(** [C10] In every response of GET /api/movies that carries a list, the
    count is the number of entries of the movies array of that response;
    these are the responses with status 200, the answer whenever there is
    no query or the query takes at most 48 bytes (the only other answer is
    the 500 of a store that refuses the pattern). *)
Theorem getMovies_count (ai : Classifier) (w : World) (q : option jsstring) :
  (forall ms n,
      body (fst (fetch ai (GetMovies q) w)) = Movies ms n -> n = length ms) /\
  (status (fst (fetch ai (GetMovies q) w)) = 200%N ->
   exists ms, body (fst (fetch ai (GetMovies q) w)) = Movies ms (length ms)) /\
  (status (fst (fetch ai (GetMovies q) w)) = 200%N \/
   status (fst (fetch ai (GetMovies q) w)) = 500%N) /\
  (match q with
   | Some t => (utf8Length t <= 48)%nat
   | None => True
   end ->
   status (fst (fetch ai (GetMovies q) w)) = 200%N).
Proof.
  assert (Hlist : forall l : list Movie,
            (forall ms n, Movies l (length l) = Movies ms n -> n = length ms) /\
            ((200 = 200)%N -> exists ms, Movies l (length l) = Movies ms (length ms)) /\
            ((200 = 200)%N \/ (200 = 500)%N)).
  { intros l. split; [apply Movies_count |].
    split; [intros _; exists l; reflexivity | left; reflexivity]. }
  rewrite fetch_getMovies.
  destruct q as [[| c t] |].
  - cbn [fst body status jsonResponse].
    destruct (Hlist (selectAllMovies (db w))) as (H1 & H2 & H3). auto.
  - rewrite selectMoviesLike_spec.
    set (found := limit 20 _).
    destruct (Nat.ltb_spec 48 (utf8Length (c :: t))) as [Hlong | Hshort];
      cbn [andb]; [destruct (hasRows (movies (db w))) |];
      cbn [fst body status jsonResponse].
    + split; [intros ms n H; discriminate |].
      split; [discriminate |]. split; [auto |]. intros H. lia.
    + destruct (Hlist found) as (H1 & H2 & H3). auto.
    + destruct (Hlist found) as (H1 & H2 & H3). auto.
  - cbn [fst body status jsonResponse].
    destruct (Hlist (selectAllMovies (db w))) as (H1 & H2 & H3). auto.
Qed.

(* ===================================================================== *)
(** * More about cleanText *)
(* ===================================================================== *)

Section MoreCleanTextFacts.

Local Open Scope N_scope.

Lemma hasTag_no_lt s : ~ In LT s -> hasTag s = false.
Proof.
  induction s as [| c r IH]; intros H; [reflexivity |].
  simpl. unfold matchTag. destruct (N.eqb_spec c LT) as [-> | _].
  - exfalso. apply H. left. reflexivity.
  - apply IH. intros Hin. apply H. right. assumption.
Qed.

Lemma hasTag_no_gt s : ~ In GT s -> hasTag s = false.
Proof.
  induction s as [| c r IH]; intros H; [reflexivity |].
  simpl. unfold matchTag.
  assert (Hr : ~ In GT r) by (intros Hin; apply H; right; assumption).
  apply indexOfGt_None in Hr. rewrite Hr.
  destruct (c =? LT); apply IH; intros Hin; apply H; right; assumption.
Qed.

Lemma removeSpecial_id s :
  Forall (fun c => isAllowed c = true) s -> removeSpecial s = s.
Proof.
  unfold removeSpecial. induction 1 as [| c r Hc _ IH]; simpl; [reflexivity |].
  rewrite Hc, IH. reflexivity.
Qed.

Lemma removeSpecial_none s :
  Forall (fun c => isAllowed c = false) s -> removeSpecial s = [].
Proof.
  unfold removeSpecial. induction 1 as [| c r Hc _ IH]; simpl; [reflexivity |].
  rewrite Hc, IH. reflexivity.
Qed.

Lemma removeTags_prefix pre s :
  ~ In LT pre -> removeTags (pre ++ s) = pre ++ removeTags s.
Proof.
  induction pre as [| c pre IH]; intros H; [reflexivity |].
  cbn [app]. rewrite removeTags_keep.
  - rewrite IH; [reflexivity |]. intros Hin. apply H. right. assumption.
  - unfold matchTag. destruct (N.eqb_spec c LT) as [-> | _]; [| reflexivity].
    exfalso. apply H. left. reflexivity.
Qed.

Lemma trimStart_id s : startsWithSpace s = false -> trimStart s = s.
Proof. destruct s as [| c r]; simpl; [reflexivity |]. intros ->. reflexivity. Qed.

Lemma not_allowed_not_space c : isAllowed c = false -> isSpace c = false.
Proof.
  unfold isAllowed. intros H.
  repeat (apply orb_false_iff in H; destruct H as [H ?]).
  assumption.
Qed.

End MoreCleanTextFacts.

(** [X1] The first tag of a text goes with all that stands between its
    brackets: what precedes it is kept and the scan goes on behind its
    [>]. *)
Theorem removeTags_drops_tag (pre body post : jsstring) :
  ~ In LT pre -> body <> [] -> ~ In GT body ->
  removeTags (pre ++ LT :: body ++ GT :: post) = pre ++ removeTags post.
Proof.
  intros Hpre Hne Hbody. rewrite removeTags_prefix by assumption.
  rewrite removeTags_tag by assumption. reflexivity.
Qed.

(** [X1] at [Good <b>movie</b>]. *)
Lemma removeTags_drops_tag_witness :
  ~ In LT (js "Good ") /\ js "b" <> [] /\ ~ In GT (js "b") /\
  removeTags (js "Good " ++ LT :: js "b" ++ GT :: js "movie</b>") =
    js "Good " ++ removeTags (js "movie</b>").
Proof.
  assert (H1 : ~ In LT (js "Good ")).
  { intros H. vm_compute in H. repeat destruct H as [H | H]; try discriminate H. exact H. }
  assert (H2 : js "b" <> []) by discriminate.
  assert (H3 : ~ In GT (js "b")).
  { intros H. vm_compute in H. repeat destruct H as [H | H]; try discriminate H. exact H. }
  split; [exact H1 |]. split; [exact H2 |]. split; [exact H3 |].
  apply (@removeTags_drops_tag (js "Good ") (js "b") (js "movie</b>") H1 H2 H3).
Defined.

(** [X2] One pass removes every tag and makes no new one: removing the
    tags again changes nothing. *)
Theorem removeTags_idempotent (s : jsstring) :
  removeTags (removeTags s) = removeTags s.
Proof. apply removeTags_id, removeTags_no_tag. Qed.

(** [X3] A text without [>] has no tag to remove: an opening bracket that
    is never closed loses only the bracket, and what follows it is
    kept. *)
Theorem cleanText_unclosed_bracket (s : jsstring) :
  ~ In GT s -> cleanText s = substring0 1000 (trim (removeSpecial s)).
Proof.
  intros H. unfold cleanText. rewrite removeTags_id by (apply hasTag_no_gt, H).
  reflexivity.
Qed.

(** [X3] at [a < b]. *)
Lemma cleanText_unclosed_bracket_witness :
  ~ In GT (js "a < b") /\
  cleanText (js "a < b") = substring0 1000 (trim (removeSpecial (js "a < b"))).
Proof.
  assert (H : ~ In GT (js "a < b")).
  { intros H. vm_compute in H. repeat destruct H as [H | H]; try discriminate H. exact H. }
  split; [exact H | apply (@cleanText_unclosed_bracket (js "a < b") H)].
Defined.

(** [X4] Sanitizing twice is sanitizing once and trimming the end: the cut
    at 1000 comes after the trim, so a sanitized text can end in
    whitespace, and only then does a second pass change it. *)
Theorem cleanText_twice (s : jsstring) :
  cleanText (cleanText s) = trimEnd (cleanText s) /\
  (endsWithSpace (cleanText s) = false -> cleanText (cleanText s) = cleanText s) /\
  ((length (trim (removeSpecial (removeTags s))) <= 1000)%nat ->
   cleanText (cleanText s) = cleanText s) /\
  cleanText (cleanText (repeat 97%N 999 ++ js " b")) <>
    cleanText (repeat 97%N 999 ++ js " b").
Proof.
  assert (Htwice : cleanText (cleanText s) = trimEnd (cleanText s)).
  { set (c := cleanText s).
    assert (Hall : Forall (fun x => isAllowed x = true) c) by apply cleanText_allowed.
    assert (Hlt : ~ In LT c) by apply cleanText_no_brackets.
    assert (Hsp : startsWithSpace c = false).
    { unfold c, cleanText, substring0.
      apply startsWithSpace_firstn, trim_no_leading_space. }
    assert (Hlen : (length c <= 1000)%nat) by apply cleanText_length.
    unfold cleanText at 1.
    rewrite (removeTags_id c) by (apply hasTag_no_lt, Hlt).
    rewrite removeSpecial_id by assumption.
    unfold trim. rewrite trimStart_id by assumption.
    unfold substring0, MAX_LEN. apply firstn_all2.
    destruct (trimEnd_firstn c) as [n ->]. rewrite length_firstn. lia. }
  split; [exact Htwice |].
  assert (Hend : endsWithSpace (cleanText s) = false ->
                 cleanText (cleanText s) = cleanText s).
  { intros He. rewrite Htwice. unfold trimEnd.
    rewrite trimStart_id by exact He. apply rev_involutive. }
  split; [exact Hend |]. split.
  - intros Hlen. apply Hend. unfold cleanText, substring0, MAX_LEN.
    rewrite firstn_all2 by assumption. apply trim_no_trailing_space.
  - intros H. apply (f_equal (@length _)) in H. vm_compute in H. discriminate H.
Qed.

(* ===================================================================== *)
(** * What a request does to the world *)
(* ===================================================================== *)

(** [X5] A text that is not empty and has no allowed code unit in it (an
    emoji, say) passes the check of POST /api/predict, which looks at the
    raw text: the classifier is called with the empty string. *)
Theorem predict_sends_empty_text
    (ai : Classifier) (b : PredictRequest) (w : World) (t : jsstring) :
  text b = Some t -> t <> [] -> Forall (fun c => isAllowed c = false) t ->
  aiCalls (snd (fetch ai (PostPredict b) w)) = aiCalls w ++ [[]] /\
  status (fst (fetch ai (PostPredict b) w)) <> 400%N.
Proof.
  intros Ht Hne Hall.
  assert (Hb : blank (text b) = false).
  { rewrite Ht. destruct t as [| c r]; [congruence |]. simpl.
    inversion Hall; subst. rewrite (not_allowed_not_space _ H1). reflexivity. }
  assert (Hc : cleanText t = []).
  { unfold cleanText. rewrite removeSpecial_none; [reflexivity |].
    eapply Subseq_Forall; [apply removeTags_Subseq | exact Hall]. }
  rewrite (predict_classifies ai b w Ht Hb), Hc. cbn [fst snd aiCalls].
  split; [reflexivity |].
  destruct (ai []) as [| [| [[l |] [s |]] items]]; discriminate.
Qed.

(** [X5] at a text of one emoji (a surrogate pair). *)
Lemma predict_sends_empty_text_witness :
  text {| text := Some [55357; 56832]%N |} = Some [55357; 56832]%N /\
  [55357; 56832]%N <> [] /\
  Forall (fun c => isAllowed c = false) [55357; 56832]%N /\
  aiCalls (snd (fetch Scenario.sst2 (PostPredict {| text := Some [55357; 56832]%N |})
                  Scenario.start)) = aiCalls Scenario.start ++ [[]] /\
  status (fst (fetch Scenario.sst2 (PostPredict {| text := Some [55357; 56832]%N |})
                 Scenario.start)) <> 400%N.
Proof.
  assert (H1 : text {| text := Some [55357; 56832]%N |} = Some [55357; 56832]%N)
    by reflexivity.
  assert (H2 : [55357; 56832]%N <> []) by discriminate.
  assert (H3 : Forall (fun c => isAllowed c = false) [55357; 56832]%N)
    by (repeat constructor).
  split; [exact H1 |]. split; [exact H2 |]. split; [exact H3 |].
  apply (@predict_sends_empty_text Scenario.sst2 _ Scenario.start _ H1 H2 H3).
Defined.

Section EffectFacts.

Variable ai : Classifier.

Lemma selectMovie_None s movieId :
  selectMovie s movieId = None <-> forall m, In m (movies s) -> id m <> movieId.
Proof.
  unfold selectMovie. split.
  - intros H m Hin Heq.
    apply (find_none _ _ H) in Hin. rewrite Heq, str_eqb_refl in Hin. discriminate.
  - intros H. destruct (find _ _) as [m |] eqn:E; [| reflexivity].
    apply find_some in E. destruct E as [Hin Heq]. apply str_eqb_eq in Heq.
    exfalso. exact (H m Hin Heq).
Qed.

Lemma selectMovie_Some s movieId m :
  selectMovie s movieId = Some m -> In m (movies s) /\ id m = movieId.
Proof.
  unfold selectMovie. intros H. apply find_some in H.
  rewrite str_eqb_eq in H. exact H.
Qed.


(** The answers of POST /api/predict are 400, 200 and 500. *)
Lemma predict_status b w :
  status (fst (fetch ai (PostPredict b) w)) <> 201%N /\
  db (snd (fetch ai (PostPredict b) w)) = db w /\
  clock (snd (fetch ai (PostPredict b) w)) = clock w.
Proof.
  destruct (blank (text b)) eqn:Hb.
  - rewrite predict_blank by assumption. repeat split. discriminate.
  - destruct (text b) as [t |] eqn:Ht; [| discriminate].
    rewrite (predict_classifies ai b w Ht) by (rewrite Ht; assumption).
    cbn [fst snd db clock]. repeat split.
    destruct (ai (cleanText t)) as [| [| [[l |] [s |]] items]]; discriminate.
Qed.

End EffectFacts.

(** [X6] The reviews change with a 201 and with nothing else: a request
    answered 201 has appended exactly one review, a request answered
    anything else has left the database as it was; no request changes the
    catalog. *)
Theorem store_changes_only_on_201 (ai : Classifier) (r : Request) (w : World) :
  (status (fst (fetch ai r w)) = 201%N <->
   exists row, reviews (db (snd (fetch ai r w))) = reviews (db w) ++ [row]) /\
  (status (fst (fetch ai r w)) <> 201%N -> db (snd (fetch ai r w)) = db w) /\
  movies (db (snd (fetch ai r w))) = movies (db w).
Proof.
  assert (Hgrow : forall l (row : Review), l = l ++ [row] -> False).
  { intros l row H. apply (f_equal (@length _)) in H. rewrite length_app in H.
    simpl in H. lia. }
  assert (Hsame : forall resp, status resp <> 201%N ->
            (status (fst (resp, w)) = 201%N <->
             exists row, reviews (db (snd (resp, w))) = reviews (db w) ++ [row]) /\
            (status (fst (resp, w)) <> 201%N -> db (snd (resp, w)) = db w) /\
            movies (db (snd (resp, w))) = movies (db w)).
  { intros resp Hne. cbn [fst snd]. split; [| split; reflexivity].
    split; [congruence |]. intros [row H]. exfalso. exact (Hgrow _ _ H). }
  destruct r as [| b | b | movieId | q | |];
    try (apply Hsame; discriminate).
  - destruct (predict_status ai b w) as (Hs & Hd & _).
    rewrite Hd. split; [| split; reflexivity].
    split; [congruence |]. intros [row H]. exfalso. exact (Hgrow _ _ H).
  - rewrite fetch_saveReview.
    destruct (missing (req_movieId b) || missing (req_text b)
              || missing (req_sentiment b)); [apply Hsame; discriminate |].
    destruct (req_movieId b) as [movieId |]; [| apply Hsame; discriminate].
    destruct (req_text b) as [t |]; [| apply Hsame; discriminate].
    destruct (req_sentiment b) as [s |]; [| apply Hsame; discriminate].
    destruct (selectMovie (db w) movieId); [| apply Hsame; discriminate].
    destruct (req_confidence b) as [c |]; [| apply Hsame; discriminate].
    destruct (isFinite c); [| apply Hsame; discriminate].
    cbn. split; [| split; [congruence | reflexivity]].
    split; [eauto | reflexivity].
  - rewrite fetch_getSentiment.
    destruct (selectMovie (db w) movieId); apply Hsame; discriminate.
  - rewrite fetch_getMovies.
    destruct q as [[| c t] |]; try (apply Hsame; discriminate).
    destruct (selectMoviesLike (db w) _); apply Hsame; discriminate.
Qed.

(** [X7] Only POST /api/predict reaches the classifier, and at most once:
    every other request, and a predict request that is answered 400, sends
    it nothing. *)
Theorem classifier_called_only_by_predict (ai : Classifier) (r : Request) (w : World) :
  match r with
  | PostPredict b =>
      match text b with
      | Some t =>
          if blank (text b)
          then aiCalls (snd (fetch ai r w)) = aiCalls w
          else aiCalls (snd (fetch ai r w)) = aiCalls w ++ [cleanText t]
      | None => aiCalls (snd (fetch ai r w)) = aiCalls w
      end
  | _ => aiCalls (snd (fetch ai r w)) = aiCalls w
  end.
Proof.
  destruct r as [| b | b | movieId | q | |]; try reflexivity;
    try (rewrite fetch_getSentiment; reflexivity).
  - destruct (text b) as [t |] eqn:Ht.
    + destruct (blank (Some t)) eqn:Hb.
      * rewrite predict_blank by (rewrite Ht; assumption). reflexivity.
      * rewrite (predict_classifies ai b w Ht) by (rewrite Ht; assumption).
        reflexivity.
    + rewrite predict_blank by (rewrite Ht; reflexivity). reflexivity.
  - rewrite fetch_saveReview.
    destruct (missing (req_movieId b) || missing (req_text b)
              || missing (req_sentiment b)); [reflexivity |].
    destruct (req_movieId b) as [movieId |]; [| reflexivity].
    destruct (req_text b) as [t |]; [| reflexivity].
    destruct (req_sentiment b) as [s |]; [| reflexivity].
    destruct (selectMovie (db w) movieId); [| reflexivity].
    destruct (req_confidence b) as [c |]; [| reflexivity].
    destruct (isFinite c); reflexivity.
  - rewrite fetch_getMovies.
    destruct q as [[| c t] |]; try reflexivity.
    destruct (selectMoviesLike (db w) _); reflexivity.
Qed.

(** [X8] The reviews are an append-only log: whatever requests arrive, the
    reviews that were there stay, in their order and unchanged, followed by
    at most one new review for each request; the catalog stays as it
    is. *)
Theorem reviews_append_only (ai : Classifier) (reqs : list Arrival) (w : World) :
  exists added,
    reviews (db (run ai reqs w)) = reviews (db w) ++ added /\
    (length added <= length reqs)%nat /\
    movies (db (run ai reqs w)) = movies (db w).
Proof.
  revert w. induction reqs as [| [t r] rest IH]; intros w.
  - exists []. rewrite app_nil_r. simpl. auto.
  - simpl run. destruct (IH (snd (fetch ai r (at_time t w)))) as (added & Hr & Hl & Hm).
    destruct (fetch_tables ai r (at_time t w)) as [Hmov [Heq | Hex]].
    + exists added. rewrite Hr, Hm, Heq, Hmov. simpl. auto.
    + destruct Hex as (b & txt & row & _ & _ & _ & _ & _ & _ & _ & _ & _ & Heq).
      exists (row :: added). rewrite Hr, Hm, Heq, Hmov, <- app_assoc. simpl.
      split; [reflexivity |]. split; [lia | reflexivity].
Qed.

(* ===================================================================== *)
(** * Movies that are not there *)
(* ===================================================================== *)

(** [X9] With the three strings present, POST /api/reviews answers 404
    exactly when no movie of the catalog has the given id, and then the
    world is as before. *)
Theorem saveReview_unknown_movie
    (ai : Classifier) (b : ReviewRequest) (w : World) (movieId : jsstring) :
  req_movieId b = Some movieId -> movieId <> [] ->
  missing (req_text b) = false -> missing (req_sentiment b) = false ->
  (status (fst (fetch ai (PostReviews b) w)) = 404%N <->
   forall m, In m (movies (db w)) -> id m <> movieId) /\
  (status (fst (fetch ai (PostReviews b) w)) = 404%N ->
   snd (fetch ai (PostReviews b) w) = w).
Proof.
  intros Hm Hne Ht Hs. rewrite fetch_saveReview, Hm, Ht, Hs.
  assert (Hmiss : missing (Some movieId) = false)
    by (destruct movieId; [congruence | reflexivity]).
  rewrite Hmiss. cbn [orb].
  apply missing_false in Ht, Hs.
  destruct Ht as (t & -> & _). destruct Hs as (s & -> & _).
  rewrite <- selectMovie_None.
  destruct (selectMovie (db w) movieId) as [m |].
  - destruct (req_confidence b) as [c |]; [destruct (isFinite c) |];
      cbn [fst snd status jsonResponse];
      (split; [split; discriminate | discriminate]).
  - cbn [fst snd status jsonResponse]. split; [tauto | reflexivity].
Qed.

(** [X9] at a review of a movie that is not in the catalog. *)
Lemma saveReview_unknown_movie_witness :
  req_movieId (Scenario.reviewOf "tt9999999" "text" "positive" (Scenario.dec 9 (-1)))
    = Some (js "tt9999999") /\
  js "tt9999999" <> [] /\
  status (fst (fetch Scenario.sst2
                 (PostReviews (Scenario.reviewOf "tt9999999" "text" "positive"
                                 (Scenario.dec 9 (-1))))
                 Scenario.start)) = 404%N.
Proof.
  split; [reflexivity |]. split; [discriminate |].
  destruct (@saveReview_unknown_movie Scenario.sst2
              (Scenario.reviewOf "tt9999999" "text" "positive" (Scenario.dec 9 (-1)))
              Scenario.start (js "tt9999999") eq_refl ltac:(discriminate)
              eq_refl eq_refl) as [[_ H] _].
  apply H. intros m Hin Heq. vm_compute in Hin.
  destruct Hin as [<- | [<- | [<- | []]]]; vm_compute in Heq; discriminate Heq.
Defined.

(** [X10] GET /api/movies/:movieId/sentiment answers 404 exactly when no
    movie of the catalog has the id; otherwise it answers 200 with a movie
    of the catalog of that id; in both cases nothing changes. *)
Theorem getSentiment_unknown_movie (ai : Classifier) (w : World) (movieId : jsstring) :
  (status (fst (fetch ai (GetSentiment movieId) w)) = 404%N <->
   forall m, In m (movies (db w)) -> id m <> movieId) /\
  (status (fst (fetch ai (GetSentiment movieId) w)) = 404%N \/
   exists m stats recent trend,
     fst (fetch ai (GetSentiment movieId) w) =
       jsonResponse (Sentiment m stats recent trend) 200 /\
     In m (movies (db w)) /\ id m = movieId) /\
  snd (fetch ai (GetSentiment movieId) w) = w.
Proof.
  rewrite fetch_getSentiment, <- selectMovie_None. cbn [fst snd].
  destruct (selectMovie (db w) movieId) as [m |] eqn:E.
  - split; [split; discriminate |]. split; [| reflexivity]. right.
    destruct (selectMovie_Some _ _ E) as [Hin Hid]. eauto 10.
  - split; [cbn; tauto |]. split; [left |]; reflexivity.
Qed.

(* ===================================================================== *)
(** * The recent reviews *)
(* ===================================================================== *)

Section RecentFacts.

Local Open Scope N_scope.

Variable ai : Classifier.

Lemma StronglySorted_impl {A} (R Q : A -> A -> Prop) l :
  (forall a b, R a b -> Q a b) -> StronglySorted R l -> StronglySorted Q l.
Proof.
  intros H. induction 1 as [| x l _ IH Hx]; constructor; [exact IH |].
  eapply Forall_impl; [| exact Hx]. intros b. apply H.
Qed.

(** ORDER BY f LIMIT n, for any total order. *)
Lemma orderBy_limit_by {A} (leb : A -> A -> bool) n l :
  (forall a b, leb a b = true \/ leb b a = true) ->
  (forall a b c, leb a b = true -> leb b c = true -> leb a c = true) ->
  exists rest,
    StronglySorted (fun a b => leb a b = true) (limit n (orderBy leb l) ++ rest) /\
    Permutation (limit n (orderBy leb l) ++ rest) l /\
    ((length (limit n (orderBy leb l)) < n)%nat -> rest = []) /\
    (length (limit n (orderBy leb l)) <= n)%nat.
Proof.
  intros Htot Htr. exists (skipn n (orderBy leb l)). unfold limit.
  rewrite firstn_skipn.
  split; [apply orderBy_sorted; assumption |]. split; [apply orderBy_perm |].
  split; [| apply firstn_le_length].
  rewrite length_firstn. intros H. apply skipn_all2. lia.
Qed.

(** A row that sorts before every other one comes out first. *)
Lemma orderBy_snoc_first {A} (leb : A -> A -> bool) x l :
  (forall y, In y l -> leb y x = false) ->
  orderBy leb (l ++ [x]) = x :: orderBy leb l.
Proof.
  induction l as [| y l IH]; intros H; [reflexivity |].
  cbn [app orderBy fold_right]. fold (orderBy leb (l ++ [x])).
  fold (orderBy leb l).
  rewrite IH by (intros z Hz; apply H; right; assumption).
  cbn [insertBy]. rewrite (H y (or_introl eq_refl)). reflexivity.
Qed.


Lemma filter_snoc {A} (p : A -> bool) l x :
  filter p (l ++ [x]) = if p x then filter p l ++ [x] else filter p l.
Proof.
  rewrite filter_app. simpl. destruct (p x); [reflexivity | apply app_nil_r].
Qed.

Lemma filter_filter {A} (p q : A -> bool) l :
  filter p (filter q l) = filter (fun x => q x && p x) l.
Proof.
  induction l as [| x l IH]; [reflexivity |]. simpl.
  destruct (q x); simpl; [destruct (p x) |]; rewrite IH; reflexivity.
Qed.

End RecentFacts.

(** [X11] For a movie of the catalog, recentReviews holds the ten newest
    reviews of the movie, newest first: at most ten, all of them reviews of
    the movie, every review of the movie that is left out no newer than
    those listed, and none left out while fewer than ten are listed. *)
Theorem recent_reviews_newest_ten
    (ai : Classifier) (w : World) (movieId : jsstring) (m : Movie) :
  selectMovie (db w) movieId = Some m ->
  exists picked rest,
    recentOf (fst (fetch ai (GetSentiment movieId) w)) = map asRecent picked /\
    (length picked <= 10)%nat /\
    ((length picked < 10)%nat -> rest = []) /\
    Permutation (picked ++ rest) (filter (ofMovie movieId) (reviews (db w))) /\
    StronglySorted newerFirst (picked ++ rest).
Proof.
  intros Hm. rewrite fetch_getSentiment, Hm. cbn [fst recentOf body jsonResponse].
  destruct (orderBy_limit_by (fun a b => (created_at b <=? created_at a)%N) 10
              (movieRows (db w) movieId))
    as (rest & Hs & Hp & Hr & Hl).
  - intros a b. rewrite !N.leb_le. lia.
  - intros a b c. rewrite !N.leb_le. lia.
  - exists (selectRecent (db w) movieId), rest.
    split; [reflexivity |]. split; [exact Hl |]. split; [exact Hr |].
    split; [exact (perm_trans Hp (movieRows_perm (db w) movieId)) |].
    eapply StronglySorted_impl; [| exact Hs].
    intros a b H. apply N.leb_le in H. exact H.
Qed.

(** [X11] at the two reviews of the scenario. *)
Lemma recent_reviews_newest_ten_witness :
  selectMovie (db Scenario.twoReviews) (js "tt0111161") = Some Scenario.shawshank /\
  exists picked,
    recentOf (fst (fetch Scenario.sst2 (GetSentiment (js "tt0111161"))
                     Scenario.twoReviews)) = map asRecent picked /\
    (length picked <= 10)%nat.
Proof.
  split; [reflexivity |].
  destruct (@recent_reviews_newest_ten Scenario.sst2 Scenario.twoReviews
              (js "tt0111161") Scenario.shawshank eq_refl)
    as (picked & rest & H1 & H2 & _).
  exists picked. split; assumption.
Defined.



(* ===================================================================== *)
(** * Saving a review and reading the statistics *)
(* ===================================================================== *)

Section SaveThenStats.

Local Open Scope N_scope.

Variable ai : Classifier.

(** A request answered 201, spelled out. *)
Lemma saveReview_201 b w :
  status (fst (fetch ai (PostReviews b) w)) = 201%N ->
  exists movieId t s c m,
    req_movieId b = Some movieId /\ req_text b = Some t /\
    req_sentiment b = Some s /\ req_confidence b = Some c /\
    selectMovie (db w) movieId = Some m /\
    snd (fetch ai (PostReviews b) w) =
      {| db := {| movies := movies (db w);
                  reviews := reviews (db w) ++
                    [{| review_id := nextId (db w); movie_id := movieId;
                        review_text := substring0 1000 t; sentiment := s;
                        confidence := c; created_at := clock w |}] |};
         clock := clock w; aiCalls := aiCalls w |}.
Proof.
  rewrite fetch_saveReview.
  destruct (missing (req_movieId b) || missing (req_text b)
            || missing (req_sentiment b)); [discriminate |].
  destruct (req_movieId b) as [movieId |]; [| discriminate].
  destruct (req_text b) as [t |]; [| discriminate].
  destruct (req_sentiment b) as [s |]; [| discriminate].
  destruct (selectMovie (db w) movieId) as [m |] eqn:E; [| discriminate].
  destruct (req_confidence b) as [c |]; [| discriminate].
  destruct (isFinite c); [| discriminate].
  intros _. exists movieId, t, s, c, m. cbn. auto 10.
Qed.

Lemma str_eqb_neq a b : a <> b -> str_eqb a b = false.
Proof.
  intros H. destruct (str_eqb a b) eqn:E; [| reflexivity].
  apply str_eqb_eq in E. contradiction.
Qed.

End SaveThenStats.

(** [X13] A review saved for one movie leaves the sentiment response of
    every other movie as it was: statistics, recent reviews and trend. *)
Theorem review_leaves_other_movies
    (ai : Classifier) (b : ReviewRequest) (w : World) (other : jsstring) :
  status (fst (fetch ai (PostReviews b) w)) = 201%N ->
  req_movieId b <> Some other ->
  fst (fetch ai (GetSentiment other) (snd (fetch ai (PostReviews b) w))) =
  fst (fetch ai (GetSentiment other) w).
Proof.
  intros H201 Hother.
  destruct (saveReview_201 ai b w H201) as (movieId & t & s & c & m & Hm & _ & _ & _ & _ & ->).
  assert (Hne : str_eqb movieId other = false).
  { apply str_eqb_neq. intros ->. apply Hother. exact Hm. }
  rewrite !fetch_getSentiment. cbn [fst db clock].
  unfold selectMovie, selectStats, selectRecent, selectTrend, movieRows.
  cbn [movies reviews].
  rewrite !filter_snoc. unfold inTrendWindow, ofMovie. cbn [movie_id].
  rewrite Hne. cbn [andb]. reflexivity.
Qed.

(** [X13] at a review of one movie and the statistics of another. *)
Lemma review_leaves_other_movies_witness :
  status (fst (fetch Scenario.sst2
                 (PostReviews (Scenario.reviewOf "tt0111161" "Best movie ever!"
                                 "positive" (Scenario.dec 95 (-2))))
                 Scenario.start)) = 201%N /\
  fst (fetch Scenario.sst2 (GetSentiment (js "tt0468569"))
         (snd (fetch Scenario.sst2
                 (PostReviews (Scenario.reviewOf "tt0111161" "Best movie ever!"
                                 "positive" (Scenario.dec 95 (-2))))
                 Scenario.start))) =
  fst (fetch Scenario.sst2 (GetSentiment (js "tt0468569")) Scenario.start).
Proof.
  split; [reflexivity |].
  apply (@review_leaves_other_movies Scenario.sst2
           (Scenario.reviewOf "tt0111161" "Best movie ever!" "positive"
              (Scenario.dec 95 (-2)))
           Scenario.start (js "tt0468569")); [reflexivity | discriminate].
Defined.

(** [X14] A saved review is counted: the statistics of its movie report
    one review more, one positive more when its sentiment is [positive],
    one negative more when it is [negative], and neither for any other
    sentiment. *)
Theorem saved_review_is_counted
    (ai : Classifier) (b : ReviewRequest) (w : World) (movieId s : jsstring) :
  status (fst (fetch ai (PostReviews b) w)) = 201%N ->
  req_movieId b = Some movieId -> req_sentiment b = Some s ->
  exists before after,
    statsOf (fst (fetch ai (GetSentiment movieId) w)) = Some before /\
    statsOf (fst (fetch ai (GetSentiment movieId) (snd (fetch ai (PostReviews b) w))))
      = Some after /\
    (totalReviews after = totalReviews before + 1)%N /\
    (positiveCount after =
       positiveCount before + caseWhen (str_eqb s (js "positive")))%N /\
    (negativeCount after =
       negativeCount before + caseWhen (str_eqb s (js "negative")))%N.
Proof.
  intros H201 Hm Hs.
  destruct (saveReview_201 ai b w H201)
    as (movieId' & t & s' & c & m & Hm' & _ & Hs' & _ & Hsel & Hw).
  rewrite Hm in Hm'. inversion Hm'; subst movieId'.
  rewrite Hs in Hs'. inversion Hs'; subst s'.
  rewrite Hw. rewrite !fetch_getSentiment. cbn [fst db].
  unfold selectMovie in *. cbn [movies]. rewrite Hsel.
  eexists _, _. split; [reflexivity |]. split; [reflexivity |].
  set (s1 := {| movies := movies (db w); reviews := _ |}).
  destruct (stats_counts (db w) movieId) as (-> & -> & ->).
  destruct (stats_counts s1 movieId) as (-> & -> & ->).
  unfold s1. cbn [reviews].
  set (row := {| review_id := nextId (db w); movie_id := movieId;
                 review_text := substring0 1000 t; sentiment := s;
                 confidence := c; created_at := clock w |}).
  assert (Hrow : filter (ofMovie movieId) (reviews (db w) ++ [row]) =
                 filter (ofMovie movieId) (reviews (db w)) ++ [row]).
  { rewrite filter_snoc. unfold ofMovie at 1. cbn [row movie_id].
    rewrite str_eqb_refl. reflexivity. }
  rewrite Hrow, !filter_snoc, length_app.
  change (isPositive row) with (str_eqb s (js "positive")).
  change (isNegative row) with (str_eqb s (js "negative")).
  destruct (str_eqb s (js "positive")), (str_eqb s (js "negative"));
    rewrite ?length_app; cbn [length caseWhen]; lia.
Qed.

(** [X14] at a first positive review. *)
Lemma saved_review_is_counted_witness :
  status (fst (fetch Scenario.sst2
                 (PostReviews (Scenario.reviewOf "tt0111161" "Best movie ever!"
                                 "positive" (Scenario.dec 95 (-2))))
                 Scenario.start)) = 201%N /\
  exists before after,
    statsOf (fst (fetch Scenario.sst2 (GetSentiment (js "tt0111161")) Scenario.start))
      = Some before /\
    statsOf (fst (fetch Scenario.sst2 (GetSentiment (js "tt0111161"))
                    (snd (fetch Scenario.sst2
                            (PostReviews (Scenario.reviewOf "tt0111161"
                                            "Best movie ever!" "positive"
                                            (Scenario.dec 95 (-2))))
                            Scenario.start)))) = Some after /\
    (totalReviews after = totalReviews before + 1)%N.
Proof.
  split; [reflexivity |].
  destruct (@saved_review_is_counted Scenario.sst2
              (Scenario.reviewOf "tt0111161" "Best movie ever!" "positive"
                 (Scenario.dec 95 (-2)))
              Scenario.start (js "tt0111161") (js "positive")
              eq_refl eq_refl eq_refl)
    as (before & after & H1 & H2 & H3 & _).
  exists before, after. auto.
Defined.

(** [X15] In every sentiment response the positive and the negative count
    together are at most the total, and they add up to it exactly when
    every review of the movie has the sentiment [positive] or
    [negative]. *)
Theorem stats_counts_bounded
    (ai : Classifier) (w : World) (movieId : jsstring) (st : Stats) :
  statsOf (fst (fetch ai (GetSentiment movieId) w)) = Some st ->
  (positiveCount st + negativeCount st <= totalReviews st)%N /\
  ((positiveCount st + negativeCount st = totalReviews st)%N <->
   Forall (fun r => isSentiment (sentiment r) = true)
     (filter (ofMovie movieId) (reviews (db w)))).
Proof.
  rewrite fetch_getSentiment. cbn [fst].
  destruct (selectMovie (db w) movieId); [| discriminate].
  cbn [statsOf body jsonResponse]. intros H. inversion H; subst st.
  apply stats_counts_sum.
Qed.

(** [X15] at the two reviews of the scenario. *)
Lemma stats_counts_bounded_witness :
  statsOf (fst (fetch Scenario.sst2 (GetSentiment (js "tt0111161")) Scenario.twoReviews))
    = Some (assembleStats (selectStats (db Scenario.twoReviews) (js "tt0111161"))) /\
  (positiveCount (assembleStats (selectStats (db Scenario.twoReviews) (js "tt0111161")))
   + negativeCount (assembleStats (selectStats (db Scenario.twoReviews) (js "tt0111161")))
   <= totalReviews (assembleStats (selectStats (db Scenario.twoReviews) (js "tt0111161"))))%N.
Proof.
  split; [reflexivity |].
  apply (@stats_counts_bounded Scenario.sst2 Scenario.twoReviews (js "tt0111161")
           (assembleStats (selectStats (db Scenario.twoReviews) (js "tt0111161")))
           eq_refl).
Defined.

(* ===================================================================== *)
(** * The trend against the statistics *)
(* ===================================================================== *)

Section TrendTotals.

Local Open Scope N_scope.

Lemma sum_map_add {A} (f g : A -> N) ds :
  fold_right N.add 0 (map (fun d => f d + g d) ds) =
  fold_right N.add 0 (map f ds) + fold_right N.add 0 (map g ds).
Proof. induction ds as [| d ds IH]; simpl; [reflexivity | rewrite IH; lia]. Qed.

Lemma sum_map_zero {A} (ds : list A) :
  fold_right N.add 0 (map (fun _ => 0) ds) = 0.
Proof. induction ds as [| d ds IH]; simpl; [reflexivity | exact IH]. Qed.

(** A key is counted once among keys that are all different. *)
Lemma sum_indicator (k : N) ds :
  NoDup ds ->
  fold_right N.add 0 (map (fun d => caseWhen (k =? d)) ds) <= 1 /\
  (In k ds -> fold_right N.add 0 (map (fun d => caseWhen (k =? d)) ds) = 1).
Proof.
  induction 1 as [| d ds Hnin Hnd [IHle IHeq]]; simpl.
  - split; [lia | contradiction].
  - destruct (N.eqb_spec k d) as [-> | Hne]; cbn [caseWhen].
    + assert (Hz : fold_right N.add 0 (map (fun d0 => caseWhen (d =? d0)) ds) = 0).
      { clear IHle IHeq Hnd. induction ds as [| e ds IH]; [reflexivity |].
        simpl. destruct (N.eqb_spec d e) as [-> | _].
        - exfalso. apply Hnin. left. reflexivity.
        - cbn [caseWhen]. rewrite IH; [reflexivity |].
          intros Hin. apply Hnin. right. assumption. }
      rewrite Hz. split; [lia | reflexivity].
    + split; [lia |]. intros [Heq | Hin]; [congruence |].
      rewrite (IHeq Hin). reflexivity.
Qed.

(** Rows counted key by key are counted at most once, and all of them when
    the keys at hand cover theirs. *)
Lemma count_by_key {A} (key : A -> N) (p q : A -> bool) ds l :
  NoDup ds ->
  fold_right N.add 0
    (map (fun d => N.of_nat (length (filter (fun r => p r && (key r =? d) && q r) l))) ds)
    <= N.of_nat (length (filter (fun r => p r && q r) l)) /\
  ((forall r, In r l -> p r = true -> In (key r) ds) ->
   fold_right N.add 0
     (map (fun d => N.of_nat (length (filter (fun r => p r && (key r =? d) && q r) l))) ds)
     = N.of_nat (length (filter (fun r => p r && q r) l))).
Proof.
  intros Hnd. induction l as [| r l [IHle IHeq]].
  - simpl. rewrite sum_map_zero. split; [lia | reflexivity].
  - assert (Hsplit :
      fold_right N.add 0
        (map (fun d => N.of_nat (length (filter (fun r0 => p r0 && (key r0 =? d) && q r0)
                                            (r :: l)))) ds) =
      fold_right N.add 0 (map (fun d => caseWhen (p r && q r) * caseWhen (key r =? d)) ds)
      + fold_right N.add 0
          (map (fun d => N.of_nat (length (filter (fun r0 => p r0 && (key r0 =? d) && q r0)
                                              l))) ds)).
    { rewrite <- sum_map_add. f_equal. apply map_ext. intros d. cbn [filter].
      destruct (p r), (key r =? d), (q r); cbn [andb caseWhen length]; lia. }
    rewrite Hsplit. clear Hsplit. cbn [filter].
    destruct (sum_indicator (key r) Hnd) as [Hile Hieq].
    destruct (p r && q r) eqn:Epq; cbn [caseWhen length].
    + assert (Hone : fold_right N.add 0 (map (fun d => 1 * caseWhen (key r =? d)) ds) =
                     fold_right N.add 0 (map (fun d => caseWhen (key r =? d)) ds)).
      { f_equal. apply map_ext. intros d. lia. }
      rewrite Hone. split; [lia |].
      intros Hcov. rewrite Hieq, IHeq.
      * lia.
      * intros r0 Hr0. apply Hcov. right. assumption.
      * apply Hcov; [left; reflexivity |].
        apply andb_true_iff in Epq. tauto.
    + assert (Hzero : fold_right N.add 0 (map (fun d => 0 * caseWhen (key r =? d)) ds) = 0).
      { etransitivity; [| apply (sum_map_zero ds)]. reflexivity. }
      rewrite Hzero. split; [lia |].
      intros Hcov. rewrite IHeq; [lia |].
      intros r0 Hr0. apply Hcov. right. assumption.
Qed.

(** The total of a column of the trend, as a count of rows. *)
Lemma trend_total s now movieId (q : Review -> bool) (col : TrendRow -> N) :
  (forall row, In row (selectTrend s now movieId) ->
     col row = N.of_nat (length (filter (fun r => ofMovie movieId r && onDate (date row) r
                                                  && q r) (reviews s)))) ->
  total col (selectTrend s now movieId) <=
    N.of_nat (length (filter q (filter (ofMovie movieId) (reviews s)))) /\
  ((forall r, In r (reviews s) -> movie_id r = movieId ->
              dateMinus30 now <= DATE (created_at r)) ->
   total col (selectTrend s now movieId) =
     N.of_nat (length (filter q (filter (ofMovie movieId) (reviews s))))).
Proof.
  intros Hcol. unfold total.
  assert (Hmap : map col (selectTrend s now movieId) =
                 map (fun d => N.of_nat (length (filter
                        (fun r => ofMovie movieId r && (DATE (created_at r) =? d) && q r)
                        (reviews s))))
                     (map date (selectTrend s now movieId))).
  { rewrite map_map. apply map_ext_in. intros row Hin. apply Hcol. exact Hin. }
  rewrite Hmap, filter_filter.
  assert (Hnd : NoDup (map date (selectTrend s now movieId))).
  { eapply Permutation_NoDup; [apply Permutation_sym, trend_dates | apply NoDup_nodup]. }
  destruct (count_by_key (fun r => DATE (created_at r)) (ofMovie movieId) q
              (reviews s) Hnd) as [Hle Heq].
  split; [exact Hle |].
  intros Hwin. apply Heq. intros r Hr Hm. apply trend_In_date.
  apply ofMovie_eq in Hm. exists r. auto.
Qed.

End TrendTotals.

(** [X16] The trend never counts more than the statistics: the positives
    of all its dates are at most positiveCount and the negatives at most
    negativeCount, and they are equal when every review of the movie lies
    in the window of the trend. *)
Theorem trend_totals_bounded
    (ai : Classifier) (w : World) (movieId : jsstring) (st : Stats) :
  statsOf (fst (fetch ai (GetSentiment movieId) w)) = Some st ->
  (total positive (trendOf (fst (fetch ai (GetSentiment movieId) w)))
     <= positiveCount st)%N /\
  (total negative (trendOf (fst (fetch ai (GetSentiment movieId) w)))
     <= negativeCount st)%N /\
  ((forall r, In r (reviews (db w)) -> movie_id r = movieId ->
              (DATE (clock w) - 30 <= DATE (created_at r))%N) ->
   total positive (trendOf (fst (fetch ai (GetSentiment movieId) w))) = positiveCount st /\
   total negative (trendOf (fst (fetch ai (GetSentiment movieId) w))) = negativeCount st).
Proof.
  rewrite fetch_getSentiment. cbn [fst].
  destruct (selectMovie (db w) movieId); [| discriminate].
  cbn [statsOf trendOf body jsonResponse]. intros H. inversion H; subst st. clear H.
  destruct (stats_counts (db w) movieId) as (_ & -> & ->).
  destruct (trend_total (db w) (clock w) movieId isPositive positive) as [Hp Hpe].
  { intros row Hin. apply (trend_counts _ _ _ _ Hin). }
  destruct (trend_total (db w) (clock w) movieId isNegative negative) as [Hn Hne].
  { intros row Hin. apply (trend_counts _ _ _ _ Hin). }
  split; [exact Hp |]. split; [exact Hn |].
  intros Hwin. split; [apply Hpe | apply Hne]; exact Hwin.
Qed.

(** [X16] at the two reviews of the scenario. *)
Lemma trend_totals_bounded_witness :
  statsOf (fst (fetch Scenario.sst2 (GetSentiment (js "tt0111161")) Scenario.twoReviews))
    = Some (assembleStats (selectStats (db Scenario.twoReviews) (js "tt0111161"))) /\
  (total positive (trendOf (fst (fetch Scenario.sst2 (GetSentiment (js "tt0111161"))
                                   Scenario.twoReviews)))
   <= positiveCount (assembleStats (selectStats (db Scenario.twoReviews)
                                      (js "tt0111161"))))%N.
Proof.
  split; [reflexivity |].
  apply (@trend_totals_bounded Scenario.sst2 Scenario.twoReviews (js "tt0111161")
           (assembleStats (selectStats (db Scenario.twoReviews) (js "tt0111161")))
           eq_refl).
Defined.

(* ===================================================================== *)
(** * More about the search *)
(* ===================================================================== *)

Section MoreSearchFacts.

Local Open Scope N_scope.

Lemma lowerChar_idem c : lowerChar (lowerChar c) = lowerChar c.
Proof.
  unfold lowerChar, between.
  destruct (65 <=? c) eqn:E1, (c <=? 90) eqn:E2; cbn [andb];
    rewrite ?E1, ?E2; cbn [andb]; try reflexivity.
  destruct (c + 32 <=? 90) eqn:E3; [| rewrite andb_false_r; reflexivity].
  apply N.leb_le in E1, E3. lia.
Qed.

Lemma lowerChar_percent c : (lowerChar c =? 37) = (c =? 37).
Proof.
  unfold lowerChar, between.
  destruct (65 <=? c) eqn:E1, (c <=? 90) eqn:E2; cbn [andb]; try reflexivity.
  apply N.leb_le in E1, E2.
  destruct (N.eqb_spec (c + 32) 37), (N.eqb_spec c 37); try reflexivity; lia.
Qed.

Lemma lowerChar_underscore c : (lowerChar c =? 95) = (c =? 95).
Proof.
  unfold lowerChar, between.
  destruct (65 <=? c) eqn:E1, (c <=? 90) eqn:E2; cbn [andb]; try reflexivity.
  apply N.leb_le in E1, E2.
  destruct (N.eqb_spec (c + 32) 95), (N.eqb_spec c 95); try reflexivity; lia.
Qed.

Lemma like_percent_cons p x t :
  like (37 :: p) (x :: t) = like p (x :: t) || like (37 :: p) t.
Proof. reflexivity. Qed.

(** LIKE does not see the case of the ASCII letters of its pattern. *)
Lemma like_lower p t : like (toLowerCase p) t = like p t.
Proof.
  revert t. induction p as [| c p IH]; intros t; [reflexivity |].
  cbn [toLowerCase map]. fold (toLowerCase p).
  destruct (c =? 37) eqn:E.
  - apply N.eqb_eq in E. subst c. change (lowerChar 37) with 37.
    induction t as [| x t IHt].
    + rewrite !like_percent, IH. reflexivity.
    + rewrite !like_percent_cons, IH. f_equal. exact IHt.
  - rewrite !like_cons by (rewrite ?lowerChar_percent; assumption).
    destruct t as [| x t]; [reflexivity |].
    rewrite lowerChar_underscore, lowerChar_idem, IH. reflexivity.
Qed.

(** A pattern of percent signs matches every text. *)
Lemma like_percents p t :
  forallb (fun c => c =? 37) p = true -> like (p ++ [37]) t = true.
Proof.
  induction p as [| c p IH]; intros H.
  - apply like_any.
  - cbn [forallb] in H. apply andb_true_iff in H. destruct H as [Hc Hp].
    apply N.eqb_eq in Hc. subst c. cbn [app].
    rewrite like_percent, (IH Hp). destruct t; reflexivity.
Qed.

Lemma filter_all {A} (p : A -> bool) l :
  (forall x, p x = true) -> filter p l = l.
Proof.
  intros H. induction l as [| x l IH]; [reflexivity |].
  simpl. rewrite H, IH. reflexivity.
Qed.

(** Lower case changes an ASCII capital and nothing else. *)
Lemma lowerChar_cases c :
  lowerChar c = c \/ (65 <= c <= 90 /\ lowerChar c = c + 32).
Proof.
  unfold lowerChar, between.
  destruct (N.leb_spec 65 c), (N.leb_spec c 90); cbn [andb]; auto.
Qed.

Lemma lowerChar_high c : isHigh (lowerChar c) = isHigh c.
Proof.
  destruct (lowerChar_cases c) as [-> | [Hc ->]]; [reflexivity |].
  unfold isHigh, between.
  destruct (N.leb_spec 55296 (c + 32)), (N.leb_spec 55296 c); try lia; reflexivity.
Qed.

Lemma lowerChar_low c : isLow (lowerChar c) = isLow c.
Proof.
  destruct (lowerChar_cases c) as [-> | [Hc ->]]; [reflexivity |].
  unfold isLow, between.
  destruct (N.leb_spec 56320 (c + 32)), (N.leb_spec 56320 c); try lia; reflexivity.
Qed.

Lemma lowerChar_big c : 128 <= c -> lowerChar c = c.
Proof. intros H. destruct (lowerChar_cases c) as [-> | [Hc _]]; [reflexivity | lia]. Qed.

Lemma isHigh_big c : isHigh c = true -> 128 <= c.
Proof.
  unfold isHigh, between. intros H. apply andb_true_iff in H.
  destruct H as [H _]. apply N.leb_le in H. lia.
Qed.

Lemma isLow_big c : isLow c = true -> 128 <= c.
Proof.
  unfold isLow, between. intros H. apply andb_true_iff in H.
  destruct H as [H _]. apply N.leb_le in H. lia.
Qed.

Lemma codePoints_lower (s : jsstring) :
  codePoints (toLowerCase s) = map lowerChar (codePoints s).
Proof.
  induction s as [| a | a b l IH1 IH2] using list_ind2; try reflexivity.
  change (toLowerCase (a :: b :: l))
    with (lowerChar a :: lowerChar b :: toLowerCase l).
  change (toLowerCase (b :: l)) with (lowerChar b :: toLowerCase l) in IH2.
  rewrite !codePoints_cons2, lowerChar_high, lowerChar_low.
  destruct (isHigh a) eqn:Ea, (isLow b) eqn:Eb; cbn [andb map];
    try (rewrite IH2; reflexivity).
  rewrite IH1, (lowerChar_big (isHigh_big _ Ea)), (lowerChar_big (isLow_big _ Eb)).
  rewrite lowerChar_big by lia. reflexivity.
Qed.

Lemma utf8Width_lower c : utf8Width (lowerChar c) = utf8Width c.
Proof.
  destruct (lowerChar_cases c) as [-> | [Hc ->]]; [reflexivity |].
  unfold utf8Width.
  destruct (N.ltb_spec (c + 32) 128), (N.ltb_spec c 128); try lia; reflexivity.
Qed.

Lemma utf8Length_lower (s : jsstring) : utf8Length (toLowerCase s) = utf8Length s.
Proof.
  unfold utf8Length. rewrite codePoints_lower, map_map. f_equal.
  apply map_ext. intros c. apply utf8Width_lower.
Qed.

Lemma sqlChar_lower c : sqlChar (lowerChar c) = lowerChar (sqlChar c).
Proof.
  destruct (lowerChar_cases c) as [Hl | [Hc Hl]].
  - rewrite Hl. unfold sqlChar.
    destruct (isHigh c || isLow c || (c =? 65534) || (c =? 65535));
      [| symmetry; exact Hl].
    symmetry. apply lowerChar_big. lia.
  - assert (Hs : forall x, 65 <= x <= 122 -> sqlChar x = x).
    { intros x Hx. unfold sqlChar, isHigh, isLow, between.
      destruct (N.leb_spec 55296 x), (N.leb_spec 56320 x),
        (N.eqb_spec x 65534), (N.eqb_spec x 65535); try lia; reflexivity. }
    rewrite Hl, !Hs by lia. symmetry. exact Hl.
Qed.

Lemma cstr_lower l : cstr (map lowerChar l) = map lowerChar (cstr l).
Proof.
  induction l as [| c l IH]; [reflexivity |]. cbn [map cstr].
  assert (Hz : (lowerChar c =? 0) = (c =? 0)).
  { destruct (lowerChar_cases c) as [-> | [Hc ->]]; [reflexivity |].
    destruct (N.eqb_spec (c + 32) 0), (N.eqb_spec c 0); try lia; reflexivity. }
  rewrite Hz. destruct (c =? 0); [reflexivity |]. cbn [map]. rewrite IH. reflexivity.
Qed.

(** LIKE reads the lower case of a text as the lower case of what it
    reads of the text. *)
Lemma sqlChars_lower (s : jsstring) : sqlChars (toLowerCase s) = toLowerCase (sqlChars s).
Proof.
  unfold sqlChars, toLowerCase. fold (toLowerCase s).
  rewrite codePoints_lower, map_map, <- cstr_lower, map_map. f_equal.
  apply map_ext. intros c. apply sqlChar_lower.
Qed.

Lemma percents_plain (q : jsstring) :
  forallb (fun c => c =? 37) q = true -> plain q = true.
Proof.
  unfold plain. induction q as [| c q IH]; [reflexivity |].
  cbn [forallb]. intros H. apply andb_true_iff in H. destruct H as [Hc Hq].
  apply N.eqb_eq in Hc. subst c. rewrite (IH Hq). reflexivity.
Qed.

Lemma utf8Length_percents (q : jsstring) :
  forallb (fun c => c =? 37) q = true -> utf8Length q = length q.
Proof.
  unfold utf8Length. induction q as [| c q IH]; [reflexivity |].
  cbn [forallb]. intros H. apply andb_true_iff in H. destruct H as [Hc Hq].
  apply N.eqb_eq in Hc. subst c. rewrite codePoints_cons by reflexivity.
  cbn [map length]. change (list_sum (utf8Width 37 :: ?l)) with (S (list_sum l)).
  specialize (IH Hq). cbn [list_sum fold_right] in *.
  change (utf8Width 37) with 1%nat. cbn [Nat.add]. f_equal. exact IH.
Qed.

End MoreSearchFacts.

(** [X17] The search does not see the case of ASCII letters in the query:
    two queries that differ only there get the same response. *)
Theorem search_ignores_ascii_case
    (ai : Classifier) (w : World) (q1 q2 : jsstring) :
  toLowerCase q1 = toLowerCase q2 ->
  fetch ai (GetMovies (Some q1)) w = fetch ai (GetMovies (Some q2)) w.
Proof.
  intros H. rewrite !fetch_getMovies.
  destruct q1 as [| c1 r1], q2 as [| c2 r2]; try discriminate; [reflexivity |].
  assert (HP : toLowerCase (js "%" ++ (c1 :: r1) ++ js "%") =
               toLowerCase (js "%" ++ (c2 :: r2) ++ js "%")).
  { unfold toLowerCase in *. rewrite !map_app, H. reflexivity. }
  assert (Hsame : selectMoviesLike (db w) (js "%" ++ (c1 :: r1) ++ js "%") =
                  selectMoviesLike (db w) (js "%" ++ (c2 :: r2) ++ js "%")).
  { unfold selectMoviesLike. destruct (movies (db w)) as [| m0 ms]; [reflexivity |].
    rewrite <- (utf8Length_lower (js "%" ++ (c1 :: r1) ++ js "%")), HP, utf8Length_lower.
    destruct (LIKE_PATTERN_LIMIT <? _)%nat; [reflexivity |].
    do 3 f_equal. apply filter_ext. intros m.
    rewrite <- (like_lower (sqlChars (js "%" ++ (c1 :: r1) ++ js "%"))).
    rewrite <- (like_lower (sqlChars (js "%" ++ (c2 :: r2) ++ js "%"))).
    rewrite <- !sqlChars_lower, HP. reflexivity. }
  rewrite Hsame. reflexivity.
Qed.

(** [X17] for DARK and dark. *)
Lemma search_ignores_ascii_case_witness :
  toLowerCase (js "DARK") = toLowerCase (js "dark") /\
  fetch Scenario.sst2 (GetMovies (Some (js "DARK"))) Scenario.start =
  fetch Scenario.sst2 (GetMovies (Some (js "dark"))) Scenario.start.
Proof.
  split; [reflexivity |].
  apply (@search_ignores_ascii_case Scenario.sst2 Scenario.start (js "DARK") (js "dark")).
  reflexivity.
Defined.

(** [X18] A query made of percent signs only, of at most 48 of them, is
    answered with the first 20 movies of the whole catalog in title order,
    whatever their titles; a longer one is answered 500 when the catalog
    has an entry. *)
Theorem search_percent_lists_catalog
    (ai : Classifier) (w : World) (q : jsstring) :
  q <> [] -> forallb (fun c => (c =? 37)%N) q = true ->
  if (48 <? length q)%nat && hasRows (movies (db w)) then
    fst (fetch ai (GetMovies (Some q)) w) = jsonResponse (InternalError D1Error) 500
  else
    fst (fetch ai (GetMovies (Some q)) w) =
      jsonResponse
        (Movies (limit 20 (orderBy byTitle (movies (db w))))
                (length (limit 20 (orderBy byTitle (movies (db w)))))) 200.
Proof.
  intros Hne Hq. rewrite fetch_getMovies.
  destruct q as [| c r]; [congruence |].
  rewrite selectMoviesLike_spec, (utf8Length_percents _ Hq).
  destruct ((48 <? length (c :: r))%nat && hasRows (movies (db w))); [reflexivity |].
  cbn [fst]. rewrite filter_all; [reflexivity |].
  intros m. pose proof (percents_plain _ Hq) as Hp.
  rewrite (@sqlChars_pattern _ (@plain_noNul _ Hp)), (@sqlChars_plain _ Hp).
  rewrite like_percent, like_percents by assumption. reflexivity.
Qed.

(** [X18] for the query of two percent signs. *)
Lemma search_percent_lists_catalog_witness :
  js "%%" <> [] /\
  fst (fetch Scenario.sst2 (GetMovies (Some (js "%%"))) Scenario.start) =
    jsonResponse
      (Movies (limit 20 (orderBy byTitle (movies (db Scenario.start))))
              (length (limit 20 (orderBy byTitle (movies (db Scenario.start)))))) 200.
Proof.
  split; [discriminate |].
  apply (@search_percent_lists_catalog Scenario.sst2 Scenario.start (js "%%"));
    [discriminate | reflexivity].
Defined.

(* ===================================================================== *)
(** * The client against the service *)
(* ===================================================================== *)

Section ClientFacts.

Local Open Scope N_scope.

Variable ai : Classifier.

(** The guard of handleAnalyze is the guard of the predict route. *)
Lemma client_guard t : negb (JsString.truthy (trim t)) = blank (Some t).
Proof.
  cbn [blank]. destruct (forallb isSpace t) eqn:E.
  - apply trim_nil in E. rewrite E. reflexivity.
  - destruct (trim t) as [| x y] eqn:Et; [| reflexivity].
    apply trim_nil in Et. congruence.
Qed.







(** handleAnalyze on a text that is not blank. *)
Lemma handleAnalyze_sends st w :
  blank (Some (reviewText st)) = false ->
  handleAnalyze ai st w =
    (match ai (cleanText (reviewText st)) with
     | AiResolved ({| label := Some l; score := Some s |} :: _) =>
         ({| reviewText := reviewText st; isAnalyzing := false; ri_error := None |},
          Some {| sr_text := Some (reviewText st);
                  sr_sentiment := Some (toLowerCase l);
                  sr_confidence := jsonNumber (parseFloat (toFixed 4 s)) |})
     | _ =>
         ({| reviewText := reviewText st; isAnalyzing := false;
             ri_error := Some "Failed to analyze sentiment. Please try again."%string |},
          None)
     end,
     {| db := db w; clock := clock w;
        aiCalls := aiCalls w ++ [cleanText (reviewText st)] |}).
Proof.
  intros Hb. unfold handleAnalyze. rewrite client_guard, Hb. cbn [negb].
  rewrite (@predict_classifies ai {| text := Some (reviewText st) |} w
             (reviewText st) eq_refl Hb).
  destruct (ai (cleanText (reviewText st))) as [| [| [[l |] [s |]] items]]; reflexivity.
Qed.

(** The two ways POST /api/reviews ends for the client. *)
Lemma saveReview_cases b w :
  (ok (fst (fetch ai (PostReviews b) w)) = true /\
   status (fst (fetch ai (PostReviews b) w)) = 201) \/
  (ok (fst (fetch ai (PostReviews b) w)) = false /\
   status (fst (fetch ai (PostReviews b) w)) <> 201 /\
   snd (fetch ai (PostReviews b) w) = w).
Proof.
  rewrite fetch_saveReview.
  destruct (missing (req_movieId b) || missing (req_text b)
            || missing (req_sentiment b)).
  { right. repeat split. discriminate. }
  destruct (req_movieId b) as [movieId |]; [| right; repeat split; discriminate].
  destruct (req_text b) as [t |]; [| right; repeat split; discriminate].
  destruct (req_sentiment b) as [s |]; [| right; repeat split; discriminate].
  destruct (selectMovie (db w) movieId); [| right; repeat split; discriminate].
  destruct (req_confidence b) as [c |]; [| right; repeat split; discriminate].
  destruct (isFinite c); [| right; repeat split; discriminate].
  left. split; reflexivity.
Qed.

Lemma appRun_snoc es e : appRun (es ++ [e]) = appStep (appRun es) e.
Proof. unfold appRun. rewrite fold_left_app. reflexivity. Qed.

End ClientFacts.

(** [X19] The client never gets the 400 of the predict route: a text that
    is blank is answered by the component itself, with no request sent;
    any other text is sent as typed and the classifier is asked once, about
    its cleaned form. *)
Theorem analyze_never_invalid_input (ai : Classifier) (st : ReviewInput) (w : World) :
  if blank (Some (reviewText st)) then
    handleAnalyze ai st w =
      ({| reviewText := reviewText st; isAnalyzing := isAnalyzing st;
          ri_error := Some "Please enter a review"%string |}, None, w)
  else
    status (fst (fetch ai (PostPredict {| text := Some (reviewText st) |}) w)) <> 400%N /\
    snd (handleAnalyze ai st w) =
      snd (fetch ai (PostPredict {| text := Some (reviewText st) |}) w) /\
    aiCalls (snd (handleAnalyze ai st w)) = aiCalls w ++ [cleanText (reviewText st)].
Proof.
  destruct (blank (Some (reviewText st))) eqn:Hb.
  - unfold handleAnalyze. rewrite client_guard, Hb. reflexivity.
  - rewrite (handleAnalyze_sends ai st w Hb).
    rewrite (@predict_classifies ai {| text := Some (reviewText st) |} w
               (reviewText st) eq_refl Hb).
    cbn [fst snd aiCalls]. split; [| split; reflexivity].
    destruct (ai (cleanText (reviewText st))) as [| [| [[l |] [s |]] items]];
      discriminate.
Qed.

(** [X20] For a classifier whose label is ASCII, handleAnalyze hands a
    result on exactly when the text is not blank and the classifier
    answers with a label and a score; the result carries the text as typed
    (not the cleaned one), the label in lower case and the score rounded
    to four decimals. *)
Theorem analyze_result
    (ai : Classifier) (st : ReviewInput) (w : World) (data : SentimentResult) :
  asciiLabel (ai (cleanText (reviewText st))) = true ->
  (snd (fst (handleAnalyze ai st w)) = Some data <->
   blank (Some (reviewText st)) = false /\
   exists l s rest,
     ai (cleanText (reviewText st)) =
       AiResolved ({| label := Some l; score := Some s |} :: rest) /\
     isAscii l = true /\
     data = {| sr_text := Some (reviewText st);
               sr_sentiment := Some (toLowerCase l);
               sr_confidence := jsonNumber (parseFloat (toFixed 4 s)) |}).
Proof.
  intros Hascii.
  destruct (blank (Some (reviewText st))) eqn:Hb.
  - unfold handleAnalyze. rewrite client_guard, Hb. cbn.
    split; [discriminate | intros [H _]; discriminate].
  - rewrite (handleAnalyze_sends ai st w Hb). cbn [fst snd].
    destruct (ai (cleanText (reviewText st))) as [| [| [[l |] [s |]] items]];
      cbn [fst snd]; split;
      try discriminate;
      try (intros (_ & l' & s' & rest & H & _); discriminate).
    + intros H. inversion H. split; [reflexivity |]. exists l, s, items. auto.
    + intros (_ & l' & s' & rest & H & _ & ->). inversion H. reflexivity.
Qed.

(** [X20] at the review of the scenario. *)
Lemma analyze_result_witness :
  asciiLabel (Scenario.sst2 (cleanText (js "Great movie!!!"))) = true /\
  snd (fst (handleAnalyze Scenario.sst2 (typed (js "Great movie!!!")) Scenario.start)) =
    Some {| sr_text := Some (js "Great movie!!!");
            sr_sentiment := Some (js "positive");
            sr_confidence := Some (Scenario.dec 9234 (-4)) |}.
Proof.
  split; [reflexivity |].
  apply (@analyze_result Scenario.sst2 (typed (js "Great movie!!!")) Scenario.start
           {| sr_text := Some (js "Great movie!!!");
              sr_sentiment := Some (js "positive");
              sr_confidence := Some (Scenario.dec 9234 (-4)) |} eq_refl).
  split; [reflexivity |].
  exists (js "POSITIVE"), (Scenario.dec 923441 (-6)), [].
  split; [reflexivity |]. split; [reflexivity |]. vm_compute. reflexivity.
Defined.



(** [X22] handleSaveReview reports what happened: without a selected
    movie it does nothing; with one it ends either in the saved state, and
    then exactly one review of that movie was appended, or with its error
    message, and then the store is as it was. *)
Theorem save_reports_what_happened
    (ai : Classifier) (sel : option Movie) (result : SentimentResult)
    (st : SaveState) (w : World) :
  match sel with
  | None => handleSaveReview ai sel result st w = (st, w)
  | Some m =>
      (fst (handleSaveReview ai sel result st w) =
         {| isSaving := false; saved := true; sv_error := None |} /\
       exists row,
         reviews (db (snd (handleSaveReview ai sel result st w))) =
           reviews (db w) ++ [row] /\
         movie_id row = id m /\ sr_text result <> None /\
         Some (sentiment row) = sr_sentiment result /\
         Some (confidence row) = sr_confidence result)
      \/
      (fst (handleSaveReview ai sel result st w) =
         {| isSaving := false; saved := saved st;
            sv_error := Some "Failed to save review. Please try again."%string |} /\
       snd (handleSaveReview ai sel result st w) = w)
  end.
Proof.
  destruct sel as [m |]; [| reflexivity].
  unfold handleSaveReview.
  destruct (saveReview_cases ai (saveRequest m result) w) as [[Hok H201] | (Hok & _ & Hw)].
  - left.
    destruct (saveReview_201 ai (saveRequest m result) w H201)
      as (movieId & t & s & c & m' & Hm & Ht & Hs & Hc & _ & Hsnd).
    destruct (fetch ai (PostReviews (saveRequest m result)) w) as [resp w'].
    cbn [fst snd] in *. rewrite Hok. cbn [fst snd]. split; [reflexivity |].
    subst w'. cbn [db reviews]. eexists. split; [reflexivity |].
    cbn [movie_id sentiment confidence saveRequest req_movieId req_text
         req_sentiment req_confidence] in *.
    inversion Hm. rewrite Ht, Hs, Hc. repeat split. discriminate.
  - right.
    destruct (fetch ai (PostReviews (saveRequest m result)) w) as [resp w'].
    cbn [fst snd] in *. rewrite Hok. cbn [fst snd]. split; [reflexivity | exact Hw].
Qed.

(** [X23] The search box: a query of fewer than two code units sends
    nothing and empties the list; a longer, well-formed one is sent and the
    dropdown is shown with the answer of the search route: at most 20
    movies of the catalog whose titles match the pattern [%query%], never
    the listing of the whole catalog that the route gives without a query;
    or with no movie, when the store refuses the pattern and the route
    answers 500, which takes a query of more than 48 bytes.  Nothing
    changes behind the API. *)
Theorem search_box
    (ai : Classifier) (q : jsstring) (st : MovieSearch) (w : World) :
  snd (setSearchQuery ai q st w) = w /\
  ((length q <= 1)%nat ->
     ms_movies (fst (setSearchQuery ai q st w)) = [] /\
     showDropdown (fst (setSearchQuery ai q st w)) = false) /\
  ((1 < length q)%nat -> wellFormed q = true ->
     showDropdown (fst (setSearchQuery ai q st w)) = true /\
     match selectMoviesLike (db w) (js "%" ++ q ++ js "%") with
     | Some ms =>
         status (fst (fetch ai (GetMovies (Some q)) w)) = 200%N /\
         ms_movies (fst (setSearchQuery ai q st w)) = ms /\
         (length ms <= 20)%nat /\
         forall m, In m ms ->
                   In m (movies (db w)) /\
                   like (sqlChars (js "%" ++ q ++ js "%")) (sqlChars (title m)) = true
     | None =>
         status (fst (fetch ai (GetMovies (Some q)) w)) = 500%N /\
         ms_movies (fst (setSearchQuery ai q st w)) = [] /\
         (48 < utf8Length q)%nat
     end).
Proof.
  unfold setSearchQuery. rewrite fetch_getMovies.
  destruct (Nat.ltb_spec 1 (length q)) as [Hlen | Hlen].
  - destruct q as [| c r]; [simpl in Hlen; lia |].
    destruct (wellFormed (c :: r)) eqn:Hwf.
    + rewrite selectMoviesLike_spec.
      destruct (orderBy_limit 20
                  (filter (fun m => like (sqlChars (js "%" ++ (c :: r) ++ js "%"))
                                         (sqlChars (title m)))
                          (movies (db w)))) as (rest & _ & Hperm & _ & Hle).
      set (p := sqlChars (js "%" ++ (c :: r) ++ js "%")) in *.
      set (found := limit 20 _) in *.
      destruct ((48 <? utf8Length (c :: r))%nat && hasRows (movies (db w))) eqn:E;
        cbn [fst snd body status jsonResponse moviesData ms_movies showDropdown].
      * split; [reflexivity |]. split; [intros H; lia |]. intros _ _.
        split; [reflexivity |]. split; [reflexivity |]. split; [reflexivity |].
        apply andb_true_iff in E. destruct E as [E _]. apply Nat.ltb_lt in E. exact E.
      * split; [reflexivity |]. split; [intros H; lia |]. intros _ _.
        split; [reflexivity |]. split; [reflexivity |]. split; [reflexivity |].
        split; [exact Hle |]. intros m Hm.
        assert (Hf : In m (filter (fun m0 => like p (sqlChars (title m0)))
                                  (movies (db w))))
          by (apply (Permutation_in _ Hperm); apply in_or_app; left; exact Hm).
        apply filter_In in Hf. exact Hf.
    + cbn [fst snd ms_movies showDropdown].
      split; [reflexivity |]. split; [intros H; lia |]. intros _ H. discriminate.
  - cbn [fst snd ms_movies showDropdown]. split; [reflexivity |].
    split; [auto |]. intros H. lia.
Qed.

(** [X24] The App, after any sequence of events: the statistics view is
    only up while a movie is selected, and a result on display was handed
    over after the last change of movie, so that it is saved for the movie
    that was selected when the review was analyzed. *)
Theorem app_result_belongs_to_movie (es : list AppEvent) :
  (showMovieDetail (appRun es) = true -> selectedMovie (appRun es) <> None) /\
  (forall r, sentimentResult (appRun es) = Some r ->
     exists es1 es2,
       es = es1 ++ SentimentAnalyzed r :: es2 /\
       forallb isNavigation es2 = true /\
       selectedMovie (appRun es1) = selectedMovie (appRun es)).
Proof.
  induction es as [| e es [IH1 IH2]] using rev_ind.
  - split; [discriminate |]. intros r H. discriminate.
  - rewrite appRun_snoc.
    assert (Hnav : forall r, isNavigation e = true ->
              selectedMovie (appStep (appRun es) e) = selectedMovie (appRun es) ->
              sentimentResult (appStep (appRun es) e) = sentimentResult (appRun es) ->
              sentimentResult (appStep (appRun es) e) = Some r ->
              exists es1 es2,
                es ++ [e] = es1 ++ SentimentAnalyzed r :: es2 /\
                forallb isNavigation es2 = true /\
                selectedMovie (appRun es1) = selectedMovie (appStep (appRun es) e)).
    { intros r He Hsel Hres Hr. rewrite Hres in Hr.
      destruct (IH2 r Hr) as (es1 & es2 & -> & Hn & Hs).
      exists es1, (es2 ++ [e]). rewrite <- app_assoc. split; [reflexivity |].
      rewrite forallb_app, Hn. cbn [forallb]. rewrite He. split; [reflexivity |].
      rewrite Hsel. exact Hs. }
    destruct e as [movie | result | |]; cbn [appStep].
    + split; [discriminate |]. intros r H. discriminate.
    + split; [exact IH1 |]. intros r H. cbn in H. inversion H; subst r.
      exists es, []. auto.
    + split.
      * unfold handleViewStats. destruct (selectedMovie (appRun es)) eqn:E.
        -- intros _. cbn. discriminate.
        -- intros H. apply IH1 in H. congruence.
      * intros r. apply (Hnav r eq_refl); cbn [appStep]; unfold handleViewStats;
          destruct (selectedMovie (appRun es)) eqn:E; cbn; rewrite ?E; reflexivity.
    + split; [discriminate |].
      intros r. apply (Hnav r eq_refl); reflexivity.
Qed.

(** [X25] Every review that the service stores is a review of a movie of
    the catalog: starting from the seeded catalog, whatever requests
    arrive, each row of reviews carries the id of a catalog movie. *)
Theorem stored_reviews_reference_catalog
    (ai : Classifier) (reqs : list Arrival) (catalog : list Movie) :
  Forall (fun r => exists m, In m catalog /\ id m = movie_id r)
    (reviews (db (run ai reqs (initial catalog)))).
Proof.
  assert (Hgen : forall w,
            movies (db w) = catalog ->
            Forall (fun r => exists m, In m catalog /\ id m = movie_id r)
                   (reviews (db w)) ->
            Forall (fun r => exists m, In m catalog /\ id m = movie_id r)
                   (reviews (db (run ai reqs w)))).
  { induction reqs as [| [t r] rest IH]; intros w Hcat Hw; [exact Hw |].
    simpl. destruct (fetch_tables ai r (at_time t w)) as [Hmov Hrev].
    apply IH; [rewrite Hmov; exact Hcat |].
    destruct Hrev as [-> | (b & txt & row & -> & H201 & _ & _ & _ & _ & _ & Hid & _ & ->)];
      [exact Hw |].
    apply Forall_app. split; [exact Hw |]. constructor; [| constructor].
    destruct (saveReview_201 ai b (at_time t w) H201)
      as (movieId & _ & _ & _ & m & Hm & _ & _ & _ & Hsel & _).
    apply selectMovie_Some in Hsel. destruct Hsel as [Hin Heq].
    exists m. rewrite <- Hcat. split; [exact Hin |]. congruence. }
  apply Hgen; [reflexivity | constructor].
Qed.
